(** * ChargeStore: the charge lifecycle state machine, its poller and the
      direct-wallet event handlers

    A shallow embedding of the [ChargeStore] class (the MobX store that
    tracks one charge from creation to settlement) and the properties of its
    transition functions.

    Conventions of the embedding:
    - the store instance ([this]) and the host facilities it talks to
      (timers, the tracking sink, the payment-button widget, the parent
      store, the console, the backend client) form one [State]; calls into
      the host are recorded, in order, in the [effects] trace;
    - an action is a function [State -> Outcome A]: it either returns a
      value ([Done]) or throws ([Thrown]), in both cases with the state as
      the action left it;
    - an [async] function is split at its [await]: the part that runs
      synchronously up to the request, and the continuation that runs when
      the request settles;
    - JavaScript objects used as maps ([charge.addresses], [charge.pricing],
      the lower-send-limit table) are [gmap]s keyed by strings, so that
      equality of charges is the key-order-insensitive deep equality of
      lodash's [isEqual];
    - JavaScript numbers that take part in a floating-point comparison are
      binary64 [float]s; counters and JSON integers are [nat] and [Z]. *)

From Stdlib Require Import Floats.PrimFloat ZArith.
From stdpp Require Import gmap strings list fin_maps sorting.

#[local] Set Warnings "-inexact-float".
#[local] Open Scope string_scope.

(** ** Data model *)

Inductive ChargeStep :=
| networkPicker
| oauth
| awaitingPayment
| pendingPayment
| waitingForConfirmations
| successfulPayment
| failedPayment
| canceledPayment
| processingCancellation
| maintenance.

Inductive PollStatus := polling | stopped | error.

Inductive Context := ctxPoll | ctxStartup | ctxCancel.

(** [CryptoMoney]: the amount is the decimal string the API sends. *)
Record CryptoMoney := { amount : string; currency : string }.

Record Block := { confirmations : Z; confirmationsRequired : Z }.

Record Payment := { transactionId : string; block : Block }.

Record TimelineEntry := { status : string; time : string }.

Record Charge := {
  code : string;
  pricingType : string;
  addresses : gmap string string;
  pricing : option (gmap string CryptoMoney);
  timeline : list TimelineEntry;
  payments : list Payment;
  expiresAt : string;
  cancelUrl : option string
}.

#[global] Instance CryptoMoney_eq_dec : EqDecision CryptoMoney.
Proof. solve_decision. Defined.
#[global] Instance Block_eq_dec : EqDecision Block.
Proof. solve_decision. Defined.
#[global] Instance Payment_eq_dec : EqDecision Payment.
Proof. solve_decision. Defined.
#[global] Instance TimelineEntry_eq_dec : EqDecision TimelineEntry.
Proof. solve_decision. Defined.
#[global] Instance Charge_eq_dec : EqDecision Charge.
Proof. solve_decision. Defined.
#[global] Instance ChargeStep_eq_dec : EqDecision ChargeStep.
Proof. solve_decision. Defined.
#[global] Instance Context_eq_dec : EqDecision Context.
Proof. solve_decision. Defined.

(** A JavaScript value as far as truthiness is concerned: what a wallet
    provider may hand to the [transactionHash] listener. *)
Inductive JsValue :=
| JsUndefined
| JsNull
| JsBool (b : bool)
| JsNumber (x : float)
| JsString (s : string).

(** [!!v]: [undefined], [null], [false], [0], [-0], [NaN] and the empty
    string are falsy. *)
Definition truthy (v : JsValue) : bool :=
  match v with
  | JsUndefined | JsNull => false
  | JsBool b => b
  | JsNumber x => negb (PrimFloat.eqb x 0 || PrimFloat.is_nan x)
  | JsString s => negb (String.eqb s "")
  end.

Inductive Web3Status :=
| w3idle
| w3asking
| w3declined (cur : string)
| w3submitted (txId : JsValue)
| w3mined (txId : JsValue) (confs : Z)
| w3canceled
| w3failed
| w3unsupported
| w3wrongChain
| w3noAccount.

(** What a rejected promise or a [throw] carries: the two properties the
    store inspects ([statusCode], [type]) and the message. *)
Record JsError := {
  statusCode : option Z;
  errType : option string;
  message : string
}.

Definition TypeError (msg : string) : JsError :=
  {| statusCode := None; errType := None; message := msg |}.

Definition TimerId := positive.

Inductive TimerCallback :=
| cbNoop    (* [() => {}] *)
| cbPoll    (* [this.poll] *)
| cbTick.   (* [() => { this.now = Date.now() / 1000 }] *)

(** Calls that leave the store. *)
Inductive Effect :=
| Track (event : string)
| SendPaymentDetectedEvent (chargeCode : string)
| SendSuccessfulChargeEvent (chargeCode : string)
| SendFailedChargeEvent (chargeCode : string)
| ReturnHome
| SetTimeout (id : TimerId) (cb : TimerCallback) (delay : Z)
| SetInterval (id : TimerId) (cb : TimerCallback) (delay : Z)
| ClearTimeout (id : TimerId)
| ClearInterval (id : TimerId)
| ConsoleWarn (msg : string)
| ConsoleError (msg : string) (e : JsError)
| GetChargeFromOrderCode (chargeCode : string)
| CancelChargeRequest (chargeCode : string).

(** The store's fields, followed by the part of the host it reads
    ([document.hidden], [Date.now()], [IS_LOCAL_STORAGE_AVAILABLE]), the
    next free timer handle and the trace of effects (oldest first). *)
Record State := {
  charge : option Charge;
  step : option ChargeStep;
  pickedNetwork : option string;
  now : float;
  web3Status : Web3Status;
  pollErrorStreak : nat;
  isChargeBelowCoinbaseLowerSendLimit : option bool;
  pollTimeoutId : option TimerId;
  expiryIntervalId : option TimerId;
  documentHidden : bool;
  dateNow : float;
  IS_LOCAL_STORAGE_AVAILABLE : bool;
  nextTimer : TimerId;
  effects : list Effect
}.

Definition set_charge (v : option Charge) (s : State) : State :=
  {| charge := v; step := step s; pickedNetwork := pickedNetwork s;
     now := now s; web3Status := web3Status s;
     pollErrorStreak := pollErrorStreak s;
     isChargeBelowCoinbaseLowerSendLimit := isChargeBelowCoinbaseLowerSendLimit s;
     pollTimeoutId := pollTimeoutId s; expiryIntervalId := expiryIntervalId s;
     documentHidden := documentHidden s; dateNow := dateNow s;
     IS_LOCAL_STORAGE_AVAILABLE := IS_LOCAL_STORAGE_AVAILABLE s;
     nextTimer := nextTimer s; effects := effects s |}.

Definition set_step (v : option ChargeStep) (s : State) : State :=
  {| charge := charge s; step := v; pickedNetwork := pickedNetwork s;
     now := now s; web3Status := web3Status s;
     pollErrorStreak := pollErrorStreak s;
     isChargeBelowCoinbaseLowerSendLimit := isChargeBelowCoinbaseLowerSendLimit s;
     pollTimeoutId := pollTimeoutId s; expiryIntervalId := expiryIntervalId s;
     documentHidden := documentHidden s; dateNow := dateNow s;
     IS_LOCAL_STORAGE_AVAILABLE := IS_LOCAL_STORAGE_AVAILABLE s;
     nextTimer := nextTimer s; effects := effects s |}.

Definition set_pickedNetwork (v : option string) (s : State) : State :=
  {| charge := charge s; step := step s; pickedNetwork := v;
     now := now s; web3Status := web3Status s;
     pollErrorStreak := pollErrorStreak s;
     isChargeBelowCoinbaseLowerSendLimit := isChargeBelowCoinbaseLowerSendLimit s;
     pollTimeoutId := pollTimeoutId s; expiryIntervalId := expiryIntervalId s;
     documentHidden := documentHidden s; dateNow := dateNow s;
     IS_LOCAL_STORAGE_AVAILABLE := IS_LOCAL_STORAGE_AVAILABLE s;
     nextTimer := nextTimer s; effects := effects s |}.

Definition set_now (v : float) (s : State) : State :=
  {| charge := charge s; step := step s; pickedNetwork := pickedNetwork s;
     now := v; web3Status := web3Status s;
     pollErrorStreak := pollErrorStreak s;
     isChargeBelowCoinbaseLowerSendLimit := isChargeBelowCoinbaseLowerSendLimit s;
     pollTimeoutId := pollTimeoutId s; expiryIntervalId := expiryIntervalId s;
     documentHidden := documentHidden s; dateNow := dateNow s;
     IS_LOCAL_STORAGE_AVAILABLE := IS_LOCAL_STORAGE_AVAILABLE s;
     nextTimer := nextTimer s; effects := effects s |}.

Definition set_web3Status (v : Web3Status) (s : State) : State :=
  {| charge := charge s; step := step s; pickedNetwork := pickedNetwork s;
     now := now s; web3Status := v;
     pollErrorStreak := pollErrorStreak s;
     isChargeBelowCoinbaseLowerSendLimit := isChargeBelowCoinbaseLowerSendLimit s;
     pollTimeoutId := pollTimeoutId s; expiryIntervalId := expiryIntervalId s;
     documentHidden := documentHidden s; dateNow := dateNow s;
     IS_LOCAL_STORAGE_AVAILABLE := IS_LOCAL_STORAGE_AVAILABLE s;
     nextTimer := nextTimer s; effects := effects s |}.

Definition set_pollErrorStreak (v : nat) (s : State) : State :=
  {| charge := charge s; step := step s; pickedNetwork := pickedNetwork s;
     now := now s; web3Status := web3Status s;
     pollErrorStreak := v;
     isChargeBelowCoinbaseLowerSendLimit := isChargeBelowCoinbaseLowerSendLimit s;
     pollTimeoutId := pollTimeoutId s; expiryIntervalId := expiryIntervalId s;
     documentHidden := documentHidden s; dateNow := dateNow s;
     IS_LOCAL_STORAGE_AVAILABLE := IS_LOCAL_STORAGE_AVAILABLE s;
     nextTimer := nextTimer s; effects := effects s |}.

Definition set_isChargeBelowCoinbaseLowerSendLimit (v : option bool) (s : State) : State :=
  {| charge := charge s; step := step s; pickedNetwork := pickedNetwork s;
     now := now s; web3Status := web3Status s;
     pollErrorStreak := pollErrorStreak s;
     isChargeBelowCoinbaseLowerSendLimit := v;
     pollTimeoutId := pollTimeoutId s; expiryIntervalId := expiryIntervalId s;
     documentHidden := documentHidden s; dateNow := dateNow s;
     IS_LOCAL_STORAGE_AVAILABLE := IS_LOCAL_STORAGE_AVAILABLE s;
     nextTimer := nextTimer s; effects := effects s |}.

Definition set_pollTimeoutId (v : option TimerId) (s : State) : State :=
  {| charge := charge s; step := step s; pickedNetwork := pickedNetwork s;
     now := now s; web3Status := web3Status s;
     pollErrorStreak := pollErrorStreak s;
     isChargeBelowCoinbaseLowerSendLimit := isChargeBelowCoinbaseLowerSendLimit s;
     pollTimeoutId := v; expiryIntervalId := expiryIntervalId s;
     documentHidden := documentHidden s; dateNow := dateNow s;
     IS_LOCAL_STORAGE_AVAILABLE := IS_LOCAL_STORAGE_AVAILABLE s;
     nextTimer := nextTimer s; effects := effects s |}.

Definition set_expiryIntervalId (v : option TimerId) (s : State) : State :=
  {| charge := charge s; step := step s; pickedNetwork := pickedNetwork s;
     now := now s; web3Status := web3Status s;
     pollErrorStreak := pollErrorStreak s;
     isChargeBelowCoinbaseLowerSendLimit := isChargeBelowCoinbaseLowerSendLimit s;
     pollTimeoutId := pollTimeoutId s; expiryIntervalId := v;
     documentHidden := documentHidden s; dateNow := dateNow s;
     IS_LOCAL_STORAGE_AVAILABLE := IS_LOCAL_STORAGE_AVAILABLE s;
     nextTimer := nextTimer s; effects := effects s |}.

(** Append one effect to the trace. *)
Definition record_effect (e : Effect) (s : State) : State :=
  {| charge := charge s; step := step s; pickedNetwork := pickedNetwork s;
     now := now s; web3Status := web3Status s;
     pollErrorStreak := pollErrorStreak s;
     isChargeBelowCoinbaseLowerSendLimit := isChargeBelowCoinbaseLowerSendLimit s;
     pollTimeoutId := pollTimeoutId s; expiryIntervalId := expiryIntervalId s;
     documentHidden := documentHidden s; dateNow := dateNow s;
     IS_LOCAL_STORAGE_AVAILABLE := IS_LOCAL_STORAGE_AVAILABLE s;
     nextTimer := nextTimer s; effects := effects s ++ [e] |}.

(** Hand out a fresh timer handle. *)
Definition bump_timer (s : State) : State :=
  {| charge := charge s; step := step s; pickedNetwork := pickedNetwork s;
     now := now s; web3Status := web3Status s;
     pollErrorStreak := pollErrorStreak s;
     isChargeBelowCoinbaseLowerSendLimit := isChargeBelowCoinbaseLowerSendLimit s;
     pollTimeoutId := pollTimeoutId s; expiryIntervalId := expiryIntervalId s;
     documentHidden := documentHidden s; dateNow := dateNow s;
     IS_LOCAL_STORAGE_AVAILABLE := IS_LOCAL_STORAGE_AVAILABLE s;
     nextTimer := Pos.succ (nextTimer s); effects := effects s |}.

(** ** Actions: state passing with exceptions *)

Inductive Outcome (A : Type) :=
| Done (a : A) (s : State)
| Thrown (e : JsError) (s : State).
Arguments Done {A} a s.
Arguments Thrown {A} e s.

Definition Act (A : Type) : Type := State -> Outcome A.

Definition ret {A} (a : A) : Act A := fun s => Done a s.

Definition bind {A B} (m : Act A) (k : A -> Act B) : Act B :=
  fun s => match m s with
           | Done a s' => k a s'
           | Thrown e s' => Thrown e s'
           end.

Definition throw {A} (e : JsError) : Act A := fun s => Thrown e s.

(** [try { body } catch (e) { handler e }] *)
Definition try_catch {A} (body : Act A) (handler : JsError -> Act A) : Act A :=
  fun s => match body s with
           | Done a s' => Done a s'
           | Thrown e s' => handler e s'
           end.

Definition get : Act State := fun s => Done s s.
Definition modify (f : State -> State) : Act unit := fun s => Done tt (f s).
Definition emit (e : Effect) : Act unit := modify (record_effect e).

Declare Scope act_scope.
Delimit Scope act_scope with act.
Notation "x <- m ;; k" := (bind m (fun x => k))
  (at level 90, m at next level, right associativity) : act_scope.
Notation "m ;;; k" := (bind m (fun _ => k))
  (at level 90, right associativity) : act_scope.
#[local] Open Scope act_scope.

(** The final state of an outcome, whichever way the action ended. *)
Definition final {A} (o : Outcome A) : State :=
  match o with Done _ s => s | Thrown _ s => s end.

(** What an [async] function has done when control returns to its caller:
    it ran to completion, or it is suspended at its [await]. *)
Inductive Async (A : Type) :=
| Settled (a : A)
| Suspended.
Arguments Settled {A} a.
Arguments Suspended {A}.

(** How the awaited promise settles. *)
Inductive Settlement (A : Type) :=
| Fulfilled (a : A)
| Rejected (e : JsError).
Arguments Fulfilled {A} a.
Arguments Rejected {A} e.

Definition await {A} (r : Settlement A) : Act A :=
  match r with
  | Fulfilled a => ret a
  | Rejected e => throw e
  end.

(** ** Constants *)

Definition POLL_ERROR_THRESHOLD : nat := 3.

Definition COINBASE_CRYPTO_LOWER_SEND_LIMIT : gmap string float :=
  list_to_map
    [ ("BTC", 0.0001%float);
      ("BCH", 0.00001%float);
      ("LTC", 0.001%float);
      ("ETH", 0.001%float);
      ("USDC", 0.001%float);
      ("BEER", 0.001%float);
      ("TST", 0.001%float) ].

(** ** Derived values of a charge *)

(** [timeline[timeline.length - 1]?.status] *)
Definition statusOf (c : Charge) : option string :=
  status <$> last (timeline c).

(** [charge.pricingType !== 'fixed_price'] *)
Definition unpriced (c : Charge) : bool :=
  negb (String.eqb (pricingType c) "fixed_price").

(** [Object.keys(charge.addresses).sort()]: the default sort compares the
    keys as strings. *)
Definition networksOf (c : Charge) : list string :=
  merge_sort (fun a b : string => Is_true (String.leb a b))
             (map fst (map_to_list (addresses c))).

(** [charge.pricing[key]], [None] when the entry (or the whole pricing
    object) is missing. *)
Definition priceOf (c : Charge) (key : string) : option CryptoMoney :=
  match pricing c with
  | Some p => p !! key
  | None => None
  end.

(** [isEqual(toJS(this.charge), charge)] *)
Definition isEqual (held : option Charge) (c : Charge) : bool :=
  bool_decide (held = Some c).

(** ** Computed getters *)

(** Reading a property of [this.charge]; throws when no charge is held. *)
Definition getCharge : Act Charge :=
  s <- get ;;
  match charge s with
  | Some c => ret c
  | None => throw (TypeError "Cannot read properties of undefined")
  end.

Definition shouldShowPayWithCoinbase (c : Charge) : Act bool :=
  s <- get ;;
  ret (negb (String.eqb (pricingType c) "no_price") && IS_LOCAL_STORAGE_AVAILABLE s).

Definition activePayment : Act (option Payment) :=
  c <- getCharge ;; ret (head (payments c)).

Definition pollDelay (s : State) : Z :=
  if bool_decide (step s = Some networkPicker)
     || bool_decide (step s = Some maintenance)
     || documentHidden s
  then 15000
  else if Nat.ltb 10 (pollErrorStreak s) then 10000
  else if Nat.ltb 5 (pollErrorStreak s) then 5000
  else 2000.

Definition pollStatus (s : State) : PollStatus :=
  if Nat.ltb POLL_ERROR_THRESHOLD (pollErrorStreak s) then error
  else match pollTimeoutId s with Some _ => polling | None => stopped end.

Definition networks : Act (list string) :=
  c <- getCharge ;; ret (networksOf c).

Definition shouldSkipNetworkPicker : Act bool :=
  c <- getCharge ;;
  pwcb <- shouldShowPayWithCoinbase c ;;
  if negb pwcb
  then nets <- networks ;; ret (Nat.eqb (length nets) 1)
  else ret false.

Definition isUnpriced : Act bool :=
  c <- getCharge ;; ret (unpriced c).

Definition chargeStatus : Act (option string) :=
  c <- getCharge ;; ret (statusOf c).

(** ** Timers *)

Definition setTimeout (cb : TimerCallback) (delay : Z) : Act TimerId :=
  s <- get ;;
  modify bump_timer ;;;
  emit (SetTimeout (nextTimer s) cb delay) ;;;
  ret (nextTimer s).

Definition setInterval (cb : TimerCallback) (delay : Z) : Act TimerId :=
  s <- get ;;
  modify bump_timer ;;;
  emit (SetInterval (nextTimer s) cb delay) ;;;
  ret (nextTimer s).

(** ** Actions *)

Definition stopPolling : Act unit :=
  s <- get ;;
  match pollTimeoutId s with
  | Some id => emit (ClearTimeout id) ;;; modify (set_pollTimeoutId None)
  | None => ret tt
  end ;;;
  s <- get ;;
  match expiryIntervalId s with
  | Some id => emit (ClearInterval id) ;;; modify (set_expiryIntervalId None)
  | None => ret tt
  end ;;;
  modify (set_pollErrorStreak 0).

(** [poll], up to its [await]: the guards, the sentinel handle and the
    request. *)
Definition poll (isInitial : bool) : Act (Async unit) :=
  s <- get ;;
  match charge s with
  | None => ret (Settled tt)
  | Some c =>
    if bool_decide (is_Some (pollTimeoutId s)) && isInitial
    then emit (ConsoleWarn "poll: already in a poll state") ;;; ret (Settled tt)
    else
      id <- setTimeout cbNoop 0 ;;
      modify (set_pollTimeoutId (Some id)) ;;;
      emit (GetChargeFromOrderCode (code c)) ;;;
      ret Suspended
  end.

Definition startPolling : Act unit :=
  stopPolling ;;;
  poll true ;;;
  s <- get ;;
  modify (set_now (dateNow s / 1000)%float) ;;;
  id <- setInterval cbTick 1000 ;;
  modify (set_expiryIntervalId (Some id)).

Definition showAwaitingPayment (network : option string) : Act unit :=
  modify (set_pickedNetwork network) ;;;
  emit (Track "checkout:awaiting-payment-shown") ;;;
  modify (set_step (Some awaitingPayment)) ;;;
  startPolling.

Definition showNetworkPicker : Act unit :=
  modify (set_pickedNetwork None) ;;;
  skip <- shouldSkipNetworkPicker ;;
  if skip
  then nets <- networks ;; showAwaitingPayment (head nets)
  else modify (set_step (Some networkPicker)).

Definition showOAuthScreen : Act unit :=
  modify (set_step (Some oauth)).

Definition showPendingPayment : Act unit :=
  emit (Track "checkout:payment-detected") ;;;
  modify (set_step (Some pendingPayment)) ;;;
  c <- getCharge ;;
  emit (SendPaymentDetectedEvent (code c)).

Definition showWaitingForConfirmations : Act unit :=
  emit (Track "checkout:payment-waiting-for-confirmations") ;;;
  modify (set_step (Some waitingForConfirmations)).

Definition showSuccessfulPayment : Act unit :=
  emit (Track "checkout:payment-completed") ;;;
  modify (set_step (Some successfulPayment)) ;;;
  stopPolling ;;;
  c <- getCharge ;;
  emit (SendSuccessfulChargeEvent (code c)).

Definition showFailedPayment : Act unit :=
  emit (Track "checkout:payment-failed") ;;;
  c <- getCharge ;;
  emit (SendFailedChargeEvent (code c)) ;;;
  modify (set_step (Some failedPayment)) ;;;
  stopPolling.

Definition showCanceledPayment : Act unit :=
  emit (Track "checkout:payment-canceled") ;;;
  c <- getCharge ;;
  emit (SendFailedChargeEvent (code c)) ;;;
  modify (set_step (Some canceledPayment)) ;;;
  stopPolling.

Definition showMaintenanceMode : Act unit :=
  modify (set_step (Some maintenance)).

Definition processPendingPayment : Act unit :=
  payment <- activePayment ;;
  match payment with
  | None => ret tt
  | Some p =>
    if (confirmationsRequired (block p) <=? confirmations (block p))%Z
    then showSuccessfulPayment
    else if (confirmations (block p) =? 0)%Z
    then showPendingPayment
    else showWaitingForConfirmations
  end.

(** [status === lit], as the [switch] compares. *)
Definition is_status (st : option string) (lit : string) : bool :=
  bool_decide (st = Some lit).

Definition processChargeUpdate (c : Charge) (context : Context) : Act unit :=
  s <- get ;;
  if bool_decide (context = ctxPoll) && isEqual (charge s) c
  then ret tt
  else
    modify (set_charge (Some c)) ;;;
    st <- chargeStatus ;;
    if is_status st "NEW" then ret tt
    else if is_status st "PENDING" then
      u <- isUnpriced ;;
      if u then showSuccessfulPayment else processPendingPayment
    else if is_status st "COMPLETED" then showSuccessfulPayment
    else if is_status st "RESOLVED" then showSuccessfulPayment
    else if is_status st "UNRESOLVED" then showFailedPayment
    else if is_status st "EXPIRED" then showFailedPayment
    else if is_status st "CANCELED" then showCanceledPayment
    else ret tt.

(** [e.statusCode === 503 && e.type === 'maintenance'] *)
Definition isMaintenance (e : JsError) : bool :=
  bool_decide (statusCode e = Some 503%Z)
  && bool_decide (errType e = Some "maintenance").

(** [poll], from its [await] on: [r] is how the charge request settled.
    The [try] body runs when it was fulfilled, the [catch] block when it
    was rejected (or when the body throws). *)
Definition poll_resume (r : Settlement Charge) : Act unit :=
  try_catch
    (c <- await r ;;
     s <- get ;;
     match pollTimeoutId s with
     | None => ret tt
     | Some _ =>
       modify (set_pollErrorStreak 0) ;;;
       processChargeUpdate c ctxPoll ;;;
       s' <- get ;;
       id <- setTimeout cbPoll (pollDelay s') ;;
       modify (set_pollTimeoutId (Some id))
     end)
    (fun e =>
     s <- get ;;
     match pollTimeoutId s with
     | None => ret tt
     | Some _ =>
       (if isMaintenance e
        then showMaintenanceMode
        else
          emit (ConsoleError "poll" e) ;;;
          s1 <- get ;;
          modify (set_pollErrorStreak (S (pollErrorStreak s1)))) ;;;
       s' <- get ;;
       id <- setTimeout cbPoll (pollDelay s') ;;
       modify (set_pollTimeoutId (Some id))
     end).

(** What the host runs when a timer fires. *)
Definition fire (cb : TimerCallback) : Act unit :=
  match cb with
  | cbNoop => ret tt
  | cbPoll => poll false ;;; ret tt
  | cbTick => s <- get ;; modify (set_now (dateNow s / 1000)%float)
  end.

(** [cancelCharge], up to its [await]. *)
Definition cancelCharge : Act (Async (option string)) :=
  s <- get ;;
  match charge s with
  | None => ret (Settled None)
  | Some _ =>
    emit (Track "checkout:payment-canceled") ;;;
    modify (set_step (Some processingCancellation)) ;;;
    stopPolling ;;;
    c <- getCharge ;;
    emit (CancelChargeRequest (code c)) ;;;
    ret Suspended
  end.

(** [cancelCharge], from its [await] on: the value is what the promise
    returned by [cancelCharge] resolves to. *)
Definition cancelCharge_resume (r : Settlement Charge) : Act (option string) :=
  try_catch
    (c <- await r ;; processChargeUpdate c ctxCancel)
    (fun err => emit (ConsoleError "cancel failed with " err)) ;;;
  c <- getCharge ;;
  ret (cancelUrl c).

Definition stepName (st : option ChargeStep) : string :=
  match st with
  | None => "undefined"
  | Some networkPicker => "networkPicker"
  | Some oauth => "oauth"
  | Some awaitingPayment => "awaitingPayment"
  | Some pendingPayment => "pendingPayment"
  | Some waitingForConfirmations => "waitingForConfirmations"
  | Some successfulPayment => "successfulPayment"
  | Some failedPayment => "failedPayment"
  | Some canceledPayment => "canceledPayment"
  | Some processingCancellation => "processingCancellation"
  | Some maintenance => "maintenance"
  end.

(** [new Error(msg)] *)
Definition NewError (msg : string) : JsError :=
  {| statusCode := None; errType := None; message := msg |}.

Definition goBack : Act unit :=
  s <- get ;;
  match step s with
  | Some awaitingPayment =>
    skip <- shouldSkipNetworkPicker ;;
    if skip
    then stopPolling ;;; emit ReturnHome
    else showNetworkPicker
  | Some networkPicker
  | Some successfulPayment
  | Some failedPayment
  | Some canceledPayment =>
    stopPolling ;;; emit ReturnHome
  | _ => throw (NewError ("can't go back from " +:+ stepName (step s)))
  end.

Definition pickNetwork (network : string) : Act unit :=
  emit (Track "checkout:currency-picked") ;;;
  showAwaitingPayment (Some network).

Definition payWithCoinbase : Act unit :=
  stopPolling ;;; showOAuthScreen.

(** ** Direct-wallet transaction events

    The listeners [requestWeb3] registers on the submitted transaction;
    [cur] is the currency the enclosing request was made for. *)

Definition onTransactionHash (cur : string) (txId : JsValue) : Act unit :=
  if negb (truthy txId)
  then modify (set_web3Status (w3declined cur))
  else modify (set_web3Status (w3submitted txId)).

(** [receiptStatus] is [receipt.status]: [Some false] when the receipt
    carries the failure flag. *)
Definition onReceipt (receiptStatus : option bool) : Act unit :=
  s <- get ;;
  if bool_decide (receiptStatus = Some false)
  then modify (set_web3Status w3failed)
  else match web3Status s with
       | w3submitted txId => modify (set_web3Status (w3mined txId 0))
       | _ => ret tt
       end.

Definition onConfirmation (confs : Z) (transactionHash : JsValue) : Act unit :=
  s <- get ;;
  match web3Status s with
  | w3declined _ => ret tt
  | _ => modify (set_web3Status (w3mined transactionHash confs))
  end.

Definition onError (cur : string) (e : JsError) : Act unit :=
  emit (ConsoleError "web3 tx error" e) ;;;
  modify (set_web3Status (w3declined cur)).

Definition cancelWeb3 : Act unit :=
  modify (set_web3Status w3canceled).

(** ** Lower send limit *)

Section LowerSendLimit.

(** [Number(amount)]: the host's conversion of a decimal string to a
    binary64 number. *)
Variable Number : string -> float.

(** [Number(COINBASE_CRYPTO_LOWER_SEND_LIMIT[currency] || 0)]: every
    entry of the table is a non-zero number, so [||] picks [0] exactly
    for the currencies the table lacks. *)
Definition limitAmount (cur : string) : float :=
  default 0%float (COINBASE_CRYPTO_LOWER_SEND_LIMIT !! cur).

(** [priceAmount < limitAmount] for one priced amount. *)
Definition belowLimit (m : CryptoMoney) : bool :=
  PrimFloat.ltb (Number (amount m)) (limitAmount (currency m)).

(** The [for (let key in charge.addresses)] loop over the remaining
    [keys], with [invalid] the currencies pushed so far. Destructuring a
    missing [charge.pricing[key]] throws. *)
Fixpoint collectInvalid (c : Charge) (keys : list string) (invalid : list string)
  : Act (list string) :=
  match keys with
  | [] => ret invalid
  | key :: rest =>
    match priceOf c key with
    | None => throw (TypeError "Cannot destructure property 'amount' of undefined")
    | Some m =>
      collectInvalid c rest
        (if belowLimit m then invalid ++ [currency m] else invalid)
    end
  end.

Definition setIsChargeBelowCoinbaseLowerSendLimit : Act unit :=
  u <- isUnpriced ;;
  if u then ret tt
  else
    c <- getCharge ;;
    let keys := map fst (map_to_list (addresses c)) in
    invalidCurrencies <- collectInvalid c keys [] ;;
    modify (set_isChargeBelowCoinbaseLowerSendLimit
              (Some (Nat.eqb (length invalidCurrencies) (length keys)))).

End LowerSendLimit.

(** ** Vocabulary of the statements *)

(** The [clearTimeout]/[clearInterval] calls [stopPolling] makes from [s]. *)
Definition cleared (s : State) : list Effect :=
  match pollTimeoutId s with Some id => [ClearTimeout id] | None => [] end
  ++ match expiryIntervalId s with Some id => [ClearInterval id] | None => [] end.

(** Polling is stopped in [s'], coming from [s]: no handle is held any
    more, and each handle held in [s] was cleared on the way. *)
Definition pollingStopped (s s' : State) : Prop :=
  pollTimeoutId s' = None
  /\ expiryIntervalId s' = None
  /\ (forall id, pollTimeoutId s = Some id -> ClearTimeout id ∈ effects s')
  /\ (forall id, expiryIntervalId s = Some id -> ClearInterval id ∈ effects s').

(** The statuses the [switch] of [processChargeUpdate] has a case for. *)
Definition knownStatuses : list string :=
  ["NEW"; "PENDING"; "COMPLETED"; "RESOLVED"; "UNRESOLVED"; "EXPIRED"; "CANCELED"].

Definition unknownStatus (st : option string) : Prop :=
  forall lit, st = Some lit -> lit ∉ knownStatuses.

(** An action leaves the flow from [s]: polling is stopped, then the
    parent is asked to return home; the step is not touched. *)
Definition exitsFlow (s : State) (o : Outcome unit) : Prop :=
  exists s', o = Done tt s'
             /\ pollingStopped s s'
             /\ effects s' = (effects s ++ cleared s ++ [ReturnHome])%list
             /\ step s' = step s.

(** [s] with polling stopped: the state [stopPolling] leaves. *)
Definition stoppedState (s : State) : State :=
  {| charge := charge s; step := step s; pickedNetwork := pickedNetwork s;
     now := now s; web3Status := web3Status s;
     pollErrorStreak := 0;
     isChargeBelowCoinbaseLowerSendLimit := isChargeBelowCoinbaseLowerSendLimit s;
     pollTimeoutId := None; expiryIntervalId := None;
     documentHidden := documentHidden s; dateNow := dateNow s;
     IS_LOCAL_STORAGE_AVAILABLE := IS_LOCAL_STORAGE_AVAILABLE s;
     nextTimer := nextTimer s; effects := effects s ++ cleared s |}.


(** The priced amount under [key] is below the limit of its currency. *)
Definition keyBelow (Number : string -> float) (c : Charge) (key : string) : bool :=
  match priceOf c key with
  | Some m => belowLimit Number m
  | None => false
  end.

(** ** The host's side of the event loop

    What the host can deliver to the store between two turns: a timer
    fires, a pending request settles, or the user acts. An exception that
    escapes a handler leaves the store as the handler left it. *)

Inductive HostEvent :=
| TimerFired (cb : TimerCallback)
| ChargeRequestSettled (r : Settlement Charge)
| CancelRequestSettled (r : Settlement Charge)
| UserGoesBack
| UserPicksNetwork (network : string)
| UserPaysWithCoinbase
| UserCancels.

Definition deliver (ev : HostEvent) (s : State) : State :=
  match ev with
  | TimerFired cb => final (fire cb s)
  | ChargeRequestSettled r => final (poll_resume r s)
  | CancelRequestSettled r => final (cancelCharge_resume r s)
  | UserGoesBack => final (goBack s)
  | UserPicksNetwork network => final (pickNetwork network s)
  | UserPaysWithCoinbase => final (payWithCoinbase s)
  | UserCancels => final (cancelCharge s)
  end.

Definition deliverAll (evs : list HostEvent) (s : State) : State :=
  foldl (fun s ev => deliver ev s) s evs.

(** ** Sample charges and stores *)

Definition entry (st : string) : TimelineEntry :=
  {| status := st; time := "2019-06-01T12:00:00Z" |}.

Definition localPrice : CryptoMoney := {| amount := "0.45"; currency := "USD" |}.
Definition btcPrice : CryptoMoney := {| amount := "0.00005"; currency := "BTC" |}.
Definition ethPrice : CryptoMoney := {| amount := "0.01"; currency := "ETH" |}.

(** A fixed-price charge payable in bitcoin only, priced at 0.00005 BTC,
    with the given timeline statuses and payments. *)
Definition btcCharge (statuses : list string) (ps : list Payment) : Charge :=
  {| code := "66BEOV2A";
     pricingType := "fixed_price";
     addresses := {[ "bitcoin" := "mymZkiXhQNd6VWWG7VGSVdDX9bKmviti3U" ]};
     pricing := Some (<[ "local" := localPrice ]> {[ "bitcoin" := btcPrice ]});
     timeline := entry <$> statuses;
     payments := ps;
     expiresAt := "2019-06-01T13:00:00Z";
     cancelUrl := Some "https://shop.example/cancelled" |}.

(** The same charge, also payable in ether at 0.01 ETH. *)
Definition btcEthCharge (statuses : list string) (ps : list Payment) : Charge :=
  {| code := "66BEOV2A";
     pricingType := "fixed_price";
     addresses := <[ "ethereum" := "0x419f91df39951fd4e8acc8f1874b01c0c78ceba6" ]>
                    {[ "bitcoin" := "mymZkiXhQNd6VWWG7VGSVdDX9bKmviti3U" ]};
     pricing := Some (<[ "local" := localPrice ]>
                        (<[ "ethereum" := ethPrice ]> {[ "bitcoin" := btcPrice ]}));
     timeline := entry <$> statuses;
     payments := ps;
     expiresAt := "2019-06-01T13:00:00Z";
     cancelUrl := Some "https://shop.example/cancelled" |}.

(** A donation: no price, so no pricing object. *)
Definition donationCharge (statuses : list string) : Charge :=
  {| code := "D0NAT10N";
     pricingType := "no_price";
     addresses := {[ "bitcoin" := "mymZkiXhQNd6VWWG7VGSVdDX9bKmviti3U" ]};
     pricing := None;
     timeline := entry <$> statuses;
     payments := [];
     expiresAt := "2019-06-01T13:00:00Z";
     cancelUrl := None |}.

Definition paymentWith (confs required : Z) : Payment :=
  {| transactionId := "7b1cd1a0f3a5b2a44e1d"; 
     block := {| confirmations := confs; confirmationsRequired := required |} |}.

(** [Number] on the amounts of the sample charges. *)
Definition sampleNumber (a : string) : float :=
  if String.eqb a "0.00005" then 0.00005%float
  else if String.eqb a "0.01" then 0.01%float
  else if String.eqb a "0.45" then 0.45%float
  else PrimFloat.nan.

(** The store as constructed, before any charge is set. *)
Definition freshStore : State :=
  {| charge := None; step := None; pickedNetwork := None;
     now := 1559390400%float; web3Status := w3idle; pollErrorStreak := 0;
     isChargeBelowCoinbaseLowerSendLimit := None;
     pollTimeoutId := None; expiryIntervalId := None;
     documentHidden := false; dateNow := 1559390400000%float;
     IS_LOCAL_STORAGE_AVAILABLE := true;
     nextTimer := 1%positive; effects := [] |}.

(** A store holding [c] on step [st], with the given timer handles. *)
Definition holding (c : Charge) (st : ChargeStep) (pt ei : option TimerId) : State :=
  {| charge := Some c; step := Some st; pickedNetwork := Some "bitcoin";
     now := 1559390400%float; web3Status := w3idle; pollErrorStreak := 0;
     isChargeBelowCoinbaseLowerSendLimit := None;
     pollTimeoutId := pt; expiryIntervalId := ei;
     documentHidden := false; dateNow := 1559390400000%float;
     IS_LOCAL_STORAGE_AVAILABLE := true;
     nextTimer := 10%positive; effects := [] |}.

Definition maintenanceError : JsError :=
  {| statusCode := Some 503%Z; errType := Some "maintenance";
     message := "Service Unavailable" |}.

Definition notFoundError : JsError :=
  {| statusCode := Some 404%Z; errType := Some "not_found";
     message := "Not Found" |}.

(** Named instances used by the examples below. *)
Definition newCharge : Charge := btcCharge ["NEW"] [].
Definition completedCharge : Charge :=
  btcCharge ["NEW"; "PENDING"; "COMPLETED"] [paymentWith 6 6].
Definition pendingCharge : Charge :=
  btcCharge ["NEW"; "PENDING"] [paymentWith 1 3].
Definition pendingNoPayment : Charge := btcCharge ["NEW"; "PENDING"] [].




(** Awaiting payment, a poll cycle scheduled and the countdown ticking. *)
Definition pollingStore : State :=
  holding newCharge awaitingPayment (Some 1%positive) (Some 2%positive).

(** The maintenance screen over a charge that completed earlier, polling
    still going. *)
Definition maintenanceStore (c : Charge) : State :=
  holding c maintenance (Some 14%positive) None.

(** A store that evaluated [newCharge] (below the limit) and was then
    handed a donation. *)
Definition staleStore : State :=
  set_charge (Some (donationCharge ["NEW"]))
    (set_isChargeBelowCoinbaseLowerSendLimit (Some true)
       (holding newCharge networkPicker None None)).

(** A poll delivers COMPLETED, the next cycle meets a backend under
    maintenance, the one after that gets the same COMPLETED snapshot. *)
Definition maintenanceRun : list HostEvent :=
  [ ChargeRequestSettled (Fulfilled completedCharge);
    TimerFired cbPoll;
    ChargeRequestSettled (Rejected maintenanceError);
    TimerFired cbPoll;
    ChargeRequestSettled (Fulfilled completedCharge) ].

(** ** Further getters and event folds *)

(** [!charge.cancelUrl]: a missing or empty URL is falsy. *)
Definition noCancelUrl (c : Charge) : bool :=
  match cancelUrl c with
  | None => true
  | Some url => String.eqb url ""
  end.

(** The [canCancelCharge] getter: [false] without a charge or a cancel
    URL, else whether [timeline.find(t => t.status !== 'NEW')] finds
    nothing. *)
Definition canCancelCharge (s : State) : bool :=
  match charge s with
  | None => false
  | Some c =>
    if noCancelUrl c then false
    else match find (fun t => negb (String.eqb (status t) "NEW")) (timeline c) with
         | Some _ => false
         | None => true
         end
  end.

(** The events of a submitted transaction, as the provider emits them. *)
Inductive TxEvent :=
| TxHash (txId : JsValue)
| TxReceipt (receiptStatus : option bool)
| TxConfirmation (confs : Z) (transactionHash : JsValue)
| TxError (e : JsError).

(** The listener [requestWeb3] registered for the event. *)
Definition onTxEvent (cur : string) (ev : TxEvent) : Act unit :=
  match ev with
  | TxHash txId => onTransactionHash cur txId
  | TxReceipt st => onReceipt st
  | TxConfirmation confs h => onConfirmation confs h
  | TxError e => onError cur e
  end.

Definition deliverTx (cur : string) (evs : list TxEvent) (s : State) : State :=
  foldl (fun s ev => final (onTxEvent cur ev s)) s evs.

(** One failed poll cycle: the request is rejected, then the timer the
    continuation scheduled fires and starts the next cycle. *)
Definition failedCycle (e : JsError) : list HostEvent :=
  [ChargeRequestSettled (Rejected e); TimerFired cbPoll].

(** The effects an action added to the trace of [s] on the way to [s']. *)
Definition added (s s' : State) : list Effect :=
  drop (length (effects s)) (effects s').

(** Effects that neither reach the backend nor the timers nor the parent:
    tracking calls, widget notifications and console output. *)
Definition isNotification (e : Effect) : bool :=
  match e with
  | Track _ | SendPaymentDetectedEvent _ | SendSuccessfulChargeEvent _
  | SendFailedChargeEvent _ | ConsoleWarn _ | ConsoleError _ _ => true
  | _ => false
  end.

(** Clearing a timer. *)
Definition isClear (e : Effect) : bool :=
  match e with
  | ClearTimeout _ | ClearInterval _ => true
  | _ => false
  end.

(** The parts of the state only the host and the direct-wallet listeners
    write. *)
Definition sameSurroundings (s s' : State) : Prop :=
  pickedNetwork s' = pickedNetwork s
  /\ web3Status s' = web3Status s
  /\ isChargeBelowCoinbaseLowerSendLimit s' = isChargeBelowCoinbaseLowerSendLimit s
  /\ now s' = now s
  /\ documentHidden s' = documentHidden s
  /\ dateNow s' = dateNow s
  /\ IS_LOCAL_STORAGE_AVAILABLE s' = IS_LOCAL_STORAGE_AVAILABLE s
  /\ nextTimer s' = nextTimer s.

(** A poller that is stopped carries no error streak. *)
Definition streakOnlyWhilePolling (s : State) : Prop :=
  pollTimeoutId s = None -> pollErrorStreak s = 0.

(** The state a poll cycle leaves when it sends its request. *)
Definition requesting (c : Charge) (s : State) : State :=
  record_effect (GetChargeFromOrderCode (code c))
    (set_pollTimeoutId (Some (nextTimer s))
       (record_effect (SetTimeout (nextTimer s) cbNoop 0) (bump_timer s))).


(** The state [startPolling] leaves when a charge is held: polling
    stopped, one cycle started, the clock read and the tick started. *)
Definition restarted (c : Charge) (s : State) : State :=
  let s1 := requesting c (stoppedState s) in
  set_expiryIntervalId (Some (nextTimer s1))
    (record_effect (SetInterval (nextTimer s1) cbTick 1000)
       (bump_timer (set_now (dateNow s1 / 1000)%float s1))).

(** What a processed snapshot can do to the poller: leave it alone, or
    stop it on the way to a terminal step. *)
Definition pollerKeptOrStopped (s s' : State) : Prop :=
  (pollTimeoutId s' = pollTimeoutId s
   /\ expiryIntervalId s' = expiryIntervalId s
   /\ pollErrorStreak s' = pollErrorStreak s)
  \/ (pollTimeoutId s' = None
      /\ expiryIntervalId s' = None
      /\ pollErrorStreak s' = 0
      /\ (step s' = Some successfulPayment \/ step s' = Some failedPayment
          \/ step s' = Some canceledPayment)).

(** The terminal step a timeline status leads to, if any. *)
Definition terminalStep (st : string) : option ChargeStep :=
  if String.eqb st "COMPLETED" then Some successfulPayment
  else if String.eqb st "RESOLVED" then Some successfulPayment
  else if String.eqb st "UNRESOLVED" then Some failedPayment
  else if String.eqb st "EXPIRED" then Some failedPayment
  else if String.eqb st "CANCELED" then Some canceledPayment
  else None.

(** The state the continuation of [poll] leaves after it scheduled the
    next cycle from [s1]. *)
Definition rescheduled (s1 : State) : State :=
  set_pollTimeoutId (Some (nextTimer s1))
    (record_effect (SetTimeout (nextTimer s1) cbPoll (pollDelay s1))
       (bump_timer s1)).

(** From [s] to [s'] the trace only grew, and only by notifications and
    timer clears. *)
Definition grewQuietly (s s' : State) : Prop :=
  exists l, effects s' = (effects s ++ l)%list
            /\ forallb (fun e => isNotification e || isClear e) l = true.

(** [n] failed poll cycles in a row. *)
Definition failedCycles (n : nat) (e : JsError) : list HostEvent :=
  concat (replicate n (failedCycle e)).

(** The steps [goBack] has a way out of. *)
Definition backSteps : list (option ChargeStep) :=
  [Some awaitingPayment; Some networkPicker; Some successfulPayment;
   Some failedPayment; Some canceledPayment].

(** Transaction events that report progress: a confirmation, or a receipt
    without the failure flag. *)
Definition isProgress (ev : TxEvent) : bool :=
  match ev with
  | TxConfirmation _ _ => true
  | TxReceipt st => negb (bool_decide (st = Some false))
  | _ => false
  end.

(** The order [networks] is sorted by. *)
Definition network_le (a b : string) : Prop := Is_true (String.leb a b).

(** ** Charge assignment, Pay with Coinbase and the local store

    [setCharge] and the functions around it use store fields and host
    calls the lifecycle actions above never touch. A [Session] adds them
    to the [State]: the extra fields of the store, what the local store
    holds, and one trace [calls] of every host call in order (the
    effects of the lifecycle actions included, as [StoreCall]). The
    parent and its tracking store that [setCharge] records are the
    ambient collaborators of the lifecycle actions. *)

Inductive PwcbErrorKey :=
| pwOauth
| pwYubikey
| pwInsufficientFunds
| pwChargeBelowLimit
| pwChargeOverLimit.

Record PwcbError := {
  errorTitle : string;
  errorMessage : string;
  errorId : PwcbErrorKey
}.

Definition pwcbErrors (k : PwcbErrorKey) : PwcbError :=
  match k with
  | pwOauth =>
    {| errorId := pwOauth; errorTitle := "Checkout Error";
       errorMessage := "YubiKey authentication is currently unsupported for Pay with Coinbase." |}
  | pwChargeOverLimit =>
    {| errorId := pwChargeOverLimit; errorTitle := "Charge Error";
       errorMessage := "The price of this item is greater than the maximum send amount on Coinbase." |}
  | pwChargeBelowLimit =>
    {| errorId := pwChargeBelowLimit; errorTitle := "Charge Error";
       errorMessage := "The price of this item is less than the minimum send amount on Coinbase." |}
  | pwYubikey =>
    {| errorId := pwYubikey; errorTitle := "Authentication Error";
       errorMessage := "YubiKey authentication is currently unsupported for Pay with Coinbase." |}
  | pwInsufficientFunds =>
    {| errorId := pwInsufficientFunds; errorTitle := "Insufficient Funds";
       errorMessage := "You do not have sufficient funds in your Coinbase account. Please choose another payment option." |}
  end.

Definition COINBASE_USD_UPPER_SEND_LIMIT : float := 1000%float.

(** [ExchangeRate]: the two sides of a rate, each with its amount. *)
Record ExchangeRate := { rateFrom : CryptoMoney; rateTo : CryptoMoney }.

(** The transaction object handed to [web3.eth.sendTransaction]. *)
Record Transaction := {
  txFrom : string;
  txTo : string;
  txValue : option string;
  txData : option string;
  txGas : option Z
}.

Inductive HostCall :=
| StoreCall (e : Effect)
| SetTrackingUserId (chargeCode : string)
| SetUserProperty (key value : string)
| LoadStore (chargeCode : string)
| SaveStore (chargeCode : string) (isOAuth : bool)
| ImportWeb3
| EthereumEnable
| GetChainId
| GetAccounts
| SendTransaction (tx : Transaction)
| ListenToTransaction (cur : string).

Record Session := {
  store : State;
  usdChargeAmount : option float;
  isPwcbEnabled : bool;
  pwcbError : option PwcbError;
  isOAuthPayment : bool;
  localStores : gmap string bool;
  calls : list HostCall
}.

(** The session after a lifecycle action took the store from [store ss]
    to [s']: its new effects join the trace of calls. *)
Definition with_store (s' : State) (ss : Session) : Session :=
  {| store := s';
     usdChargeAmount := usdChargeAmount ss;
     isPwcbEnabled := isPwcbEnabled ss;
     pwcbError := pwcbError ss;
     isOAuthPayment := isOAuthPayment ss;
     localStores := localStores ss;
     calls := calls ss ++ (StoreCall <$> added (store ss) s') |}.

Definition set_usdChargeAmount (v : option float) (ss : Session) : Session :=
  {| store := store ss; usdChargeAmount := v;
     isPwcbEnabled := isPwcbEnabled ss; pwcbError := pwcbError ss;
     isOAuthPayment := isOAuthPayment ss; localStores := localStores ss;
     calls := calls ss |}.

Definition set_pwcb (enabled : bool) (err : option PwcbError) (ss : Session) : Session :=
  {| store := store ss; usdChargeAmount := usdChargeAmount ss;
     isPwcbEnabled := enabled; pwcbError := err;
     isOAuthPayment := isOAuthPayment ss; localStores := localStores ss;
     calls := calls ss |}.

Definition set_isOAuthPayment (v : bool) (ss : Session) : Session :=
  {| store := store ss; usdChargeAmount := usdChargeAmount ss;
     isPwcbEnabled := isPwcbEnabled ss; pwcbError := pwcbError ss;
     isOAuthPayment := v; localStores := localStores ss;
     calls := calls ss |}.

Definition record_call (k : HostCall) (ss : Session) : Session :=
  {| store := store ss; usdChargeAmount := usdChargeAmount ss;
     isPwcbEnabled := isPwcbEnabled ss; pwcbError := pwcbError ss;
     isOAuthPayment := isOAuthPayment ss; localStores := localStores ss;
     calls := calls ss ++ [k] |}.

Inductive SOutcome (A : Type) :=
| SDone (a : A) (ss : Session)
| SThrown (e : JsError) (ss : Session).
Arguments SDone {A} a ss.
Arguments SThrown {A} e ss.

Definition SAct (A : Type) : Type := Session -> SOutcome A.

Definition sret {A} (a : A) : SAct A := fun ss => SDone a ss.

Definition sbind {A B} (m : SAct A) (k : A -> SAct B) : SAct B :=
  fun ss => match m ss with
            | SDone a ss' => k a ss'
            | SThrown e ss' => SThrown e ss'
            end.

Definition sthrow {A} (e : JsError) : SAct A := fun ss => SThrown e ss.
Definition sget : SAct Session := fun ss => SDone ss ss.
Definition smodify (f : Session -> Session) : SAct unit := fun ss => SDone tt (f ss).
Definition call (k : HostCall) : SAct unit := smodify (record_call k).

(** Run a lifecycle action on the store of the session. *)
Definition lift {A} (a : Act A) : SAct A :=
  fun ss => match a (store ss) with
            | Done x s' => SDone x (with_store s' ss)
            | Thrown e s' => SThrown e (with_store s' ss)
            end.

Definition sfinal {A} (o : SOutcome A) : Session :=
  match o with SDone _ ss => ss | SThrown _ ss => ss end.

Declare Scope sact_scope.
Delimit Scope sact_scope with sact.
Notation "x <- m ;; k" := (sbind m (fun x => k))
  (at level 90, m at next level, right associativity) : sact_scope.
Notation "m ;;; k" := (sbind m (fun _ => k))
  (at level 90, right associativity) : sact_scope.

(** [this.usdChargeAmount > COINBASE_USD_UPPER_SEND_LIMIT]; an unset
    amount compares false. *)
Definition isChargeAboveCoinbaseUpperSendLimit (ss : Session) : bool :=
  match usdChargeAmount ss with
  | Some usd => PrimFloat.ltb COINBASE_USD_UPPER_SEND_LIMIT usd
  | None => false
  end.

Definition setPwcbEnabled (isEnabled : bool) (errorKey : PwcbErrorKey) : SAct unit :=
  smodify (set_pwcb isEnabled (Some (pwcbErrors errorKey))).

(** [if (pickedNetwork)]: a network name that is present and not empty. *)
Definition networkGiven (picked : option string) : bool :=
  match picked with
  | Some n => negb (String.eqb n "")
  | None => false
  end.

(** Modelled from the spec: [loadStore] of utils/localStores, whose source
    is not part of the repository files. The local store holds, per
    charge code, a record [{isOAuthPayment}]; [localStores] is what
    [loadStore] finds, and [state?.isOAuthPayment] is truthy exactly for
    a stored [true]. [saveStore] is recorded as a call. *)
Definition loadStore (chargeCode : string) : SAct bool :=
  (call (LoadStore chargeCode) ;;;
   ss <- sget ;;
   sret (bool_decide (localStores ss !! chargeCode = Some true)))%sact.

Definition saveLocalStoreCharge (isOAuth : bool) : SAct unit :=
  (c <- lift getCharge ;;
   call (SaveStore (code c) isOAuth) ;;;
   smodify (set_isOAuthPayment isOAuth))%sact.

Definition loadLocalStoreCharge : SAct unit :=
  (c <- lift getCharge ;;
   oauthPayment <- loadStore (code c) ;;
   if oauthPayment
   then
     smodify (set_isOAuthPayment true) ;;;
     st <- lift chargeStatus ;;
     if is_status st "UNRESOLVED"
     then lift showFailedPayment
     else lift showSuccessfulPayment
   else sret tt)%sact.

Section ChargeAssignment.

Variable Number : string -> float.

(** [toRate * currencyRate / fromRate]; reading
    [this.charge.pricing.local.amount] throws when the charge has no
    pricing or no local price. *)
Definition setUsdChargeAmount (baseExchangeRate : ExchangeRate) : SAct unit :=
  (c <- lift getCharge ;;
   let fromRate := Number (amount (rateFrom baseExchangeRate)) in
   let toRate := Number (amount (rateTo baseExchangeRate)) in
   match priceOf c "local" with
   | None => sthrow (TypeError "Cannot read properties of undefined")
   | Some loc =>
     let currencyRate := Number (amount loc) in
     smodify (set_usdChargeAmount (Some (toRate * currencyRate / fromRate)%float))
   end)%sact.

Definition setCharge (c : Charge) (usdExchangeRate : option ExchangeRate)
           (picked : option string) : SAct unit :=
  (call (SetTrackingUserId (code c)) ;;;
   call (SetUserProperty "charge_pricing_type" (pricingType c)) ;;;
   lift (modify (set_charge (Some c))) ;;;
   lift (modify (set_web3Status w3idle)) ;;;
   lift (setIsChargeBelowCoinbaseLowerSendLimit Number) ;;;
   match usdExchangeRate with
   | Some rate => setUsdChargeAmount rate
   | None => sret tt
   end ;;;
   (if networkGiven picked
    then
      lift (modify (set_pickedNetwork picked)) ;;;
      lift (modify (set_step (Some awaitingPayment)))
    else
      ss <- sget ;;
      (if bool_decide (isChargeBelowCoinbaseLowerSendLimit (store ss) = Some true)
       then setPwcbEnabled false pwChargeBelowLimit
       else if isChargeAboveCoinbaseUpperSendLimit ss
       then setPwcbEnabled false pwChargeOverLimit
       else sret tt) ;;;
      lift showNetworkPicker) ;;;
   lift startPolling ;;;
   lift (processChargeUpdate c ctxStartup) ;;;
   loadLocalStoreCharge)%sact.

End ChargeAssignment.

(** The session of a store as constructed: Pay with Coinbase enabled, no
    error, nothing in the local store. *)
Definition freshSession : Session :=
  {| store := freshStore; usdChargeAmount := None; isPwcbEnabled := true;
     pwcbError := None; isOAuthPayment := false; localStores := ∅; calls := [] |}.

(** Every address of the charge has a pricing entry. *)
Definition addressesPriced (c : Charge) : Prop :=
  forall key, is_Some (addresses c !! key) -> is_Some (priceOf c key).

(** The session fields the lifecycle actions and the local-store lookup
    leave alone. *)
Definition sameSessionFields (ss ss' : Session) : Prop :=
  usdChargeAmount ss' = usdChargeAmount ss
  /\ isPwcbEnabled ss' = isPwcbEnabled ss
  /\ pwcbError ss' = pwcbError ss
  /\ localStores ss' = localStores ss.

(** What [setCharge] decides about Pay with Coinbase, given the flag and
    the session as they are when it decides. *)
Definition pwcbDecision (picked : option string) (fl : option bool) (ss : Session)
  : bool * option PwcbError :=
  if networkGiven picked then (isPwcbEnabled ss, pwcbError ss)
  else if bool_decide (fl = Some true)
  then (false, Some (pwcbErrors pwChargeBelowLimit))
  else if isChargeAboveCoinbaseUpperSendLimit ss
  then (false, Some (pwcbErrors pwChargeOverLimit))
  else (isPwcbEnabled ss, pwcbError ss).

(** The store after the first stages of [setCharge]: the charge assigned,
    the wallet status reset, the flag as the limit setter left it. *)
Definition assigned (c : Charge) (fl : option bool) (s : State) : State :=
  set_isChargeBelowCoinbaseLowerSendLimit fl
    (set_web3Status w3idle (set_charge (Some c) s)).

(** ** The direct-wallet request

    [requestWeb3] is cut at its four [await]s. What the closure keeps
    across them is an [Env]; the stages after the first read nothing of
    the store and write only [web3Status]. The tables and helpers it
    imports (currency per network, token contract info, the configured
    chain, the two encoders) are parameters. *)

(** What [contractInfo] returns for a token. *)
Record Erc20 := { erc20Network : string; erc20Address : string }.

Record Env := {
  envCurrency : string;
  envErc20 : option Erc20;
  envTo : string;
  envPrice : CryptoMoney
}.

(** Where an [async] function stands when it yields: it has returned, or
    it waits for a promise with its closure. *)
Inductive Stage :=
| Returned
| Waiting (env : Env).

(** A value that an encoder returns, or the error it throws. *)
Inductive Try (A : Type) :=
| Ok (a : A)
| Raises (e : JsError).
Arguments Ok {A} a.
Arguments Raises {A} e.

Section DirectWallet.

(** [CURRENCIES_BY_NETWORK[network]] *)
Variable CURRENCIES_BY_NETWORK : string -> option string.
(** [contractInfo(currency)] *)
Variable contractInfo : string -> option Erc20.
(** [parseInt(commerceConfig.ETH_CHAIN_ID, 10)], [None] for [NaN] *)
Variable ETH_CHAIN_ID : option Z.
Variable ERC20_GAS_LIMIT : Z.
(** [encodeErc20Transfer(to, price)] *)
Variable encodeErc20Transfer : string -> CryptoMoney -> Try string.
(** [toHex(toWei(amount, 'ether'))] *)
Variable toHexWei : string -> Try string.

(** The currency of the picked network: [network && CURRENCIES_BY_NETWORK[network]],
    with an empty string as falsy as a missing one. *)
Definition currencyOf (network : option string) : option string :=
  match network with
  | Some n =>
    if String.eqb n "" then None
    else match CURRENCIES_BY_NETWORK n with
         | Some cur => if String.eqb cur "" then None else Some cur
         | None => None
         end
  | None => None
  end.

(** The re-entry guard: a new attempt is allowed from [idle], and from
    [declined] when it was another currency that was declined. *)
Definition mayAsk (w : Web3Status) (cur : string) : bool :=
  match w with
  | w3idle => true
  | w3declined declinedCur => negb (String.eqb declinedCur cur)
  | _ => false
  end.

(** [this.charge.addresses[network]], falsy when missing or empty. *)
Definition addressOf (c : Charge) (network : string) : option string :=
  match addresses c !! network with
  | Some a => if String.eqb a "" then None else Some a
  | None => None
  end.

(** [requestWeb3] up to [await ethereum.enable()]; [ethereum] tells
    whether [window.ethereum] is there. *)
Definition requestWeb3 (ethereum : bool) : SAct Stage :=
  (if negb ethereum
   then lift (modify (set_web3Status w3unsupported)) ;;; sret Returned
   else
     u <- lift isUnpriced ;;
     if u then sret Returned
     else
       ss <- sget ;;
       let network := pickedNetwork (store ss) in
       match network, currencyOf network with
       | Some n, Some cur =>
         let erc20 := contractInfo cur in
         if negb (String.eqb n "ethereum") && negb (bool_decide (is_Some erc20))
         then sret Returned
         else if negb (mayAsk (web3Status (store ss)) cur)
         then sret Returned
         else
           c <- lift getCharge ;;
           match addressOf c n, priceOf c n with
           | Some to, Some price =>
             call ImportWeb3 ;;;
             lift (modify (set_web3Status w3asking)) ;;;
             call EthereumEnable ;;;
             sret (Waiting {| envCurrency := cur; envErc20 := erc20;
                              envTo := to; envPrice := price |})
           | _, _ => sret Returned
           end
       | _, _ => sret Returned
       end)%sact.

(** After [await ethereum.enable()]: on refusal [declined]; else the
    function waits for the library. *)
Definition afterEnable (env : Env) (r : Settlement unit) : SAct Stage :=
  match r with
  | Rejected _ =>
    (lift (modify (set_web3Status (w3declined (envCurrency env)))) ;;; sret Returned)%sact
  | Fulfilled _ => sret (Waiting env)
  end.

(** The chain the transfer must be on: a token contract pins its chain
    (3 for ropsten, else 1); a plain transfer uses the configured chain,
    or 1 when that is missing or zero. *)
Definition desiredChainId (env : Env) : Z :=
  match envErc20 env with
  | Some erc20 => if String.eqb (erc20Network erc20) "ropsten" then 3%Z else 1%Z
  | None =>
    match ETH_CHAIN_ID with
    | Some n => if (n =? 0)%Z then 1%Z else n
    | None => 1%Z
    end
  end.

(** After [await web3Promise]: on failure [failed]; else the chain id is
    asked for. Between the two, [new Web3(ethereum)] and the reading of
    [web3.utils] are taken to succeed. *)
Definition afterImport (env : Env) (r : Settlement unit) : SAct Stage :=
  match r with
  | Rejected e =>
    (lift (emit (ConsoleError "import web3" e)) ;;;
     lift (modify (set_web3Status w3failed)) ;;;
     sret Returned)%sact
  | Fulfilled _ => (call GetChainId ;;; sret (Waiting env))%sact
  end.

(** After [await web3.eth.getChainId()]. *)
Definition afterChainId (env : Env) (r : Settlement Z) : SAct Stage :=
  match r with
  | Rejected e =>
    (lift (emit (ConsoleError "web3" e)) ;;;
     lift (modify (set_web3Status w3failed)) ;;;
     sret Returned)%sact
  | Fulfilled chainIdWeb3 =>
    if negb (chainIdWeb3 =? desiredChainId env)%Z
    then
      (lift (emit (ConsoleWarn "web3: wrong chain id")) ;;;
       lift (modify (set_web3Status w3wrongChain)) ;;;
       sret Returned)%sact
    else (call GetAccounts ;;; sret (Waiting env))%sact
  end.

(** The transaction for [env] from the account [from]; the encoders may
    throw. *)
Definition buildTransaction (env : Env) (from : string) : Try Transaction :=
  match envErc20 env with
  | Some erc20 =>
    match encodeErc20Transfer (envTo env) (envPrice env) with
    | Ok data =>
      Ok {| txFrom := from; txTo := erc20Address erc20; txValue := None;
            txData := Some data; txGas := Some ERC20_GAS_LIMIT |}
    | Raises e => Raises e
    end
  | None =>
    match toHexWei (amount (envPrice env)) with
    | Ok value =>
      Ok {| txFrom := from; txTo := envTo env; txValue := Some value;
            txData := None; txGas := None |}
    | Raises e => Raises e
    end
  end.

(** After [await web3.eth.getAccounts()]: [accounts] is [None] for a
    falsy answer; [sendThrows] is the error [sendTransaction] throws, if
    it throws. On success the four listeners are registered. *)
Definition afterAccounts (env : Env) (r : Settlement (option (list string)))
           (sendThrows : option JsError) : SAct unit :=
  let declined (e : JsError) : SAct unit :=
    (lift (emit (ConsoleError "web3" e)) ;;;
     lift (modify (set_web3Status (w3declined (envCurrency env)))))%sact in
  match r with
  | Rejected e => declined e
  | Fulfilled accounts =>
    match accounts with
    | None | Some [] => lift (modify (set_web3Status w3noAccount))
    | Some (from :: _) =>
      match buildTransaction env from with
      | Raises e => declined e
      | Ok tx =>
        (call (SendTransaction tx) ;;;
         match sendThrows with
         | Some e => declined e
         | None => call (ListenToTransaction (envCurrency env))
         end)%sact
      end
    end
  end.

(** How the wallet and the library answer during one request. *)
Record WalletAnswers := {
  enableAnswer : Settlement unit;
  importAnswer : Settlement unit;
  chainIdAnswer : Settlement Z;
  accountsAnswer : Settlement (option (list string));
  sendThrowsAnswer : option JsError
}.

(** The stages after the first, one after the other. *)
Definition afterRequest (env1 : Env) (w : WalletAnswers) : SAct unit :=
  (st2 <- afterEnable env1 (enableAnswer w) ;;
   match st2 with
   | Returned => sret tt
   | Waiting env2 =>
     st3 <- afterImport env2 (importAnswer w) ;;
     match st3 with
     | Returned => sret tt
     | Waiting env3 =>
       st4 <- afterChainId env3 (chainIdAnswer w) ;;
       match st4 with
       | Returned => sret tt
       | Waiting env4 => afterAccounts env4 (accountsAnswer w) (sendThrowsAnswer w)
       end
     end
   end)%sact.

(** One whole request, with nothing else happening in between. *)
Definition requestWeb3Run (ethereum : bool) (w : WalletAnswers) : SAct unit :=
  (st1 <- requestWeb3 ethereum ;;
   match st1 with
   | Returned => sret tt
   | Waiting env1 => afterRequest env1 w
   end)%sact.

(** What the stages after the first come to, as a function of the
    answers: the calls they make, and the status they set ([None] when
    the transaction is sent and listened to, so the status stays as the
    first stage set it). *)
Definition walletOutcome (env : Env) (w : WalletAnswers)
  : option Web3Status * list HostCall :=
  match enableAnswer w with
  | Rejected _ => (Some (w3declined (envCurrency env)), [])
  | Fulfilled _ =>
    match importAnswer w with
    | Rejected e => (Some w3failed, [StoreCall (ConsoleError "import web3" e)])
    | Fulfilled _ =>
      match chainIdAnswer w with
      | Rejected e => (Some w3failed, [GetChainId; StoreCall (ConsoleError "web3" e)])
      | Fulfilled chainId =>
        if negb (chainId =? desiredChainId env)%Z
        then (Some w3wrongChain,
              [GetChainId; StoreCall (ConsoleWarn "web3: wrong chain id")])
        else
          match accountsAnswer w with
          | Rejected e =>
            (Some (w3declined (envCurrency env)),
             [GetChainId; GetAccounts; StoreCall (ConsoleError "web3" e)])
          | Fulfilled None | Fulfilled (Some []) =>
            (Some w3noAccount, [GetChainId; GetAccounts])
          | Fulfilled (Some (from :: _)) =>
            match buildTransaction env from with
            | Raises e =>
              (Some (w3declined (envCurrency env)),
               [GetChainId; GetAccounts; StoreCall (ConsoleError "web3" e)])
            | Ok tx =>
              match sendThrowsAnswer w with
              | Some e =>
                (Some (w3declined (envCurrency env)),
                 [GetChainId; GetAccounts; SendTransaction tx;
                  StoreCall (ConsoleError "web3" e)])
              | None =>
                (None,
                 [GetChainId; GetAccounts; SendTransaction tx;
                  ListenToTransaction (envCurrency env)])
              end
            end
          end
      end
    end
  end.


End DirectWallet.

(** The calls a session action added to the trace. *)
Definition addedCalls (ss ss' : Session) : list HostCall :=
  drop (length (calls ss)) (calls ss').

(** The transactions handed to [sendTransaction] in a trace of calls,
    one entry per call, in the order of the calls. *)
Definition submitted (l : list HostCall) : list Transaction :=
  omap (fun k => match k with
                 | SendTransaction tx => Some tx
                 | _ => None
                 end) l.

(** The statuses a request ends on when it fails after asking for
    [cur]. *)
Definition failureStatuses (cur : string) : list Web3Status :=
  [w3declined cur; w3failed; w3wrongChain; w3noAccount].

(** From [ss] to [ss'] the trace of calls grew by [l]. *)
Definition callsGrew (ss ss' : Session) (l : list HostCall) : Prop :=
  calls ss' = (calls ss ++ l)%list.

(** ** Sample sessions and wallets *)

(** A fixed-price charge whose ether address has no pricing entry. *)
Definition halfPricedCharge : Charge :=
  {| code := "H4LFPR1C";
     pricingType := "fixed_price";
     addresses := <[ "ethereum" := "0x419f91df39951fd4e8acc8f1874b01c0c78ceba6" ]>
                    {[ "bitcoin" := "mymZkiXhQNd6VWWG7VGSVdDX9bKmviti3U" ]};
     pricing := Some (<[ "local" := localPrice ]> {[ "bitcoin" := btcPrice ]});
     timeline := entry <$> ["NEW"];
     payments := [];
     expiresAt := "2019-06-01T13:00:00Z";
     cancelUrl := None |}.

(** A charge payable in bitcoin or ether, not paid yet. *)
Definition etherCharge : Charge := btcEthCharge ["NEW"] [].

(** A session around the store [s], nothing in the local store. *)
Definition sessionOf (s : State) : Session :=
  {| store := s; usdChargeAmount := None; isPwcbEnabled := true;
     pwcbError := None; isOAuthPayment := false; localStores := ∅; calls := [] |}.

(** A browser that paid [newCharge] through the hosted path before and
    now loads the page again. *)
Definition returningSession : Session :=
  {| store := freshStore; usdChargeAmount := None; isPwcbEnabled := true;
     pwcbError := None; isOAuthPayment := false;
     localStores := {[ "66BEOV2A" := true ]}; calls := [] |}.

(** A rate from the local currency to USD. *)
Definition sampleRate : ExchangeRate :=
  {| rateFrom := {| amount := "0.45"; currency := "USD" |};
     rateTo := {| amount := "0.45"; currency := "USD" |} |}.

Definition sampleCurrencies (network : string) : option string :=
  if String.eqb network "ethereum" then Some "ETH"
  else if String.eqb network "bitcoin" then Some "BTC"
  else if String.eqb network "usdc" then Some "USDC"
  else None.

Definition sampleContractInfo (cur : string) : option Erc20 :=
  if String.eqb cur "USDC"
  then Some {| erc20Network := "mainnet";
               erc20Address := "0xa0b86991c6218b36c1d19d4a2e9eb0ce3606eb48" |}
  else None.

Definition sampleEncode (to : string) (price : CryptoMoney) : Try string :=
  Ok ("0xa9059cbb" +:+ to).

Definition sampleToHexWei (a : string) : Try string :=
  if String.eqb a "0.01" then Ok "0x2386f26fc10000"
  else Raises (NewError "invalid number value").

(** Awaiting payment with ether picked, the wallet not asked yet. *)
Definition etherSession : Session :=
  sessionOf (set_pickedNetwork (Some "ethereum")
               (holding etherCharge awaitingPayment (Some 1%positive) (Some 2%positive))).

(** The same after the customer declined the ether request. *)
Definition declinedSession : Session :=
  sessionOf (set_web3Status (w3declined "ETH") (store etherSession)).

(** A wallet on the main chain that grants everything. *)
Definition grantingWallet : WalletAnswers :=
  {| enableAnswer := Fulfilled tt;
     importAnswer := Fulfilled tt;
     chainIdAnswer := Fulfilled 1%Z;
     accountsAnswer := Fulfilled (Some ["0x5aaeb6053f3e94c9b9a09f33669435e7ef1beaed"]);
     sendThrowsAnswer := None |}.

(** The transaction the sample wallet is asked to send. *)
Definition etherTransaction : Transaction :=
  {| txFrom := "0x5aaeb6053f3e94c9b9a09f33669435e7ef1beaed";
     txTo := "0x419f91df39951fd4e8acc8f1874b01c0c78ceba6";
     txValue := Some "0x2386f26fc10000";
     txData := None;
     txGas := None |}.

(** ** Running the actions *)

Arguments stopPolling : simpl never.
Arguments poll : simpl never.
Arguments startPolling : simpl never.
Arguments showAwaitingPayment : simpl never.
Arguments showNetworkPicker : simpl never.
Arguments showPendingPayment : simpl never.
Arguments showWaitingForConfirmations : simpl never.
Arguments showSuccessfulPayment : simpl never.
Arguments showFailedPayment : simpl never.
Arguments showCanceledPayment : simpl never.
Arguments processPendingPayment : simpl never.
Arguments processChargeUpdate : simpl never.
Arguments shouldSkipNetworkPicker : simpl never.
Arguments goBack : simpl never.
Arguments cancelCharge : simpl never.
Arguments cancelCharge_resume : simpl never.
Arguments poll_resume : simpl never.

Ltac unfold_act :=
  cbv [bind get modify emit ret throw try_catch await getCharge].

Lemma set_charge_held s c : charge s = Some c -> set_charge (Some c) s = s.
Proof. destruct s; cbn; intros ->; reflexivity. Qed.

Lemma stopPolling_run s : stopPolling s = Done tt (stoppedState s).
Proof.
  destruct s as [ch st pn nw w3 pes fl [pt|] [ei|] dh dn ls nt ef];
    cbv [stopPolling stoppedState cleared]; unfold_act;
    cbv [set_pollTimeoutId set_expiryIntervalId set_pollErrorStreak record_effect];
    cbn; rewrite <- ?app_assoc, ?app_nil_r; reflexivity.
Qed.

Lemma stoppedState_pollingStopped s : pollingStopped s (stoppedState s).
Proof.
  unfold pollingStopped, stoppedState, cleared; cbn.
  repeat split; intros id ->; set_solver.
Qed.

Lemma pollingStopped_more s s1 s2 :
  pollingStopped s s1 ->
  pollTimeoutId s2 = pollTimeoutId s1 ->
  expiryIntervalId s2 = expiryIntervalId s1 ->
  (forall e, e ∈ effects s1 -> e ∈ effects s2) ->
  pollingStopped s s2.
Proof.
  intros (Hp & Hi & Hcp & Hci) Ep Ei Hsub.
  repeat split; [congruence | congruence | |]; eauto.
Qed.

Lemma showSuccessfulPayment_run s c :
  charge s = Some c ->
  showSuccessfulPayment s =
  Done tt (record_effect (SendSuccessfulChargeEvent (code c))
             (stoppedState
                (set_step (Some successfulPayment)
                   (record_effect (Track "checkout:payment-completed") s)))).
Proof.
  intros Hc. unfold showSuccessfulPayment.
  unfold_act. rewrite stopPolling_run. cbn. rewrite Hc. reflexivity.
Qed.

Lemma showFailedPayment_run s c :
  charge s = Some c ->
  showFailedPayment s =
  Done tt (stoppedState
             (set_step (Some failedPayment)
                (record_effect (SendFailedChargeEvent (code c))
                   (record_effect (Track "checkout:payment-failed") s)))).
Proof.
  intros Hc. unfold showFailedPayment.
  unfold_act. cbn. rewrite Hc. apply stopPolling_run.
Qed.

Lemma showCanceledPayment_run s c :
  charge s = Some c ->
  showCanceledPayment s =
  Done tt (stoppedState
             (set_step (Some canceledPayment)
                (record_effect (SendFailedChargeEvent (code c))
                   (record_effect (Track "checkout:payment-canceled") s)))).
Proof.
  intros Hc. unfold showCanceledPayment.
  unfold_act. cbn. rewrite Hc. apply stopPolling_run.
Qed.

Lemma showPendingPayment_run s c :
  charge s = Some c ->
  showPendingPayment s =
  Done tt (record_effect (SendPaymentDetectedEvent (code c))
             (set_step (Some pendingPayment)
                (record_effect (Track "checkout:payment-detected") s))).
Proof.
  intros Hc. unfold showPendingPayment. unfold_act. cbn. rewrite Hc. reflexivity.
Qed.

Lemma showWaitingForConfirmations_run s :
  showWaitingForConfirmations s =
  Done tt (set_step (Some waitingForConfirmations)
             (record_effect (Track "checkout:payment-waiting-for-confirmations") s)).
Proof. reflexivity. Qed.

(** The three terminal screens stop polling. *)
Lemma terminal_stops s s0 e :
  pollTimeoutId s0 = pollTimeoutId s ->
  expiryIntervalId s0 = expiryIntervalId s ->
  pollingStopped s (stoppedState s0)
  /\ pollingStopped s (record_effect e (stoppedState s0)).
Proof.
  intros Ep Ei.
  assert (H : pollingStopped s (stoppedState s0)).
  { destruct (stoppedState_pollingStopped s0) as (Hp & Hi & Hcp & Hci).
    repeat split; auto; intros id Hid; [apply Hcp | apply Hci]; congruence. }
  split; [exact H |].
  eapply pollingStopped_more; [exact H | reflexivity | reflexivity |].
  intros x Hx. cbn. apply elem_of_app. left. exact Hx.
Qed.

(** When the update is not short-circuited, the held charge is replaced
    and the [switch] is run on the new charge's status. *)
Ltac status_eval :=
  repeat match goal with
    | |- context [is_status (Some ?a) ?b] =>
      let v := eval vm_compute in (is_status (Some a) b) in
      change (is_status (Some a) b) with v
    end;
  cbv iota.

Ltac enter_switch Hproc Hst :=
  unfold processChargeUpdate;
  unfold bind at 1; unfold get at 1;
  rewrite Hproc;
  cbv [bind modify chargeStatus getCharge get ret]; cbn [charge set_charge];
  rewrite Hst; status_eval.

Lemma not_short_circuit ctx s c :
  (ctx = ctxPoll -> charge s <> Some c) ->
  bool_decide (ctx = ctxPoll) && isEqual (charge s) c = false.
Proof.
  intros H. unfold isEqual.
  destruct (decide (ctx = ctxPoll)) as [E|E].
  - rewrite (bool_decide_eq_false_2 _ (H E)). apply andb_false_r.
  - rewrite (bool_decide_eq_false_2 _ E). reflexivity.
Qed.

Lemma unknown_is_status st lit :
  unknownStatus st -> lit ∈ knownStatuses -> is_status st lit = false.
Proof.
  intros Hu Hin. apply bool_decide_eq_false_2. intros E. exact (Hu lit E Hin).
Qed.

Lemma processPendingPayment_none s c :
  charge s = Some c -> payments c = [] ->
  processPendingPayment s = Done tt s.
Proof.
  intros Hc Hp. unfold processPendingPayment, activePayment. unfold_act.
  rewrite Hc, Hp. reflexivity.
Qed.

Lemma processPendingPayment_some s c p :
  charge s = Some c -> head (payments c) = Some p ->
  processPendingPayment s =
  (if (confirmationsRequired (block p) <=? confirmations (block p))%Z
   then showSuccessfulPayment
   else if (confirmations (block p) =? 0)%Z
   then showPendingPayment
   else showWaitingForConfirmations) s.
Proof.
  intros Hc Hp. unfold processPendingPayment, activePayment. unfold_act.
  rewrite Hc, Hp. reflexivity.
Qed.

(** [processChargeUpdate] never throws, and afterwards the store holds the
    snapshot it was given. *)
Lemma processChargeUpdate_total c ctx s :
  exists s', processChargeUpdate c ctx s = Done tt s' /\ charge s' = Some c.
Proof.
  unfold processChargeUpdate. unfold bind at 1. unfold get at 1.
  destruct (bool_decide (ctx = ctxPoll) && isEqual (charge s) c) eqn:Hsc.
  { exists s. split; [reflexivity |].
    apply andb_prop in Hsc as [_ Heq]. unfold isEqual in Heq.
    exact (bool_decide_eq_true_1 _ Heq). }
  cbv [bind modify chargeStatus isUnpriced getCharge get ret]. cbn [charge set_charge].
  set (s1 := set_charge (Some c) s).
  assert (Hc1 : charge s1 = Some c) by reflexivity.
  repeat match goal with
         | |- context [if is_status ?a ?b then _ else _] => destruct (is_status a b)
         end;
    try (eexists; split; [reflexivity | exact Hc1]).
  - rewrite Hc1. cbv beta iota. destruct (unpriced c).
    + rewrite (showSuccessfulPayment_run _ _ Hc1). eexists; split; reflexivity.
    + destruct (head (payments c)) as [p|] eqn:Hp.
      * rewrite (processPendingPayment_some _ _ _ Hc1 Hp).
        destruct (_ <=? _)%Z; [| destruct (_ =? _)%Z].
        -- rewrite (showSuccessfulPayment_run _ _ Hc1). eexists; split; reflexivity.
        -- rewrite (showPendingPayment_run _ _ Hc1). eexists; split; reflexivity.
        -- rewrite showWaitingForConfirmations_run. eexists; split; reflexivity.
      * assert (Hnil : payments c = []) by (destruct (payments c); [reflexivity | discriminate]).
        rewrite (processPendingPayment_none _ _ Hc1 Hnil). eexists; split; [reflexivity | exact Hc1].
  - rewrite (showSuccessfulPayment_run _ _ Hc1). eexists; split; reflexivity.
  - rewrite (showSuccessfulPayment_run _ _ Hc1). eexists; split; reflexivity.
  - rewrite (showFailedPayment_run _ _ Hc1). eexists; split; reflexivity.
  - rewrite (showFailedPayment_run _ _ Hc1). eexists; split; reflexivity.
  - rewrite (showCanceledPayment_run _ _ Hc1). eexists; split; reflexivity.
Qed.

(** C1 (as amended). Whenever [processChargeUpdate] processes the snapshot
    (any call but one in [poll] context with a snapshot equal to the held
    charge), a last timeline status of COMPLETED or RESOLVED takes the step
    to [successfulPayment], UNRESOLVED or EXPIRED to [failedPayment] and
    CANCELED to [canceledPayment], each time with polling stopped (both
    handles dropped, and the timers they named cleared). For NEW and for a
    status the switch has no case for (an empty timeline included) the
    step stays as it was, on every call. *)
Theorem terminal_status_dispatch (c : Charge) (ctx : Context) (s : State) :
  ((ctx = ctxPoll -> charge s <> Some c) ->
   (statusOf c = Some "COMPLETED" \/ statusOf c = Some "RESOLVED" ->
    exists s', processChargeUpdate c ctx s = Done tt s'
               /\ step s' = Some successfulPayment /\ pollingStopped s s')
   /\ (statusOf c = Some "UNRESOLVED" \/ statusOf c = Some "EXPIRED" ->
       exists s', processChargeUpdate c ctx s = Done tt s'
                  /\ step s' = Some failedPayment /\ pollingStopped s s')
   /\ (statusOf c = Some "CANCELED" ->
       exists s', processChargeUpdate c ctx s = Done tt s'
                  /\ step s' = Some canceledPayment /\ pollingStopped s s'))
  /\ (statusOf c = Some "NEW" \/ unknownStatus (statusOf c) ->
      exists s', processChargeUpdate c ctx s = Done tt s' /\ step s' = step s).
Proof.
  assert (Hc1 : charge (set_charge (Some c) s) = Some c) by reflexivity.
  split.
  - intros Hproc. apply not_short_circuit in Hproc. repeat split.
    + intros [Hst|Hst]; enter_switch Hproc Hst;
        rewrite (showSuccessfulPayment_run _ _ Hc1);
        (eexists; split; [reflexivity | split; [reflexivity |]]);
        apply terminal_stops; reflexivity.
    + intros [Hst|Hst]; enter_switch Hproc Hst;
        rewrite (showFailedPayment_run _ _ Hc1);
        (eexists; split; [reflexivity | split; [reflexivity |]]);
        apply terminal_stops; solve [reflexivity | exact (Track "")].
    + intros Hst; enter_switch Hproc Hst.
      rewrite (showCanceledPayment_run _ _ Hc1).
      eexists; split; [reflexivity | split; [reflexivity |]].
      apply terminal_stops; solve [reflexivity | exact (Track "")].
  - intros Hst.
    destruct (bool_decide (ctx = ctxPoll) && isEqual (charge s) c) eqn:Hproc.
    { exists s. split; [| reflexivity].
      unfold processChargeUpdate. unfold bind at 1; unfold get at 1.
      rewrite Hproc. reflexivity. }
    destruct Hst as [Hst|Hu].
    + enter_switch Hproc Hst. eexists; split; reflexivity.
    + unfold processChargeUpdate.
      unfold bind at 1; unfold get at 1. rewrite Hproc.
      cbv [bind modify chargeStatus getCharge get ret]; cbn [charge set_charge].
      rewrite !(unknown_is_status _ _ Hu) by (unfold knownStatuses; set_solver).
      eexists; split; reflexivity.
Qed.


Lemma poll_short_circuit_run c s :
  charge s = Some c -> processChargeUpdate c ctxPoll s = Done tt s.
Proof.
  intros Hc. unfold processChargeUpdate. unfold bind at 1; unfold get at 1.
  unfold isEqual. rewrite Hc.
  rewrite !bool_decide_eq_true_2 by reflexivity. reflexivity.
Qed.

(** C6. Delivering, in [poll] context, a snapshot equal to the held charge
    changes nothing at all: the outcome is the very state the call started
    from, so the step, the trace of tracking calls and the polling handles
    are what they were, also on a second delivery. *)
Theorem same_snapshot_poll_noop (c : Charge) (s : State) :
  charge s = Some c ->
  processChargeUpdate c ctxPoll s = Done tt s
  /\ (forall s', processChargeUpdate c ctxPoll s = Done tt s' ->
      processChargeUpdate c ctxPoll s' = Done tt s'
      /\ step s' = step s /\ effects s' = effects s
      /\ pollTimeoutId s' = pollTimeoutId s
      /\ expiryIntervalId s' = expiryIntervalId s
      /\ pollErrorStreak s' = pollErrorStreak s).
Proof.
  intros Hc.
  pose proof (poll_short_circuit_run _ _ Hc) as Hrun.
  split; [exact Hrun |].
  intros s' Hs'. rewrite Hrun in Hs'. injection Hs' as <-.
  repeat split; exact Hrun.
Qed.

(** C10. A priced snapshot whose status is PENDING but that lists no
    payment only replaces the held charge: whatever the context, the call
    returns, the store holds the snapshot, and the step, the trace (so no
    tracking call) and the polling state are untouched. *)
Theorem pending_without_payment_keeps_step
        (c : Charge) (ctx : Context) (s : State) :
  unpriced c = false ->
  statusOf c = Some "PENDING" ->
  payments c = [] ->
  processChargeUpdate c ctx s = Done tt (set_charge (Some c) s)
  /\ charge (set_charge (Some c) s) = Some c
  /\ step (set_charge (Some c) s) = step s
  /\ effects (set_charge (Some c) s) = effects s
  /\ pollTimeoutId (set_charge (Some c) s) = pollTimeoutId s
  /\ expiryIntervalId (set_charge (Some c) s) = expiryIntervalId s.
Proof.
  intros Hu Hst Hp. split; [| repeat split].
  assert (Hc1 : charge (set_charge (Some c) s) = Some c) by reflexivity.
  destruct (bool_decide (ctx = ctxPoll) && isEqual (charge s) c) eqn:Hsc.
  - apply andb_prop in Hsc as [Hctx Heq].
    apply bool_decide_eq_true_1 in Hctx. apply bool_decide_eq_true_1 in Heq.
    subst ctx. rewrite (set_charge_held _ _ Heq).
    apply (poll_short_circuit_run _ _ Heq).
  - enter_switch Hsc Hst.
    cbv [isUnpriced bind getCharge get ret]. cbn [charge set_charge].
    rewrite Hu. apply (processPendingPayment_none _ _ Hc1 Hp).
Qed.

(** *** Back-navigation *)

Lemma length_networksOf c : length (networksOf c) = size (addresses c).
Proof.
  unfold networksOf.
  rewrite (Permutation_length (merge_sort_Permutation _ _)).
  rewrite length_map. apply length_map_to_list.
Qed.

Lemma shouldSkipNetworkPicker_run s c :
  charge s = Some c ->
  shouldSkipNetworkPicker s =
  Done (negb (negb (String.eqb (pricingType c) "no_price")
              && IS_LOCAL_STORAGE_AVAILABLE s)
        && Nat.eqb (size (addresses c)) 1) s.
Proof.
  intros Hc. unfold shouldSkipNetworkPicker, shouldShowPayWithCoinbase, networks.
  unfold_act. rewrite Hc.
  destruct (negb (String.eqb (pricingType c) "no_price") && IS_LOCAL_STORAGE_AVAILABLE s);
    cbn [negb andb]; [reflexivity |].
  rewrite Hc, length_networksOf. reflexivity.
Qed.

Lemma showNetworkPicker_no_skip s c :
  charge s = Some c ->
  shouldSkipNetworkPicker s = Done false s ->
  showNetworkPicker s =
  Done tt (set_step (Some networkPicker) (set_pickedNetwork None s)).
Proof.
  intros Hc Hskip. unfold showNetworkPicker. unfold_act.
  assert (Hc' : charge (set_pickedNetwork None s) = Some c) by exact Hc.
  rewrite (shouldSkipNetworkPicker_run _ _ Hc').
  rewrite (shouldSkipNetworkPicker_run _ _ Hc) in Hskip.
  injection Hskip as Hskip. cbn [IS_LOCAL_STORAGE_AVAILABLE set_pickedNetwork].
  rewrite Hskip. reflexivity.
Qed.

Lemma exit_run s : (stopPolling ;;; emit ReturnHome) s = Done tt (record_effect ReturnHome (stoppedState s)).
Proof. unfold_act. rewrite stopPolling_run. reflexivity. Qed.

Lemma exit_exitsFlow s : exitsFlow s (Done tt (record_effect ReturnHome (stoppedState s))).
Proof.
  eexists. split; [reflexivity |]. split; [| split].
  - apply terminal_stops; reflexivity.
  - cbn. rewrite <- app_assoc. reflexivity.
  - reflexivity.
Qed.

Lemma goBack_awaitingPayment s b s1 :
  step s = Some awaitingPayment ->
  shouldSkipNetworkPicker s = Done b s1 ->
  goBack s = (if b then stopPolling ;;; emit ReturnHome else showNetworkPicker) s1.
Proof.
  intros Hstep Hskip. unfold goBack. unfold bind at 1; unfold get at 1.
  rewrite Hstep. unfold bind at 1. rewrite Hskip. reflexivity.
Qed.

(** C3. [goBack] from [awaitingPayment] leaves the flow (polling stopped,
    then the parent's [returnHome]) when the picker would be skipped, that
    is when the hosted path is not applicable and the charge has exactly
    one network, and otherwise shows [networkPicker]; from [networkPicker]
    and from the three terminal steps it leaves the flow; from
    [pendingPayment], [waitingForConfirmations] and
    [processingCancellation] it throws, the store untouched. *)
Theorem goBack_navigation (s : State) :
  (forall c, step s = Some awaitingPayment -> charge s = Some c ->
     (shouldShowPayWithCoinbase c s = Done false s /\ size (addresses c) = 1 ->
      exitsFlow s (goBack s))
     /\ (~ (shouldShowPayWithCoinbase c s = Done false s /\ size (addresses c) = 1) ->
         exists s', goBack s = Done tt s'
                    /\ step s' = Some networkPicker
                    /\ ReturnHome ∉ drop (length (effects s)) (effects s')))
  /\ (step s = Some networkPicker \/ step s = Some successfulPayment
      \/ step s = Some failedPayment \/ step s = Some canceledPayment ->
      exitsFlow s (goBack s))
  /\ (step s = Some pendingPayment \/ step s = Some waitingForConfirmations
      \/ step s = Some processingCancellation ->
      exists e, goBack s = Thrown e s).
Proof.
  split; [| split].
  - intros c Hstep Hc.
    pose proof (shouldSkipNetworkPicker_run _ _ Hc) as Hskip.
    assert (Hshow : shouldShowPayWithCoinbase c s =
                    Done (negb (String.eqb (pricingType c) "no_price")
                          && IS_LOCAL_STORAGE_AVAILABLE s) s) by reflexivity.
    rewrite (goBack_awaitingPayment _ _ _ Hstep Hskip).
    split.
    + intros [Hpw Hsz]. rewrite Hshow in Hpw. injection Hpw as ->.
      rewrite Hsz. cbn [negb andb Nat.eqb]. rewrite exit_run. apply exit_exitsFlow.
    + intros Hno.
      destruct (negb (String.eqb (pricingType c) "no_price")
                && IS_LOCAL_STORAGE_AVAILABLE s) eqn:Hpw; cbn [negb andb].
      * rewrite (showNetworkPicker_no_skip _ _ Hc Hskip).
        eexists; split; [reflexivity | split; [reflexivity |]].
        cbn. rewrite drop_all. apply not_elem_of_nil.
      * cbn [negb andb] in Hskip.
        destruct (Nat.eqb (size (addresses c)) 1) eqn:Hsz.
        { exfalso. apply Hno. split; [rewrite Hshow; reflexivity |].
          apply Nat.eqb_eq. exact Hsz. }
        rewrite (showNetworkPicker_no_skip _ _ Hc Hskip).
        eexists; split; [reflexivity | split; [reflexivity |]].
        cbn. rewrite drop_all. apply not_elem_of_nil.
  - intros [H|[H|[H|H]]]; unfold goBack; unfold bind at 1; unfold get at 1;
      rewrite H; cbv iota; rewrite exit_run; apply exit_exitsFlow.
  - intros [H|[H|H]]; unfold goBack; unfold bind at 1; unfold get at 1;
      rewrite H; eexists; reflexivity.
Qed.

(** *** The poller *)

Lemma poll_resume_stopped r s :
  pollTimeoutId s = None -> poll_resume r s = Done tt s.
Proof.
  intros Hp. destruct r; unfold poll_resume; unfold_act; rewrite Hp; reflexivity.
Qed.

(** As far as the guard of [poll] reaches: when the charge request
    settles in a state whose poll handle is cleared (polling was stopped
    while the request was in flight and has not been started again
    since), the continuation returns at once, for a snapshot and for an
    error alike, and leaves the state exactly as it found it: the held
    charge and the step (no update processed), the error streak, and the
    trace and the handle (nothing scheduled). *)
Theorem poll_result_discarded_when_stopped (r : Settlement Charge) (s : State) :
  pollTimeoutId s = None ->
  exists s', poll_resume r s = Done tt s'
             /\ s' = s
             /\ charge s' = charge s /\ step s' = step s
             /\ pollErrorStreak s' = pollErrorStreak s
             /\ effects s' = effects s
             /\ pollTimeoutId s' = None.
Proof.
  intros Hp. exists s. rewrite (poll_resume_stopped _ _ Hp).
  repeat split; auto.
Qed.

(** The same, along the run the claim describes: a poll cycle starts, then
    polling is stopped while the request is in flight. *)
Lemma poll_then_stop_then_settle b r s s1 a :
  poll b s = Done a s1 ->
  stopPolling s1 = Done tt (stoppedState s1)
  /\ poll_resume r (stoppedState s1) = Done tt (stoppedState s1).
Proof.
  intros _. split; [apply stopPolling_run |].
  apply poll_resume_stopped. reflexivity.
Qed.

(** *** Cancellation *)

Lemma cancelCharge_run s c :
  charge s = Some c ->
  cancelCharge s =
  Done Suspended
    (record_effect (CancelChargeRequest (code c))
       (stoppedState
          (set_step (Some processingCancellation)
             (record_effect (Track "checkout:payment-canceled") s)))).
Proof.
  intros Hc. unfold cancelCharge. unfold_act. rewrite Hc.
  cbn. rewrite stopPolling_run. cbn. rewrite Hc. reflexivity.
Qed.

Lemma cancelCharge_resume_rejected t h e :
  charge t = Some h ->
  cancelCharge_resume (Rejected e) t =
  Done (cancelUrl h) (record_effect (ConsoleError "cancel failed with " e) t).
Proof.
  intros Hc. unfold cancelCharge_resume. unfold_act. cbn. rewrite Hc. reflexivity.
Qed.

Lemma cancelCharge_resume_fulfilled t c' :
  exists t', cancelCharge_resume (Fulfilled c') t = Done (cancelUrl c') t'
             /\ charge t' = Some c'.
Proof.
  destruct (processChargeUpdate_total c' ctxCancel t) as (t' & Hrun & Hc').
  exists t'. split; [| exact Hc'].
  unfold cancelCharge_resume. unfold_act. rewrite Hrun. rewrite Hc'. reflexivity.
Qed.

(** C4. With a charge held, [cancelCharge] tracks the cancellation, sets
    the step to [processingCancellation], stops polling and only then
    sends the cancellation request. Whenever the request settles: if it
    was rejected (whatever the error) the promise still resolves, the held
    charge and the step are untouched and the value is the held charge's
    [cancelUrl]; if it was fulfilled the snapshot becomes the held charge
    and the value is its [cancelUrl]. *)
Theorem cancelCharge_flow (s : State) (held : Charge) :
  charge s = Some held ->
  (exists s1, cancelCharge s = Done Suspended s1
              /\ step s1 = Some processingCancellation
              /\ pollingStopped s s1
              /\ charge s1 = Some held
              /\ effects s1 = (effects s ++ [Track "checkout:payment-canceled"]
                                          ++ cleared s
                                          ++ [CancelChargeRequest (code held)])%list)
  /\ (forall t h e, charge t = Some h ->
        exists t', cancelCharge_resume (Rejected e) t = Done (cancelUrl h) t'
                   /\ charge t' = Some h /\ step t' = step t)
  /\ (forall t c',
        exists t', cancelCharge_resume (Fulfilled c') t = Done (cancelUrl c') t'
                   /\ charge t' = Some c').
Proof.
  intros Hc. split; [| split].
  - rewrite (cancelCharge_run _ _ Hc). eexists. split; [reflexivity |].
    split; [reflexivity |]. split; [| split].
    + apply terminal_stops; reflexivity.
    + exact Hc.
    + cbn [effects record_effect stoppedState].
      change (cleared _) with (cleared s).
      cbn [effects record_effect set_step]. rewrite <- !app_assoc. reflexivity.
  - intros t h e Ht. rewrite (cancelCharge_resume_rejected _ _ _ Ht).
    eexists; split; [reflexivity | split; [exact Ht | reflexivity]].
  - intros t c'. apply cancelCharge_resume_fulfilled.
Qed.

(** *** Poll delay *)

(** C8. The poll delay is a function of the current state alone: 15000 on
    [networkPicker] or [maintenance] or while the document is hidden;
    otherwise 10000 when the error streak exceeds 10, otherwise 5000 when
    it exceeds 5, otherwise 2000. *)
Theorem pollDelay_policy (s : State) :
  (step s = Some networkPicker \/ step s = Some maintenance
   \/ documentHidden s = true -> pollDelay s = 15000%Z)
  /\ (~ (step s = Some networkPicker \/ step s = Some maintenance
         \/ documentHidden s = true) ->
      (10 < pollErrorStreak s -> pollDelay s = 10000%Z)
      /\ (5 < pollErrorStreak s <= 10 -> pollDelay s = 5000%Z)
      /\ (pollErrorStreak s <= 5 -> pollDelay s = 2000%Z)).
Proof.
  unfold pollDelay. split.
  - intros [H|[H|H]]; rewrite H; cbn; rewrite ?orb_true_r; reflexivity.
  - intros Hn.
    rewrite !bool_decide_eq_false_2 by tauto.
    destruct (documentHidden s); [tauto |]. cbn [orb].
    repeat split; intros Hs.
    + apply Nat.ltb_lt in Hs. rewrite Hs. reflexivity.
    + destruct Hs as [H5 H10].
      apply Nat.ltb_ge in H10. apply Nat.ltb_lt in H5. rewrite H10, H5. reflexivity.
    + assert (H10 : pollErrorStreak s <= 10) by lia.
      apply Nat.ltb_ge in Hs. apply Nat.ltb_ge in H10. rewrite H10, Hs. reflexivity.
Qed.

(** *** Direct-wallet events *)

(** C9. The [transactionHash] listener sets the status to [submitted]
    with the transaction id it was handed when that value is truthy, and
    to [declined] with the requested currency when it is falsy (empty
    string, [undefined], [null], ...); it changes nothing else. *)
Theorem onTransactionHash_status (cur : string) (txId : JsValue) (s : State) :
  onTransactionHash cur txId s =
  Done tt (set_web3Status (if truthy txId then w3submitted txId else w3declined cur) s)
  /\ (truthy txId = true ->
      web3Status (final (onTransactionHash cur txId s)) = w3submitted txId)
  /\ (truthy txId = false ->
      web3Status (final (onTransactionHash cur txId s)) = w3declined cur
      /\ forall t, web3Status (final (onTransactionHash cur txId s)) <> w3submitted t).
Proof.
  unfold onTransactionHash.
  destruct (truthy txId); cbn; repeat split; try discriminate; congruence.
Qed.

(** *** Lower send limit *)

Section LowerSendLimitFacts.

Variable Number : string -> float.

(** The loop pushes one currency per key whose priced amount is below
    its limit, and throws on no key that has a pricing entry. *)
Lemma collectInvalid_run c keys invalid s :
  Forall (fun key => is_Some (priceOf c key)) keys ->
  exists l, collectInvalid Number c keys invalid s = Done l s
            /\ length l =
               length invalid
               + length (filter (fun key => keyBelow Number c key = true) keys).
Proof.
  intros Hall. revert invalid.
  induction Hall as [| key rest [m Hm] _ IH]; intros invalid.
  - exists invalid. split; [reflexivity |]. cbn. lia.
  - cbn [collectInvalid]. rewrite Hm.
    destruct (IH (if belowLimit Number m then invalid ++ [currency m] else invalid)%list)
      as (l & Hrun & Hlen).
    exists l. split; [exact Hrun |].
    assert (Hkb : keyBelow Number c key = belowLimit Number m)
      by (unfold keyBelow; rewrite Hm; reflexivity).
    rewrite Hlen. rewrite filter_cons. rewrite Hkb.
    destruct (belowLimit Number m) eqn:Hb.
    + rewrite decide_True by reflexivity. rewrite length_app. cbn. lia.
    + rewrite decide_False by discriminate. lia.
Qed.

Lemma filter_all_length {A} (P : A -> Prop) `{!forall x, Decision (P x)} (l : list A) :
  length (filter P l) = length l <-> Forall P l.
Proof.
  induction l as [| x l IH].
  - split; [constructor | reflexivity].
  - rewrite filter_cons. destruct (decide (P x)) as [Hx | Hx].
    + cbn. rewrite Forall_cons. split.
      * intros E. split; [exact Hx | apply IH; lia].
      * intros [_ Hl]. f_equal. apply IH. exact Hl.
    + pose proof (length_filter P l). split.
      * cbn. lia.
      * intros HF. apply Forall_cons in HF as [HF _]. contradiction.
Qed.

(** C7 (as amended). On an unpriced charge the setter is a no-op: it
    returns with the state, and so the flag, exactly as they were. On a
    priced charge whose address keys all have a pricing entry it sets
    the flag, to true if and only if every address entry's priced amount
    is strictly below the minimum of its currency (0 for a currency the
    table lacks); so the flag is false as soon as one entry meets its
    minimum. *)
Theorem lower_send_limit_policy (c : Charge) (s : State) :
  charge s = Some c ->
  (unpriced c = true ->
   setIsChargeBelowCoinbaseLowerSendLimit Number s = Done tt s)
  /\ (unpriced c = false ->
      (forall key, is_Some (addresses c !! key) -> is_Some (priceOf c key)) ->
      exists b,
        setIsChargeBelowCoinbaseLowerSendLimit Number s =
        Done tt (set_isChargeBelowCoinbaseLowerSendLimit (Some b) s)
        /\ (b = true <->
            forall key m, is_Some (addresses c !! key) -> priceOf c key = Some m ->
                          PrimFloat.ltb (Number (amount m)) (limitAmount (currency m)) = true)
        /\ ((exists key m, is_Some (addresses c !! key) /\ priceOf c key = Some m
                           /\ PrimFloat.ltb (Number (amount m)) (limitAmount (currency m)) = false) ->
            b = false)).
Proof.
  intros Hc. split.
  - intros Hu. unfold setIsChargeBelowCoinbaseLowerSendLimit, isUnpriced.
    unfold_act. rewrite Hc, Hu. reflexivity.
  - intros Hu Hpriced.
    set (keys := map fst (map_to_list (addresses c))).
    assert (Hkeys : forall key, key ∈ keys <-> is_Some (addresses c !! key)).
    { intros key. unfold keys. rewrite list_elem_of_fmap. split.
      - intros ([k a] & -> & Hin). apply elem_of_map_to_list in Hin. eauto.
      - intros [a Ha]. exists (key, a). split; [reflexivity |].
        apply elem_of_map_to_list. exact Ha. }
    assert (Hall : Forall (fun key => is_Some (priceOf c key)) keys).
    { apply Forall_forall. intros key Hin. apply Hpriced, Hkeys, Hin. }
    destruct (collectInvalid_run c keys [] s Hall) as (l & Hrun & Hlen).
    exists (Nat.eqb (length l) (length keys)).
    assert (Hiff : Nat.eqb (length l) (length keys) = true <->
                   forall key m, is_Some (addresses c !! key) -> priceOf c key = Some m ->
                                 PrimFloat.ltb (Number (amount m)) (limitAmount (currency m)) = true).
    { rewrite Nat.eqb_eq, Hlen. cbn [length Nat.add].
      rewrite filter_all_length, Forall_forall. split.
      - intros H key m Hk Hm. apply Hkeys in Hk.
        specialize (H key Hk). cbv beta in H. unfold keyBelow in H.
        rewrite Hm in H. exact H.
      - intros H key Hk. pose proof (proj1 (Hkeys key) Hk) as Hk'.
        destruct (Hpriced key Hk') as [m Hm]. unfold keyBelow. rewrite Hm.
        apply (H key m Hk' Hm). }
    split; [| split].
    + unfold setIsChargeBelowCoinbaseLowerSendLimit, isUnpriced.
      unfold_act. rewrite Hc. cbv beta iota. rewrite Hu. cbv beta iota.
      rewrite Hc. cbv beta iota. fold keys. rewrite Hrun. reflexivity.
    + exact Hiff.
    + intros (key & m & Hk & Hm & Hnb).
      apply not_true_is_false. intros Hb.
      rewrite (proj1 Hiff Hb key m Hk Hm) in Hnb. discriminate.
Qed.

End LowerSendLimitFacts.

(** When a poll fails for another reason than maintenance and polling has
    not been stopped, the streak grows by one and the next cycle is
    scheduled with the delay of the state as it is then. *)
Lemma poll_resume_rejected_reschedules e s id :
  pollTimeoutId s = Some id ->
  isMaintenance e = false ->
  let s1 := set_pollErrorStreak (S (pollErrorStreak s))
              (record_effect (ConsoleError "poll" e) s) in
  poll_resume (Rejected e) s =
  Done tt (set_pollTimeoutId (Some (nextTimer s))
             (record_effect (SetTimeout (nextTimer s) cbPoll (pollDelay s1))
                (bump_timer s1))).
Proof.
  intros Hp Hm. unfold poll_resume, setTimeout. unfold_act. rewrite Hp, Hm. reflexivity.
Qed.

(** ** Instances *)

Lemma terminal_status_dispatch_witness :
  (ctxPoll = ctxPoll -> charge pollingStore <> Some completedCharge)
  /\ statusOf completedCharge = Some "COMPLETED"
  /\ exists s', processChargeUpdate completedCharge ctxPoll pollingStore = Done tt s'
                /\ step s' = Some successfulPayment
                /\ pollingStopped pollingStore s'.
Proof.
  assert (H : ctxPoll = ctxPoll -> charge pollingStore <> Some completedCharge)
    by (intros _; discriminate).
  split; [exact H |]. split; [reflexivity |].
  apply (proj1 (proj1 (terminal_status_dispatch completedCharge ctxPoll pollingStore) H)).
  left. reflexivity.
Defined.

(** The claim as first stated fails on the short-circuit: the store shows
    the maintenance screen over a COMPLETED charge, the poll delivers the
    same snapshot, and the step is not [successfulPayment] afterwards. *)
Lemma completed_snapshot_short_circuited :
  statusOf completedCharge = Some "COMPLETED"
  /\ ~ (exists s', processChargeUpdate completedCharge ctxPoll
                     (maintenanceStore completedCharge) = Done tt s'
                   /\ step s' = Some successfulPayment).
Proof.
  split; [reflexivity |].
  intros (s' & Hrun & Hstep).
  rewrite (poll_short_circuit_run completedCharge
             (maintenanceStore completedCharge) eq_refl) in Hrun.
  injection Hrun as <-. discriminate Hstep.
Qed.

(** Such a store arises from [pollingStore] by [maintenanceRun]. *)
Lemma maintenanceRun_reaches_maintenance :
  let s := deliverAll maintenanceRun pollingStore in
  charge s = Some completedCharge
  /\ step s = Some maintenance
  /\ pollTimeoutId s = Some 14%positive
  /\ expiryIntervalId s = None.
Proof. vm_compute. repeat split; reflexivity. Qed.



Lemma goBack_navigation_witness :
  let s2 := holding (btcEthCharge ["NEW"] []) awaitingPayment (Some 1%positive) (Some 2%positive) in
  let s1 := holding (donationCharge ["NEW"]) awaitingPayment (Some 1%positive) (Some 2%positive) in
  let sp := holding pendingCharge pendingPayment (Some 1%positive) (Some 2%positive) in
  (step s2 = Some awaitingPayment
   /\ ~ (shouldShowPayWithCoinbase (btcEthCharge ["NEW"] []) s2 = Done false s2
         /\ size (addresses (btcEthCharge ["NEW"] [])) = 1)
   /\ exists s', goBack s2 = Done tt s' /\ step s' = Some networkPicker
                 /\ ReturnHome ∉ drop (length (effects s2)) (effects s'))
  /\ (step s1 = Some awaitingPayment
      /\ shouldShowPayWithCoinbase (donationCharge ["NEW"]) s1 = Done false s1
      /\ size (addresses (donationCharge ["NEW"])) = 1
      /\ exitsFlow s1 (goBack s1))
  /\ (step sp = Some pendingPayment /\ exists e, goBack sp = Thrown e sp).
Proof.
  intros s2 s1 sp.
  assert (Hno : ~ (shouldShowPayWithCoinbase (btcEthCharge ["NEW"] []) s2 = Done false s2
                   /\ size (addresses (btcEthCharge ["NEW"] [])) = 1))
    by (intros [H _]; vm_compute in H; discriminate H).
  split; [| split].
  - split; [reflexivity |]. split; [exact Hno |].
    exact (proj2 (proj1 (goBack_navigation s2) (btcEthCharge ["NEW"] []) eq_refl eq_refl) Hno).
  - split; [reflexivity |]. split; [reflexivity |]. split; [reflexivity |].
    exact (proj1 (proj1 (goBack_navigation s1) (donationCharge ["NEW"]) eq_refl eq_refl)
             (conj eq_refl eq_refl)).
  - split; [reflexivity |].
    exact (proj2 (proj2 (goBack_navigation sp)) (or_introl eq_refl)).
Defined.

Lemma cancelCharge_flow_witness :
  charge pollingStore = Some newCharge
  /\ (exists s1, cancelCharge pollingStore = Done Suspended s1
                 /\ step s1 = Some processingCancellation
                 /\ pollingStopped pollingStore s1
                 /\ charge s1 = Some newCharge
                 /\ effects s1 = (effects pollingStore
                                  ++ [Track "checkout:payment-canceled"]
                                  ++ cleared pollingStore
                                  ++ [CancelChargeRequest (code newCharge)])%list)
  /\ (exists t', cancelCharge_resume (Rejected notFoundError)
                   (final (cancelCharge pollingStore)) = Done (cancelUrl newCharge) t'
                 /\ charge t' = Some newCharge
                 /\ step t' = Some processingCancellation).
Proof.
  split; [reflexivity |].
  pose proof (cancelCharge_flow pollingStore newCharge eq_refl) as (Hbegin & Hrej & _).
  split; [exact Hbegin |].
  exact (Hrej (final (cancelCharge pollingStore)) newCharge notFoundError eq_refl).
Defined.

Lemma poll_result_discarded_when_stopped_witness :
  let s := holding newCharge successfulPayment None None in
  pollTimeoutId s = None
  /\ (exists s', poll_resume (Fulfilled completedCharge) s = Done tt s' /\ s' = s
                 /\ charge s' = charge s /\ step s' = step s
                 /\ pollErrorStreak s' = pollErrorStreak s
                 /\ effects s' = effects s /\ pollTimeoutId s' = None)
  /\ (exists s', poll_resume (Rejected maintenanceError) s = Done tt s' /\ s' = s
                 /\ charge s' = charge s /\ step s' = step s
                 /\ pollErrorStreak s' = pollErrorStreak s
                 /\ effects s' = effects s /\ pollTimeoutId s' = None).
Proof.
  intros s. split; [reflexivity |]. split.
  - exact (poll_result_discarded_when_stopped (Fulfilled completedCharge) s eq_refl).
  - exact (poll_result_discarded_when_stopped (Rejected maintenanceError) s eq_refl).
Defined.

(** C5. The guard of [poll] ("polling might have been cancelled by
    now") looks at the handle as it is when the request settles, and so
    misses a stop that was followed by a restart. A cycle sends its
    request; polling is stopped, which clears the handle; polling is
    started again, which sets a new handle and sends a second request.
    When the first request now settles, the continuation finds a handle
    and cannot tell it is not its own: a snapshot is processed and a next
    cycle scheduled, an error raises the streak and a next cycle is
    scheduled, where the result of a stopped cycle was to be discarded. *)
Theorem stopped_and_restarted_poll_result_processed :
  let s0 := holding newCharge awaitingPayment None None in
  let s1 := final (startPolling s0) in
  let s2 := final (stopPolling s1) in
  let s3 := final (startPolling s2) in
  (added s0 s1 = [SetTimeout 10%positive cbNoop 0;
                  GetChargeFromOrderCode "66BEOV2A";
                  SetInterval 11%positive cbTick 1000]
   /\ pollTimeoutId s1 = Some 10%positive)
  /\ (added s1 s2 = [ClearTimeout 10%positive; ClearInterval 11%positive]
      /\ pollTimeoutId s2 = None)
  /\ (pollTimeoutId s3 = Some 12%positive
      /\ charge s3 = Some newCharge
      /\ step s3 = Some awaitingPayment
      /\ pollErrorStreak s3 = 0)
  /\ (let s4 := final (poll_resume (Fulfilled pendingCharge) s3) in
      charge s4 = Some pendingCharge
      /\ step s4 = Some waitingForConfirmations
      /\ added s3 s4 = [Track "checkout:payment-waiting-for-confirmations";
                        SetTimeout 14%positive cbPoll 2000]
      /\ pollTimeoutId s4 = Some 14%positive)
  /\ (let s4 := final (poll_resume (Rejected notFoundError) s3) in
      pollErrorStreak s4 = 1
      /\ added s3 s4 = [ConsoleError "poll" notFoundError;
                        SetTimeout 14%positive cbPoll 2000]
      /\ pollTimeoutId s4 = Some 14%positive).
Proof.
  vm_compute. repeat split; reflexivity.
Qed.

(** The check is made on the handle as it is when the request settles:
    picking a network restarts polling, which arms the handle again, and
    the result of the request that was already in flight is then
    processed. *)
Lemma restart_rearms_in_flight_result :
  let s := deliverAll [ UserPicksNetwork "bitcoin";
                        ChargeRequestSettled (Fulfilled pendingCharge) ] pollingStore in
  charge s = Some pendingCharge /\ step s = Some waitingForConfirmations.
Proof. vm_compute. split; reflexivity. Qed.

Lemma same_snapshot_poll_noop_witness :
  charge (maintenanceStore completedCharge) = Some completedCharge
  /\ processChargeUpdate completedCharge ctxPoll (maintenanceStore completedCharge) =
     Done tt (maintenanceStore completedCharge).
Proof.
  split; [reflexivity |].
  exact (proj1 (same_snapshot_poll_noop completedCharge
                  (maintenanceStore completedCharge) eq_refl)).
Defined.

Lemma pending_without_payment_keeps_step_witness :
  unpriced pendingNoPayment = false
  /\ statusOf pendingNoPayment = Some "PENDING"
  /\ payments pendingNoPayment = []
  /\ processChargeUpdate pendingNoPayment ctxPoll pollingStore =
     Done tt (set_charge (Some pendingNoPayment) pollingStore).
Proof.
  repeat (split; [reflexivity |]).
  exact (proj1 (pending_without_payment_keeps_step pendingNoPayment ctxPoll
                  pollingStore eq_refl eq_refl eq_refl)).
Defined.

Lemma pollDelay_policy_witness :
  let s := set_pollErrorStreak 6 pollingStore in
  ~ (step s = Some networkPicker \/ step s = Some maintenance \/ documentHidden s = true)
  /\ 5 < pollErrorStreak s <= 10
  /\ pollDelay s = 5000%Z.
Proof.
  intros s.
  assert (Hn : ~ (step s = Some networkPicker \/ step s = Some maintenance
                  \/ documentHidden s = true))
    by (intros [H|[H|H]]; discriminate H).
  assert (Hs : 5 < pollErrorStreak s <= 10) by (cbn; lia).
  split; [exact Hn |]. split; [exact Hs |].
  exact (proj1 (proj2 (proj2 (pollDelay_policy s) Hn)) Hs).
Defined.

Example pollDelay_streak_0 : pollDelay pollingStore = 2000%Z.
Proof. reflexivity. Qed.
Example pollDelay_streak_6 : pollDelay (set_pollErrorStreak 6 pollingStore) = 5000%Z.
Proof. reflexivity. Qed.
Example pollDelay_streak_11 : pollDelay (set_pollErrorStreak 11 pollingStore) = 10000%Z.
Proof. reflexivity. Qed.
Example pollDelay_networkPicker :
  pollDelay (set_pollErrorStreak 11 (set_step (Some networkPicker) pollingStore)) = 15000%Z.
Proof. reflexivity. Qed.
Example pollStatus_streak_4 : pollStatus (set_pollErrorStreak 4 pollingStore) = error.
Proof. reflexivity. Qed.

Lemma onTransactionHash_status_witness :
  truthy (JsString "") = false
  /\ web3Status (final (onTransactionHash "ETH" (JsString "") pollingStore)) = w3declined "ETH"
  /\ truthy (JsString "0x5c504ed432cb51138bcf09aa5e8a410dd4a1e204") = true
  /\ web3Status (final (onTransactionHash "ETH"
                          (JsString "0x5c504ed432cb51138bcf09aa5e8a410dd4a1e204") pollingStore))
     = w3submitted (JsString "0x5c504ed432cb51138bcf09aa5e8a410dd4a1e204").
Proof.
  split; [reflexivity |]. split.
  - exact (proj1 (proj2 (proj2 (onTransactionHash_status "ETH" (JsString "") pollingStore))
                    eq_refl)).
  - split; [reflexivity |].
    exact (proj1 (proj2 (onTransactionHash_status "ETH"
                           (JsString "0x5c504ed432cb51138bcf09aa5e8a410dd4a1e204")
                           pollingStore)) eq_refl).
Defined.

Lemma newCharge_addresses_priced key :
  is_Some (addresses newCharge !! key) -> is_Some (priceOf newCharge key).
Proof.
  intros [a Ha]. unfold newCharge, btcCharge in Ha. cbn [addresses] in Ha.
  apply lookup_singleton_Some in Ha as [<- _].
  exists btcPrice. reflexivity.
Defined.

Lemma lower_send_limit_policy_witness :
  charge pollingStore = Some newCharge
  /\ unpriced newCharge = false
  /\ (forall key, is_Some (addresses newCharge !! key) -> is_Some (priceOf newCharge key))
  /\ exists b,
      setIsChargeBelowCoinbaseLowerSendLimit sampleNumber pollingStore =
      Done tt (set_isChargeBelowCoinbaseLowerSendLimit (Some b) pollingStore)
      /\ (b = true <->
          forall key m, is_Some (addresses newCharge !! key) -> priceOf newCharge key = Some m ->
                        PrimFloat.ltb (sampleNumber (amount m)) (limitAmount (currency m)) = true)
      /\ ((exists key m, is_Some (addresses newCharge !! key) /\ priceOf newCharge key = Some m
                         /\ PrimFloat.ltb (sampleNumber (amount m)) (limitAmount (currency m)) = false) ->
          b = false).
Proof.
  split; [reflexivity |]. split; [reflexivity |].
  split; [exact newCharge_addresses_priced |].
  exact (proj2 (lower_send_limit_policy sampleNumber newCharge
                  pollingStore eq_refl) eq_refl newCharge_addresses_priced).
Defined.

(** The claim as first stated fails on an unpriced charge handed to a
    store whose flag was set by an earlier, priced charge: the setter
    returns without touching the flag, which stays true. *)
Lemma unpriced_charge_keeps_flag :
  charge staleStore = Some (donationCharge ["NEW"])
  /\ unpriced (donationCharge ["NEW"]) = true
  /\ isChargeBelowCoinbaseLowerSendLimit
       (final (setIsChargeBelowCoinbaseLowerSendLimit sampleNumber staleStore)) = Some true
  /\ ~ isChargeBelowCoinbaseLowerSendLimit
         (final (setIsChargeBelowCoinbaseLowerSendLimit sampleNumber staleStore)) = Some false.
Proof.
  assert (E : setIsChargeBelowCoinbaseLowerSendLimit sampleNumber staleStore = Done tt staleStore)
    by (vm_compute; reflexivity).
  rewrite E. repeat split. discriminate.
Qed.

(** [staleStore] is what evaluating [newCharge] and then assigning the
    donation to [this.charge] leaves, as two calls of [setCharge] do. *)
Lemma staleStore_reachable :
  set_charge (Some (donationCharge ["NEW"]))
    (final (setIsChargeBelowCoinbaseLowerSendLimit sampleNumber
              (holding newCharge networkPicker None None)))
  = staleStore.
Proof. vm_compute. reflexivity. Qed.

(** On a store that never evaluated a priced charge the flag of an
    unpriced charge is unset. *)
Example unpriced_charge_fresh_flag :
  isChargeBelowCoinbaseLowerSendLimit
    (final (setIsChargeBelowCoinbaseLowerSendLimit sampleNumber
              (holding (donationCharge ["NEW"]) networkPicker None None))) = None.
Proof. vm_compute. reflexivity. Qed.

(** 0.00005 BTC on the only network is below the 0.0001 minimum. *)
Example below_limit_btc_only :
  isChargeBelowCoinbaseLowerSendLimit
    (final (setIsChargeBelowCoinbaseLowerSendLimit sampleNumber pollingStore)) = Some true.
Proof. vm_compute. reflexivity. Qed.

(** With a second network priced at 0.01 ETH the charge is payable. *)
Example not_below_limit_btc_eth :
  isChargeBelowCoinbaseLowerSendLimit
    (final (setIsChargeBelowCoinbaseLowerSendLimit sampleNumber
              (holding (btcEthCharge ["NEW"] []) networkPicker None None))) = Some false.
Proof. vm_compute. reflexivity. Qed.

(** ** Further properties of the store *)

Arguments setTimeout : simpl never.
Arguments setInterval : simpl never.
Arguments pickNetwork : simpl never.
Arguments payWithCoinbase : simpl never.

Lemma setTimeout_run cb d s :
  setTimeout cb d s =
  Done (nextTimer s) (record_effect (SetTimeout (nextTimer s) cb d) (bump_timer s)).
Proof. reflexivity. Qed.

Lemma setInterval_run cb d s :
  setInterval cb d s =
  Done (nextTimer s) (record_effect (SetInterval (nextTimer s) cb d) (bump_timer s)).
Proof. reflexivity. Qed.

Lemma poll_run_no_charge b s :
  charge s = None -> poll b s = Done (Settled tt) s.
Proof. intros Hc. unfold poll. unfold_act. rewrite Hc. reflexivity. Qed.

Lemma poll_run_blocked s c id :
  charge s = Some c -> pollTimeoutId s = Some id ->
  poll true s =
  Done (Settled tt) (record_effect (ConsoleWarn "poll: already in a poll state") s).
Proof.
  intros Hc Hp. unfold poll. unfold_act. rewrite Hc, Hp.
  rewrite bool_decide_eq_true_2 by eauto. reflexivity.
Qed.

Lemma poll_run_request b s c :
  charge s = Some c -> (pollTimeoutId s = None \/ b = false) ->
  poll b s = Done Suspended (requesting c s).
Proof.
  intros Hc Hg. unfold poll. unfold_act. rewrite Hc.
  assert (E : bool_decide (is_Some (pollTimeoutId s)) && b = false).
  { destruct Hg as [Hp | ->]; [| apply andb_false_r].
    rewrite Hp. rewrite bool_decide_eq_false_2; [reflexivity |].
    intros [x Hx]; discriminate Hx. }
  rewrite E. rewrite setTimeout_run. reflexivity.
Qed.

Lemma startPolling_run s c :
  charge s = Some c -> startPolling s = Done tt (restarted c s).
Proof.
  intros Hc. unfold startPolling. unfold_act. rewrite stopPolling_run.
  rewrite (poll_run_request true (stoppedState s) c Hc (or_introl eq_refl)).
  cbv beta iota. rewrite setInterval_run. cbv beta iota.
  unfold restarted. cbv zeta. reflexivity.
Qed.

Lemma startPolling_run_no_charge s :
  charge s = None ->
  startPolling s =
  Done tt (set_expiryIntervalId (Some (nextTimer s))
             (record_effect (SetInterval (nextTimer s) cbTick 1000)
                (bump_timer (set_now (dateNow s / 1000)%float (stoppedState s))))).
Proof.
  intros Hc. unfold startPolling. unfold_act. rewrite stopPolling_run.
  rewrite (poll_run_no_charge true (stoppedState s) Hc).
  rewrite setInterval_run. reflexivity.
Qed.

(** X1. [stopPolling] can be called again at once: the second call finds
    nothing to clear and returns the state of the first. After the first
    call the error streak is 0 and the poll status is [stopped], whatever
    the streak was before. *)
Theorem stopPolling_idempotent (s : State) :
  exists s1, stopPolling s = Done tt s1
             /\ stopPolling s1 = Done tt s1
             /\ pollStatus s1 = stopped
             /\ pollingStopped s s1
             /\ pollErrorStreak s1 = 0.
Proof.
  exists (stoppedState s). split; [apply stopPolling_run |]. split; [| split; [| split]].
  - rewrite stopPolling_run. f_equal.
    unfold stoppedState at 1. cbn. unfold cleared. cbn. rewrite app_nil_r.
    reflexivity.
  - reflexivity.
  - apply stoppedState_pollingStopped.
  - reflexivity.
Qed.

(** X2. The sentinel handle guards re-entry: when a cycle has sent its
    request, a second initial [poll] only warns; it sends no request and
    keeps the handle. Without a charge [poll] does nothing at all. *)
Theorem poll_initial_not_reentrant (s : State) :
  (forall c, charge s = Some c -> pollTimeoutId s = None ->
     exists s1, poll true s = Done Suspended s1
                /\ added s s1 = [SetTimeout (nextTimer s) cbNoop 0;
                                 GetChargeFromOrderCode (code c)]
                /\ pollTimeoutId s1 = Some (nextTimer s)
                /\ exists s2, poll true s1 = Done (Settled tt) s2
                              /\ added s1 s2 = [ConsoleWarn "poll: already in a poll state"]
                              /\ pollTimeoutId s2 = pollTimeoutId s1)
  /\ (charge s = None -> forall b, poll b s = Done (Settled tt) s).
Proof.
  split.
  - intros c Hc Hp. exists (requesting c s).
    split; [apply poll_run_request; auto |]. split; [| split].
    + unfold added, requesting. cbn. rewrite <- app_assoc, drop_app_length. reflexivity.
    + reflexivity.
    + eexists. split; [apply (poll_run_blocked _ c (nextTimer s)); [exact Hc | reflexivity] |].
      split; [| reflexivity].
      unfold added. cbn [effects record_effect]. apply drop_app_length.
  - intros Hc b. apply poll_run_no_charge, Hc.
Qed.

(** X3. [startPolling] is a restart: with a charge held it clears the
    handles it finds, sends one request, and holds two fresh, distinct
    handles afterwards; the status is [polling]. A second [startPolling]
    clears exactly the two handles the first one set. *)
Theorem startPolling_restarts (s : State) (c : Charge) :
  charge s = Some c ->
  exists s1, startPolling s = Done tt s1
             /\ added s s1 = (cleared s ++
                              [SetTimeout (nextTimer s) cbNoop 0;
                               GetChargeFromOrderCode (code c);
                               SetInterval (Pos.succ (nextTimer s)) cbTick 1000])%list
             /\ pollTimeoutId s1 = Some (nextTimer s)
             /\ expiryIntervalId s1 = Some (Pos.succ (nextTimer s))
             /\ pollStatus s1 = polling
             /\ step s1 = step s /\ charge s1 = Some c
             /\ exists s2, startPolling s1 = Done tt s2
                           /\ take 2 (added s1 s2) =
                              [ClearTimeout (nextTimer s);
                               ClearInterval (Pos.succ (nextTimer s))].
Proof.
  intros Hc. exists (restarted c s).
  split; [apply startPolling_run, Hc |].
  assert (Hadd : forall t, charge t = Some c ->
            added t (restarted c t) =
            (cleared t ++ [SetTimeout (nextTimer t) cbNoop 0;
                           GetChargeFromOrderCode (code c);
                           SetInterval (Pos.succ (nextTimer t)) cbTick 1000])%list).
  { intros t _. unfold added, restarted, requesting. cbn.
    rewrite <- !app_assoc. rewrite drop_app_length. reflexivity. }
  split; [apply Hadd, Hc |].
  repeat (split; [first [reflexivity | exact Hc] |]).
  exists (restarted c (restarted c s)).
  split; [apply startPolling_run; exact Hc |].
  rewrite (Hadd (restarted c s) Hc). reflexivity.
Qed.

Lemma added_app s s' l : effects s' = (effects s ++ l)%list -> added s s' = l.
Proof. intros E. unfold added. rewrite E. apply drop_app_length. Qed.

Lemma added_refl s : added s s = [].
Proof. apply added_app. symmetry. apply app_nil_r. Qed.

Lemma cleared_quiet s :
  forallb (fun e => isNotification e || isClear e) (cleared s) = true.
Proof. unfold cleared. destruct (pollTimeoutId s), (expiryIntervalId s); reflexivity. Qed.

Lemma grewQuietly_refl s : grewQuietly s s.
Proof. exists []. split; [symmetry; apply app_nil_r | reflexivity]. Qed.

Lemma grewQuietly_added s s' :
  grewQuietly s s' ->
  effects s' = (effects s ++ added s s')%list
  /\ forallb (fun e => isNotification e || isClear e) (added s s') = true.
Proof. intros (l & E & Hq). rewrite (added_app _ _ _ E). auto. Qed.

Lemma sameSurroundings_refl s : sameSurroundings s s.
Proof. repeat split. Qed.

(** What [processChargeUpdate] does and does not touch. *)
Lemma processChargeUpdate_frame c ctx s :
  exists s', processChargeUpdate c ctx s = Done tt s'
             /\ charge s' = Some c
             /\ sameSurroundings s s'
             /\ grewQuietly s s'
             /\ pollerKeptOrStopped s s'.
Proof.
  assert (Hsucc : forall s0, charge s0 = Some c ->
            pollTimeoutId s0 = pollTimeoutId s -> expiryIntervalId s0 = expiryIntervalId s ->
            effects s0 = effects s -> sameSurroundings s s0 ->
            exists s', showSuccessfulPayment s0 = Done tt s'
                       /\ charge s' = Some c /\ sameSurroundings s s'
                       /\ grewQuietly s s'
                       /\ pollerKeptOrStopped s s').
  { intros s0 Hc0 Hp He Hef Hsur. rewrite (showSuccessfulPayment_run _ _ Hc0).
    eexists. split; [reflexivity |]. split; [exact Hc0 |]. split; [exact Hsur |]. split.
    - eexists. split.
      + cbn [effects record_effect stoppedState set_step]. rewrite Hef.
        rewrite <- !app_assoc. reflexivity.
      + cbn [app forallb isNotification orb]. rewrite forallb_app.
        change (cleared _) with (cleared s0).
        rewrite cleared_quiet. reflexivity.
    - right. cbn. repeat split; auto. }
  assert (Hfail : forall s0 st, charge s0 = Some c ->
            (st = failedPayment \/ st = canceledPayment) ->
            effects s0 = effects s -> sameSurroundings s s0 ->
            forall tr,
            exists s', Done tt (stoppedState
                                  (set_step (Some st)
                                     (record_effect (SendFailedChargeEvent (code c))
                                        (record_effect (Track tr) s0)))) = Done tt s'
                       /\ charge s' = Some c /\ sameSurroundings s s'
                       /\ grewQuietly s s'
                       /\ pollerKeptOrStopped s s').
  { intros s0 st Hc0 Hst Hef Hsur tr.
    eexists. split; [reflexivity |]. split; [exact Hc0 |]. split; [exact Hsur |]. split.
    - eexists. split.
      + cbn [effects record_effect stoppedState set_step]. rewrite Hef.
        rewrite <- !app_assoc. reflexivity.
      + cbn [app forallb isNotification orb].
        change (cleared _) with (cleared s0).
        rewrite cleared_quiet. reflexivity.
    - right. cbn. destruct Hst as [-> | ->]; repeat split; auto. }
  unfold processChargeUpdate. unfold bind at 1. unfold get at 1.
  destruct (bool_decide (ctx = ctxPoll) && isEqual (charge s) c) eqn:Hsc.
  { exists s. split; [reflexivity |].
    apply andb_prop in Hsc as [_ Heq]. unfold isEqual in Heq.
    split; [exact (bool_decide_eq_true_1 _ Heq) |].
    split; [apply sameSurroundings_refl |]. split; [apply grewQuietly_refl |].
    left. auto. }
  cbv [bind modify chargeStatus isUnpriced getCharge get ret]. cbn [charge set_charge].
  set (s1 := set_charge (Some c) s).
  assert (Hc1 : charge s1 = Some c) by reflexivity.
  assert (Hsur1 : sameSurroundings s s1) by (repeat split).
  assert (Hkeep : exists s', Done tt s1 = Done tt s'
             /\ charge s' = Some c /\ sameSurroundings s s'
             /\ grewQuietly s s'
             /\ pollerKeptOrStopped s s').
  { exists s1. split; [reflexivity |]. split; [exact Hc1 |]. split; [exact Hsur1 |].
    split; [exists []; split; [symmetry; apply app_nil_r | reflexivity] |]. left. auto. }
  repeat match goal with
         | |- context [if is_status ?a ?b then _ else _] => destruct (is_status a b)
         end;
    try exact Hkeep.
  - rewrite Hc1. cbv beta iota. destruct (unpriced c).
    + apply Hsucc; auto.
    + destruct (head (payments c)) as [p|] eqn:Hp.
      * rewrite (processPendingPayment_some _ _ _ Hc1 Hp).
        destruct (_ <=? _)%Z; [| destruct (_ =? _)%Z].
        -- apply Hsucc; auto.
        -- rewrite (showPendingPayment_run _ _ Hc1).
           eexists. split; [reflexivity |]. split; [exact Hc1 |]. split; [exact Hsur1 |].
           split; [| left; auto].
           eexists. split; [cbn; rewrite <- !app_assoc; reflexivity | reflexivity].
        -- rewrite showWaitingForConfirmations_run.
           eexists. split; [reflexivity |]. split; [exact Hc1 |]. split; [exact Hsur1 |].
           split; [| left; auto].
           eexists. split; [cbn; reflexivity | reflexivity].
      * assert (Hnil : payments c = []) by (destruct (payments c); [reflexivity | discriminate]).
        rewrite (processPendingPayment_none _ _ Hc1 Hnil). exact Hkeep.
  - apply Hsucc; auto.
  - apply Hsucc; auto.
  - rewrite (showFailedPayment_run _ _ Hc1). apply Hfail; auto.
  - rewrite (showFailedPayment_run _ _ Hc1). apply Hfail; auto.
  - rewrite (showCanceledPayment_run _ _ Hc1). apply Hfail; auto.
Qed.

(** X4. [processChargeUpdate] never throws, whatever snapshot, context
    and state it is given; afterwards the store holds the snapshot. On
    the way it only notifies (tracking, widget) and clears timers: it
    sends no request, sets no timer, never calls [returnHome], and leaves
    the picked network and the wallet status alone. The poller is either
    untouched or stopped, and stopped only on a terminal step. *)
Theorem processChargeUpdate_never_throws (c : Charge) (ctx : Context) (s : State) :
  exists s', processChargeUpdate c ctx s = Done tt s'
             /\ charge s' = Some c
             /\ (forall e, e ∈ added s s' -> isNotification e || isClear e = true)
             /\ nextTimer s' = nextTimer s
             /\ pickedNetwork s' = pickedNetwork s
             /\ web3Status s' = web3Status s
             /\ pollerKeptOrStopped s s'.
Proof.
  destruct (processChargeUpdate_frame c ctx s) as (s' & Hrun & Hc & Hsur & Hq & Hp).
  exists s'. split; [exact Hrun |]. split; [exact Hc |].
  destruct Hsur as (Hpn & Hw3 & _ & _ & _ & _ & _ & Hnt).
  split; [| auto].
  apply grewQuietly_added in Hq as [_ Hq].
  intros e He. rewrite forallb_forall in Hq. apply Hq.
  apply list_elem_of_In. exact He.
Qed.

Lemma poll_resume_fulfilled_run c s id s1 :
  pollTimeoutId s = Some id ->
  processChargeUpdate c ctxPoll (set_pollErrorStreak 0 s) = Done tt s1 ->
  poll_resume (Fulfilled c) s = Done tt (rescheduled s1).
Proof.
  intros Hp Hrun. unfold poll_resume. unfold_act. rewrite Hp.
  rewrite Hrun. rewrite setTimeout_run. reflexivity.
Qed.

Lemma poll_resume_rejected_run e s id :
  pollTimeoutId s = Some id ->
  poll_resume (Rejected e) s =
  Done tt (rescheduled
             (if isMaintenance e
              then set_step (Some maintenance) s
              else set_pollErrorStreak (S (pollErrorStreak s))
                     (record_effect (ConsoleError "poll" e) s))).
Proof.
  intros Hp. unfold poll_resume, showMaintenanceMode. unfold_act. rewrite Hp.
  destruct (isMaintenance e); rewrite setTimeout_run; reflexivity.
Qed.


(** X5. A fulfilled poll that is not discarded resets the error streak
    and, after the update (which only notifies and clears), schedules
    exactly one next cycle, with the delay of the state as the update
    left it; the store then holds the snapshot and the fresh handle. *)
Theorem poll_success_resets_streak (c : Charge) (s : State) (id : TimerId) :
  pollTimeoutId s = Some id ->
  exists s' l, poll_resume (Fulfilled c) s = Done tt s'
               /\ charge s' = Some c
               /\ pollErrorStreak s' = 0
               /\ pollTimeoutId s' = Some (nextTimer s)
               /\ added s s' = (l ++ [SetTimeout (nextTimer s) cbPoll (pollDelay s')])%list
               /\ forallb (fun e => isNotification e || isClear e) l = true.
Proof.
  intros Hp.
  destruct (processChargeUpdate_frame c ctxPoll (set_pollErrorStreak 0 s))
    as (s1 & Hrun & Hc & Hsur & (l & Hl & Hq) & Hpoll).
  exists (rescheduled s1), l.
  split; [apply (poll_resume_fulfilled_run _ _ _ _ Hp Hrun) |].
  destruct Hsur as (_ & _ & _ & _ & _ & _ & _ & Hnt). cbn in Hnt.
  split; [exact Hc |]. split; [| split; [| split]].
  - cbn. destruct Hpoll as [(_ & _ & E) | (_ & _ & E & _)]; rewrite E; reflexivity.
  - cbn. rewrite Hnt. reflexivity.
  - apply added_app.
    cbn [rescheduled effects set_pollTimeoutId record_effect bump_timer].
    rewrite Hl. cbn [effects set_pollErrorStreak]. rewrite <- app_assoc.
    rewrite Hnt. reflexivity.
  - exact Hq.
Qed.

Lemma processChargeUpdate_terminal_run c ctx s st stp :
  (ctx = ctxPoll -> charge s <> Some c) ->
  statusOf c = Some st -> terminalStep st = Some stp ->
  exists s', processChargeUpdate c ctx s = Done tt s'
             /\ charge s' = Some c /\ step s' = Some stp
             /\ pollTimeoutId s' = None /\ expiryIntervalId s' = None
             /\ pollErrorStreak s' = 0
             /\ nextTimer s' = nextTimer s
             /\ documentHidden s' = documentHidden s.
Proof.
  intros Hproc Hst Ht. apply not_short_circuit in Hproc.
  assert (Hc1 : charge (set_charge (Some c) s) = Some c) by reflexivity.
  unfold terminalStep in Ht.
  repeat match type of Ht with
         | (if String.eqb ?a ?b then _ else _) = _ =>
           destruct (String.eqb_spec a b) as [-> | _]
         end; try discriminate Ht; injection Ht as <-;
    enter_switch Hproc Hst;
    first [ rewrite (showSuccessfulPayment_run _ _ Hc1)
          | rewrite (showFailedPayment_run _ _ Hc1)
          | rewrite (showCanceledPayment_run _ _ Hc1) ];
    eexists; repeat split.
Qed.

(** X6. When a poll delivers a new snapshot with a terminal status, the
    update shows the terminal step and stops polling, but the
    continuation of [poll] then schedules the next cycle all the same:
    the tick stays cleared while the poll handle is set again, so the
    store keeps polling (at 2000ms, or 15000ms while the document is
    hidden) on a terminal step. *)
Theorem poll_rearms_after_terminal_status
        (c : Charge) (s : State) (id : TimerId) (st : string) (stp : ChargeStep) :
  pollTimeoutId s = Some id ->
  charge s <> Some c ->
  statusOf c = Some st ->
  terminalStep st = Some stp ->
  exists s', poll_resume (Fulfilled c) s = Done tt s'
             /\ step s' = Some stp
             /\ expiryIntervalId s' = None
             /\ pollTimeoutId s' = Some (nextTimer s)
             /\ pollStatus s' = polling
             /\ last (effects s') =
                Some (SetTimeout (nextTimer s) cbPoll
                        (if documentHidden s then 15000 else 2000)).
Proof.
  intros Hp Hne Hst Ht.
  destruct (processChargeUpdate_terminal_run c ctxPoll (set_pollErrorStreak 0 s) st stp
              (fun _ => Hne) Hst Ht)
    as (s1 & Hrun & Hc & Hstep & Hp1 & Hi1 & Hs1 & Hnt & Hdh).
  exists (rescheduled s1).
  split; [apply (poll_resume_fulfilled_run _ _ _ _ Hp Hrun) |].
  cbn in Hnt, Hdh.
  split; [exact Hstep |]. split; [exact Hi1 |]. split; [cbn; rewrite Hnt; reflexivity |].
  split.
  - unfold pollStatus. cbn. rewrite Hs1. reflexivity.
  - cbn [rescheduled effects set_pollTimeoutId record_effect bump_timer].
    rewrite last_snoc, Hnt. do 2 f_equal.
    unfold pollDelay. rewrite Hstep, Hdh, Hs1.
    unfold terminalStep in Ht.
    repeat match type of Ht with
           | (if ?b then _ else _) = _ => destruct b
           end; try discriminate Ht; injection Ht as <-;
      destruct (documentHidden s); reflexivity.
Qed.

(** X7. A poll rejected with the maintenance error (503, type
    [maintenance]) while polling shows the maintenance step, leaves the
    held charge and the error streak alone and schedules the next cycle
    at 15000ms. From then on a poll that delivers the snapshot the store
    already holds keeps the maintenance step: the screen is left only
    when the charge changes. *)
Theorem maintenance_until_charge_changes (e : JsError) (s : State) (id : TimerId) :
  pollTimeoutId s = Some id ->
  isMaintenance e = true ->
  exists s1, poll_resume (Rejected e) s = Done tt s1
             /\ step s1 = Some maintenance
             /\ charge s1 = charge s
             /\ pollErrorStreak s1 = pollErrorStreak s
             /\ added s s1 = [SetTimeout (nextTimer s) cbPoll 15000]
             /\ forall c, charge s = Some c ->
                  exists s2, poll_resume (Fulfilled c) (final (fire cbPoll s1)) = Done tt s2
                             /\ step s2 = Some maintenance
                             /\ last (effects s2) =
                                Some (SetTimeout (Pos.succ (Pos.succ (nextTimer s))) cbPoll 15000).
Proof.
  intros Hp Hm.
  rewrite (poll_resume_rejected_run _ _ _ Hp). rewrite Hm.
  eexists. split; [reflexivity |].
  split; [reflexivity |]. split; [reflexivity |]. split; [reflexivity |]. split.
  - apply added_app. reflexivity.
  - intros c Hc.
    set (s1 := rescheduled (set_step (Some maintenance) s)).
    assert (Hc1 : charge s1 = Some c) by exact Hc.
    assert (Hfire : fire cbPoll s1 = Done tt (requesting c s1)).
    { unfold fire. unfold_act.
      rewrite (poll_run_request false s1 c Hc1 (or_intror eq_refl)). reflexivity. }
    rewrite Hfire. cbn [final].
    assert (Hrun : processChargeUpdate c ctxPoll (set_pollErrorStreak 0 (requesting c s1)) =
                   Done tt (set_pollErrorStreak 0 (requesting c s1)))
      by (apply poll_short_circuit_run; exact Hc).
    rewrite (poll_resume_fulfilled_run c (requesting c s1) (nextTimer s1) _ eq_refl Hrun).
    eexists. split; [reflexivity |]. split; [reflexivity |].
    cbn [rescheduled effects set_pollTimeoutId record_effect bump_timer].
    rewrite last_snoc. reflexivity.
Qed.

Lemma deliverAll_app evs1 evs2 s :
  deliverAll (evs1 ++ evs2) s = deliverAll evs2 (deliverAll evs1 s).
Proof. unfold deliverAll. apply foldl_app. Qed.

Lemma failedCycle_run e s c id :
  charge s = Some c -> pollTimeoutId s = Some id -> isMaintenance e = false ->
  deliverAll (failedCycle e) s =
  requesting c (rescheduled (set_pollErrorStreak (S (pollErrorStreak s))
                               (record_effect (ConsoleError "poll" e) s))).
Proof.
  intros Hc Hp Hm. unfold failedCycle, deliverAll. cbn [foldl deliver].
  rewrite (poll_resume_rejected_run _ _ _ Hp), Hm. cbn [final].
  unfold fire. unfold_act.
  erewrite poll_run_request; [reflexivity | exact Hc | right; reflexivity].
Qed.

(** X8. Failed polls accumulate: after [n] cycles that each end in a
    rejection other than maintenance, the error streak has grown by [n],
    while the held charge, the step and the tick are as before and the
    store is still polling. Once the streak exceeds 3 the poll status is
    [error], with the next cycle scheduled nonetheless. *)
Theorem failed_polls_accumulate (n : nat) (e : JsError) (s : State) (c : Charge) :
  charge s = Some c ->
  is_Some (pollTimeoutId s) ->
  isMaintenance e = false ->
  let s' := deliverAll (failedCycles n e) s in
  pollErrorStreak s' = pollErrorStreak s + n
  /\ charge s' = Some c
  /\ step s' = step s
  /\ expiryIntervalId s' = expiryIntervalId s
  /\ is_Some (pollTimeoutId s')
  /\ (3 < pollErrorStreak s + n -> pollStatus s' = error).
Proof.
  intros Hc Hp Hm. cbv zeta.
  assert (H : pollErrorStreak (deliverAll (failedCycles n e) s) = pollErrorStreak s + n
              /\ charge (deliverAll (failedCycles n e) s) = Some c
              /\ step (deliverAll (failedCycles n e) s) = step s
              /\ expiryIntervalId (deliverAll (failedCycles n e) s) = expiryIntervalId s
              /\ is_Some (pollTimeoutId (deliverAll (failedCycles n e) s))).
  { revert s Hc Hp. induction n as [| n IH]; intros s Hc Hp.
    - cbn. rewrite Nat.add_0_r. auto.
    - unfold failedCycles. cbn [replicate concat]. rewrite deliverAll_app.
      destruct Hp as [id Hp]. rewrite (failedCycle_run _ _ _ _ Hc Hp Hm).
      set (s1 := requesting c _).
      destruct (IH s1) as (Hs & Hc' & Hst & Hei & Hp'); [exact Hc | eexists; reflexivity |].
      fold (failedCycles n e). rewrite Hs, Hc', Hst, Hei.
      repeat split; [cbn; lia | exact Hp']. }
  destruct H as (Hs & Hc' & Hst & Hei & Hp').
  repeat split; auto.
  intros Hgt. unfold pollStatus. rewrite Hs.
  replace (Nat.ltb POLL_ERROR_THRESHOLD (pollErrorStreak s + n)) with true; [reflexivity |].
  symmetry. apply Nat.ltb_lt. exact Hgt.
Qed.

Lemma goBack_no_charge s :
  step s = Some awaitingPayment -> charge s = None ->
  exists e, goBack s = Thrown e s.
Proof.
  intros Hstep Hc. unfold goBack. unfold bind at 1; unfold get at 1. rewrite Hstep.
  unfold shouldSkipNetworkPicker. unfold_act. rewrite Hc. eexists. reflexivity.
Qed.

(** The final state of [goBack]: the state itself (a throw), the picker,
    or the exit. *)
Lemma goBack_final s :
  final (goBack s) = s
  \/ final (goBack s) = set_step (Some networkPicker) (set_pickedNetwork None s)
  \/ final (goBack s) = record_effect ReturnHome (stoppedState s).
Proof.
  assert (Hexit : (stopPolling ;;; emit ReturnHome) s =
                  Done tt (record_effect ReturnHome (stoppedState s))) by apply exit_run.
  destruct (step s) as [st|] eqn:Hstep.
  2:{ left. unfold goBack. unfold bind at 1; unfold get at 1. rewrite Hstep. reflexivity. }
  destruct st;
    try (left; unfold goBack; unfold bind at 1; unfold get at 1; rewrite Hstep; reflexivity);
    try (right; right; unfold goBack; unfold bind at 1; unfold get at 1; rewrite Hstep;
         cbv iota; rewrite Hexit; reflexivity).
  destruct (charge s) as [c|] eqn:Hc.
  - pose proof (shouldSkipNetworkPicker_run _ _ Hc) as Hskip.
    rewrite (goBack_awaitingPayment _ _ _ Hstep Hskip).
    destruct (negb _ && _) eqn:Hb.
    + right; right. rewrite Hexit. reflexivity.
    + right; left. rewrite (showNetworkPicker_no_skip _ _ Hc Hskip). reflexivity.
  - left. destruct (goBack_no_charge _ Hstep Hc) as [e ->]. reflexivity.
Qed.

Lemma showAwaitingPayment_run network s c :
  charge s = Some c ->
  showAwaitingPayment network s =
  Done tt (restarted c
             (set_step (Some awaitingPayment)
                (record_effect (Track "checkout:awaiting-payment-shown")
                   (set_pickedNetwork network s)))).
Proof.
  intros Hc. unfold showAwaitingPayment. unfold_act. cbn.
  rewrite (startPolling_run _ c); [reflexivity | exact Hc].
Qed.

Lemma showAwaitingPayment_run_no_charge network s :
  charge s = None ->
  exists s', showAwaitingPayment network s = Done tt s'
             /\ pollTimeoutId s' = None /\ pollErrorStreak s' = 0.
Proof.
  intros Hc. unfold showAwaitingPayment. unfold_act. cbn.
  rewrite startPolling_run_no_charge by exact Hc.
  eexists. repeat split.
Qed.

Lemma deliver_keeps_streak_invariant ev s :
  streakOnlyWhilePolling s -> streakOnlyWhilePolling (deliver ev s).
Proof.
  unfold streakOnlyWhilePolling. intros Hinv.
  destruct ev as [cb | r | r | | network | |]; cbn [deliver].
  - (* a timer fires *)
    destruct cb; cbn [fire].
    + exact Hinv.
    + unfold_act. destruct (charge s) as [c|] eqn:Hc.
      * rewrite (poll_run_request false s c Hc (or_intror eq_refl)). cbn. discriminate.
      * rewrite (poll_run_no_charge false s Hc). exact Hinv.
    + exact Hinv.
  - (* the charge request settles *)
    destruct (pollTimeoutId s) as [id|] eqn:Hp.
    + destruct r as [c | e].
      * destruct (processChargeUpdate_frame c ctxPoll (set_pollErrorStreak 0 s))
          as (s1 & Hrun & _).
        rewrite (poll_resume_fulfilled_run _ _ _ _ Hp Hrun). cbn. discriminate.
      * rewrite (poll_resume_rejected_run _ _ _ Hp). cbn. discriminate.
    + rewrite (poll_resume_stopped _ _ Hp). cbn. rewrite Hp. exact Hinv.
  - (* the cancellation request settles *)
    destruct r as [c | e].
    + destruct (processChargeUpdate_frame c ctxCancel s)
        as (s1 & Hrun & Hc1 & _ & _ & Hpoll).
      unfold cancelCharge_resume. unfold_act. rewrite Hrun, Hc1. cbn [final].
      destruct Hpoll as [(Ep & _ & Es) | (_ & _ & Es & _)].
      * rewrite Ep, Es. exact Hinv.
      * intros _. exact Es.
    + unfold cancelCharge_resume. unfold_act. cbn.
      destruct (charge s); cbn; exact Hinv.
  - (* back *)
    destruct (goBack_final s) as [-> | [-> | ->]]; [exact Hinv | exact Hinv | reflexivity].
  - (* a network is picked *)
    unfold pickNetwork. unfold_act. cbn.
    destruct (charge s) as [c|] eqn:Hc.
    + rewrite (showAwaitingPayment_run _ _ c) by exact Hc. cbn. discriminate.
    + destruct (showAwaitingPayment_run_no_charge (Some network)
                  (record_effect (Track "checkout:currency-picked") s) Hc)
        as (s' & -> & _ & Es). intros _. exact Es.
  - (* hosted payment *)
    unfold payWithCoinbase, showOAuthScreen. unfold_act. rewrite stopPolling_run.
    reflexivity.
  - (* cancel *)
    destruct (charge s) as [c|] eqn:Hc.
    + rewrite (cancelCharge_run _ _ Hc). reflexivity.
    + unfold cancelCharge. unfold_act. rewrite Hc. exact Hinv.
Qed.

(** X9. An error streak exists only while the store polls. If a stopped
    poller carries no streak to begin with (as in the store as
    constructed), then after any sequence of timer firings, settled
    requests and user actions it still carries none; so a poll status of
    [error] always comes with a scheduled poll. *)
Theorem streak_only_while_polling (evs : list HostEvent) (s : State) :
  streakOnlyWhilePolling s ->
  streakOnlyWhilePolling (deliverAll evs s)
  /\ (pollStatus (deliverAll evs s) = error ->
      is_Some (pollTimeoutId (deliverAll evs s))).
Proof.
  intros Hinv.
  assert (H : streakOnlyWhilePolling (deliverAll evs s)).
  { revert s Hinv. induction evs as [| ev evs IH]; intros s Hinv; [exact Hinv |].
    apply (IH (deliver ev s)). apply deliver_keeps_streak_invariant, Hinv. }
  split; [exact H |].
  intros Herr. destruct (pollTimeoutId (deliverAll evs s)) as [id|] eqn:Hp; [eauto |].
  unfold pollStatus in Herr. rewrite (H Hp), Hp in Herr. discriminate Herr.
Qed.

(** X10. With a charge held, [goBack] returns normally from exactly five
    steps ([awaitingPayment], [networkPicker] and the three terminal
    steps). From every other step, also from [oauth] and [maintenance]
    and before any step is set, it throws "can't go back from <step>" and
    leaves the store as it was. *)
Theorem goBack_returns_exactly_from_backSteps (s : State) (c : Charge) :
  charge s = Some c ->
  ((exists s', goBack s = Done tt s') <-> step s ∈ backSteps)
  /\ (step s ∉ backSteps ->
      goBack s = Thrown (NewError ("can't go back from " +:+ stepName (step s))) s).
Proof.
  intros Hc.
  assert (Hthrow : step s ∉ backSteps ->
            goBack s = Thrown (NewError ("can't go back from " +:+ stepName (step s))) s).
  { intros Hn. unfold goBack. unfold bind at 1; unfold get at 1.
    destruct (step s) as [[]|]; try reflexivity;
      exfalso; apply Hn; apply list_elem_of_In; cbn; tauto. }
  split; [| exact Hthrow].
  split.
  - intros [s' Hrun]. destruct (decide (step s ∈ backSteps)) as [Hin | Hn]; [exact Hin |].
    rewrite (Hthrow Hn) in Hrun. discriminate Hrun.
  - intros Hin.
    assert (Hexit : (stopPolling ;;; emit ReturnHome) s =
                    Done tt (record_effect ReturnHome (stoppedState s))) by apply exit_run.
    unfold backSteps in Hin.
    apply elem_of_cons in Hin as [Hst | Hin].
    { pose proof (shouldSkipNetworkPicker_run _ _ Hc) as Hskip.
      rewrite (goBack_awaitingPayment _ _ _ Hst Hskip).
      destruct (negb _ && _) eqn:Hb.
      - rewrite Hexit. eauto.
      - rewrite (showNetworkPicker_no_skip _ _ Hc Hskip). eauto. }
    assert (Hex : step s = Some networkPicker \/ step s = Some successfulPayment
                  \/ step s = Some failedPayment \/ step s = Some canceledPayment)
      by (apply list_elem_of_In in Hin; cbn in Hin; intuition congruence).
    destruct Hex as [H|[H|[H|H]]]; unfold goBack; unfold bind at 1; unfold get at 1;
      rewrite H; cbv iota; rewrite Hexit; eauto.
Qed.

Lemma networksOf_singleton c k a :
  addresses c = {[ k := a ]} -> networksOf c = [k].
Proof.
  intros Ha. unfold networksOf. rewrite Ha, map_to_list_singleton. reflexivity.
Qed.

(** X11. [showNetworkPicker] always forgets the picked network first.
    When the hosted path is not applicable and the charge has a single
    address, it then skips the picker: the sole network is picked, the
    step is [awaitingPayment] and polling is restarted. In every other
    case with a charge held it shows [networkPicker], the picked network
    unset and the poller untouched. *)
Theorem showNetworkPicker_skips_for_sole_network (s : State) (c : Charge) :
  charge s = Some c ->
  (forall k a,
     addresses c = {[ k := a ]} ->
     pricingType c = "no_price" \/ IS_LOCAL_STORAGE_AVAILABLE s = false ->
     exists s', showNetworkPicker s = Done tt s'
                /\ step s' = Some awaitingPayment
                /\ pickedNetwork s' = Some k
                /\ pollStatus s' = polling
                /\ GetChargeFromOrderCode (code c) ∈ added s s')
  /\ (size (addresses c) <> 1
      \/ (pricingType c <> "no_price" /\ IS_LOCAL_STORAGE_AVAILABLE s = true) ->
      exists s', showNetworkPicker s = Done tt s'
                 /\ step s' = Some networkPicker
                 /\ pickedNetwork s' = None
                 /\ added s s' = []
                 /\ pollTimeoutId s' = pollTimeoutId s
                 /\ expiryIntervalId s' = expiryIntervalId s).
Proof.
  intros Hc. split.
  - intros k a Ha Hhosted.
    assert (Hc' : charge (set_pickedNetwork None s) = Some c) by exact Hc.
    unfold showNetworkPicker. unfold_act.
    rewrite (shouldSkipNetworkPicker_run _ _ Hc').
    cbn [IS_LOCAL_STORAGE_AVAILABLE set_pickedNetwork].
    assert (Hb : negb (negb (String.eqb (pricingType c) "no_price")
                       && IS_LOCAL_STORAGE_AVAILABLE s)
                 && Nat.eqb (size (addresses c)) 1 = true).
    { rewrite Ha, map_size_singleton.
      destruct Hhosted as [-> | ->]; [reflexivity |]. rewrite andb_false_r. reflexivity. }
    rewrite Hb. unfold networks. unfold_act. cbn [charge set_pickedNetwork]. rewrite Hc.
    rewrite (networksOf_singleton _ _ _ Ha). cbn [head].
    rewrite (showAwaitingPayment_run _ _ c) by exact Hc.
    eexists. split; [reflexivity |]. split; [reflexivity |]. split; [reflexivity |].
    split; [reflexivity |].
    erewrite added_app.
    2:{ unfold restarted, requesting. cbn. rewrite <- !app_assoc. reflexivity. }
    do 4 (apply elem_of_app; right). apply elem_of_app; left. constructor.
  - intros Hno.
    assert (Hskip : shouldSkipNetworkPicker s = Done false s).
    { rewrite (shouldSkipNetworkPicker_run _ _ Hc). f_equal.
      destruct Hno as [Hsz | [Hpt Hls]].
      - apply andb_false_intro2. apply Nat.eqb_neq. exact Hsz.
      - apply andb_false_intro1. rewrite Hls.
        apply String.eqb_neq in Hpt. rewrite Hpt. reflexivity. }
    rewrite (showNetworkPicker_no_skip _ _ Hc Hskip).
    eexists. split; [reflexivity |]. repeat split.
    unfold added. cbn. apply drop_all.
Qed.

#[local] Instance network_le_dec a b : Decision (network_le a b).
Proof. unfold network_le. apply _. Defined.

#[local] Instance network_le_total : Total network_le.
Proof.
  intros a b. unfold network_le.
  destruct (String.leb_total a b) as [H | H]; rewrite H; [left | right]; exact I.
Qed.

(** X12. The [networks] getter lists the keys of [charge.addresses], each
    exactly once, in ascending string order; without a charge it throws. *)
Theorem networks_sorted_address_keys (s : State) :
  (forall c, charge s = Some c ->
     exists l, networks s = Done l s
               /\ Sorted network_le l
               /\ NoDup l
               /\ length l = size (addresses c)
               /\ forall k, k ∈ l <-> is_Some (addresses c !! k))
  /\ (charge s = None -> exists e, networks s = Thrown e s).
Proof.
  split.
  - intros c Hc. exists (networksOf c).
    split; [unfold networks; unfold_act; rewrite Hc; reflexivity |].
    assert (Hperm : networksOf c ≡ₚ map fst (map_to_list (addresses c)))
      by apply merge_sort_Permutation.
    split; [apply (Sorted_merge_sort network_le) |].
    split; [rewrite Hperm; apply NoDup_fst_map_to_list |].
    split; [apply length_networksOf |].
    intros k. rewrite Hperm. rewrite list_elem_of_fmap. split.
    + intros ([k' a] & -> & Hin). apply elem_of_map_to_list in Hin. eauto.
    + intros [a Ha]. exists (k, a). split; [reflexivity |].
      apply elem_of_map_to_list. exact Ha.
  - intros Hc. unfold networks. unfold_act. rewrite Hc. eexists. reflexivity.
Qed.

(** The trace and the timer counter through the composite updates. *)
Lemma effects_requesting c u :
  effects (requesting c u) =
  (effects u ++ [SetTimeout (nextTimer u) cbNoop 0; GetChargeFromOrderCode (code c)])%list.
Proof. unfold requesting. cbn. rewrite <- app_assoc. reflexivity. Qed.

Lemma nextTimer_requesting c u : nextTimer (requesting c u) = Pos.succ (nextTimer u).
Proof. reflexivity. Qed.

Lemma effects_rescheduled u :
  effects (rescheduled u) =
  (effects u ++ [SetTimeout (nextTimer u) cbPoll (pollDelay u)])%list.
Proof. reflexivity. Qed.

Lemma nextTimer_rescheduled u : nextTimer (rescheduled u) = Pos.succ (nextTimer u).
Proof. reflexivity. Qed.

Lemma effects_restarted c u :
  effects (restarted c u) =
  (effects u ++ cleared u
   ++ [SetTimeout (nextTimer u) cbNoop 0; GetChargeFromOrderCode (code c);
       SetInterval (Pos.succ (nextTimer u)) cbTick 1000])%list.
Proof. unfold restarted, requesting. cbn. rewrite <- !app_assoc. reflexivity. Qed.

Lemma nextTimer_restarted c u :
  nextTimer (restarted c u) = Pos.succ (Pos.succ (nextTimer u)).
Proof. reflexivity. Qed.

Lemma pollDelay_awaiting u :
  step u = Some awaitingPayment -> pollErrorStreak u = 0 ->
  pollDelay u = if documentHidden u then 15000%Z else 2000%Z.
Proof. intros Hs He. unfold pollDelay. rewrite Hs, He. destruct (documentHidden u); reflexivity. Qed.
Lemma effects_set_pollErrorStreak v s : effects (set_pollErrorStreak v s) = effects s.
Proof. reflexivity. Qed.
Lemma nextTimer_set_pollErrorStreak v s : nextTimer (set_pollErrorStreak v s) = nextTimer s.
Proof. reflexivity. Qed.

Lemma pickNetwork_run network s c :
  charge s = Some c ->
  pickNetwork network s =
  Done tt (restarted c
             (set_step (Some awaitingPayment)
                (record_effect (Track "checkout:awaiting-payment-shown")
                   (set_pickedNetwork (Some network)
                      (record_effect (Track "checkout:currency-picked") s))))).
Proof.
  intros Hc. unfold pickNetwork. unfold_act. cbn.
  rewrite (showAwaitingPayment_run _ _ c) by exact Hc. reflexivity.
Qed.

Lemma poll_resume_same_snapshot c s id :
  charge s = Some c -> pollTimeoutId s = Some id ->
  poll_resume (Fulfilled c) s = Done tt (rescheduled (set_pollErrorStreak 0 s)).
Proof.
  intros Hc Hp.
  apply (poll_resume_fulfilled_run c s id _ Hp).
  apply poll_short_circuit_run. exact Hc.
Qed.


(** *** Direct-wallet listeners *)

Lemma onTxEvent_progress_keeps_declined cur' cur ev s :
  web3Status s = w3declined cur -> isProgress ev = true ->
  web3Status (final (onTxEvent cur' ev s)) = w3declined cur.
Proof.
  intros Hw Hprog. destruct ev as [tx | st | n h | e]; try discriminate Hprog.
  - cbn [onTxEvent]. unfold onReceipt. unfold_act.
    cbn [isProgress] in Hprog. apply negb_true_iff in Hprog. rewrite Hprog, Hw.
    exact Hw.
  - cbn [onTxEvent]. unfold onConfirmation. unfold_act. rewrite Hw. exact Hw.
Qed.

(** X14. Once the wallet status is [declined], confirmations and receipts
    without the failure flag never change it, however many arrive. The
    [canceled] status does not have this protection: a confirmation that
    arrives after [cancelWeb3] shows the transaction as mined; and a
    receipt with the failure flag turns even [declined] into [failed]. *)
Theorem declined_survives_progress_events
        (cur cur' : string) (evs : list TxEvent) (s : State) :
  web3Status s = w3declined cur ->
  (Forall (fun ev => isProgress ev = true) evs ->
   web3Status (deliverTx cur' evs s) = w3declined cur)
  /\ (forall n h, web3Status (deliverTx cur' [TxConfirmation n h] (final (cancelWeb3 s)))
                  = w3mined h n)
  /\ web3Status (deliverTx cur' [TxReceipt (Some false)] s) = w3failed.
Proof.
  intros Hw. split; [| split].
  - intros Hall. revert s Hw. induction Hall as [| ev evs Hev _ IH]; intros s Hw.
    + exact Hw.
    + cbn [deliverTx foldl]. apply IH.
      apply onTxEvent_progress_keeps_declined; assumption.
  - intros n h. reflexivity.
  - reflexivity.
Qed.

(** *** Cancellability *)

Lemma find_none_all_new tl :
  find (fun t => negb (String.eqb (status t) "NEW")) tl = None
  <-> Forall (fun t => status t = "NEW") tl.
Proof.
  induction tl as [| t tl IH]; cbn.
  - split; [constructor | reflexivity].
  - destruct (String.eqb_spec (status t) "NEW") as [E | E]; cbn.
    + rewrite IH. rewrite Forall_cons. tauto.
    + split; [discriminate |]. intros H. apply Forall_cons in H as [H _]. contradiction.
Qed.

(** X15. A charge can be cancelled exactly when the store holds it, it
    has a non-empty cancel URL and every entry of its timeline is NEW (an
    empty timeline included); the step plays no part. So a charge that
    can be cancelled has status NEW or none, and once the timeline holds
    another status, no later entry makes the charge cancellable again. *)
Theorem canCancelCharge_only_while_new (s : State) :
  (canCancelCharge s = true <->
   exists c, charge s = Some c
             /\ noCancelUrl c = false
             /\ Forall (fun t => status t = "NEW") (timeline c))
  /\ (canCancelCharge s = true ->
      forall c, charge s = Some c -> statusOf c = None \/ statusOf c = Some "NEW")
  /\ (forall c c', timeline c' = (timeline c ++ drop (length (timeline c)) (timeline c'))%list ->
      ~ Forall (fun t => status t = "NEW") (timeline c) ->
      canCancelCharge (set_charge (Some c') s) = false).
Proof.
  assert (Hiff : canCancelCharge s = true <->
                 exists c, charge s = Some c /\ noCancelUrl c = false
                           /\ Forall (fun t => status t = "NEW") (timeline c)).
  { unfold canCancelCharge. split.
    - destruct (charge s) as [c|]; [| discriminate].
      destruct (noCancelUrl c) eqn:Hurl; [discriminate |].
      destruct (find _ _) eqn:Hf; [discriminate |]. intros _.
      exists c. split; [reflexivity |]. split; [exact Hurl |].
      apply find_none_all_new. exact Hf.
    - intros (c & -> & -> & Hall). apply find_none_all_new in Hall. rewrite Hall.
      reflexivity. }
  split; [exact Hiff |]. split.
  - intros Hcan c Hc. apply Hiff in Hcan as (c0 & Hc0 & _ & Hall).
    rewrite Hc in Hc0. injection Hc0 as <-.
    unfold statusOf. destruct (timeline c) as [| t tl] using rev_ind; [left; reflexivity |].
    right. rewrite last_snoc. cbn. apply Forall_app in Hall as [_ Hall].
    apply Forall_cons in Hall as [-> _]. reflexivity.
  - intros c c' Hext Hnot. unfold canCancelCharge. cbn [charge set_charge].
    destruct (noCancelUrl c'); [reflexivity |].
    destruct (find _ (timeline c')) eqn:Hf; [reflexivity |].
    exfalso. apply Hnot. apply find_none_all_new in Hf.
    rewrite Hext in Hf. apply Forall_app in Hf as [Hf _]. exact Hf.
Qed.
(** X16. Picking a network restarts polling but does not withdraw a
    request that is already in flight. When the old and the new request
    both settle (here with the snapshot the store holds), each
    continuation finds the handle set and schedules a next cycle: two
    poll timers are pending, the first is never cleared, and when they
    fire two requests go out. The delay is that of [awaitingPayment]
    with no error streak. *)
Theorem restart_doubles_poll_chain (network : string) (s : State) (c : Charge) (id : TimerId) :
  charge s = Some c ->
  pollTimeoutId s = Some id ->
  let t := nextTimer s in
  let s' := deliverAll [ UserPicksNetwork network;
                         ChargeRequestSettled (Fulfilled c);
                         ChargeRequestSettled (Fulfilled c);
                         TimerFired cbPoll;
                         TimerFired cbPoll ] s in
  added s s' =
    ([Track "checkout:currency-picked"; Track "checkout:awaiting-payment-shown"]
     ++ cleared s
     ++ [SetTimeout t cbNoop 0;
         GetChargeFromOrderCode (code c);
         SetInterval (Pos.succ t) cbTick 1000;
         SetTimeout (Pos.succ (Pos.succ t)) cbPoll
           (if documentHidden s then 15000 else 2000);
         SetTimeout (Pos.succ (Pos.succ (Pos.succ t))) cbPoll
           (if documentHidden s then 15000 else 2000);
         SetTimeout (Pos.succ (Pos.succ (Pos.succ (Pos.succ t)))) cbNoop 0;
         GetChargeFromOrderCode (code c);
         SetTimeout (Pos.succ (Pos.succ (Pos.succ (Pos.succ (Pos.succ t))))) cbNoop 0;
         GetChargeFromOrderCode (code c)])%list.
Proof.
  intros Hc Hp. cbv zeta.
  unfold deliverAll. cbn [foldl deliver].
  rewrite (pickNetwork_run _ _ _ Hc). cbn [final].
  set (s0 := set_step (Some awaitingPayment) _).
  assert (Hc1 : charge (restarted c s0) = Some c) by exact Hc.
  rewrite (poll_resume_same_snapshot c (restarted c s0) (nextTimer s) Hc1 eq_refl).
  cbn [final].
  set (s2 := rescheduled (set_pollErrorStreak 0 (restarted c s0))).
  assert (Hc2 : charge s2 = Some c) by exact Hc.
  rewrite (poll_resume_same_snapshot c s2 (Pos.succ (Pos.succ (nextTimer s))) Hc2 eq_refl).
  cbn [final].
  set (s3 := rescheduled (set_pollErrorStreak 0 s2)).
  assert (Hc3 : charge s3 = Some c) by exact Hc.
  assert (Hfire : forall u, charge u = Some c -> final (fire cbPoll u) = requesting c u).
  { intros u Hu. unfold fire. unfold_act.
    rewrite (poll_run_request false u c Hu (or_intror eq_refl)). reflexivity. }
  rewrite (Hfire s3 Hc3).
  rewrite (Hfire (requesting c s3)) by exact Hc.
  apply added_app.
  rewrite !effects_requesting, !nextTimer_requesting.
  subst s3. rewrite effects_rescheduled, nextTimer_rescheduled.
  rewrite effects_set_pollErrorStreak, nextTimer_set_pollErrorStreak.
  rewrite (pollDelay_awaiting (set_pollErrorStreak 0 s2) eq_refl eq_refl).
  subst s2. rewrite effects_rescheduled, nextTimer_rescheduled.
  rewrite effects_set_pollErrorStreak, nextTimer_set_pollErrorStreak.
  rewrite (pollDelay_awaiting (set_pollErrorStreak 0 (restarted c s0)) eq_refl eq_refl).
  rewrite effects_restarted, nextTimer_restarted.
  change (cleared s0) with (cleared s).
  change (nextTimer s0) with (nextTimer s).
  change (documentHidden (set_pollErrorStreak 0 _)) with (documentHidden s).
  change (effects s0) with
    ((effects s ++ [Track "checkout:currency-picked"])
       ++ [Track "checkout:awaiting-payment-shown"])%list.
  rewrite <- !app_assoc. reflexivity.
Qed.


(** *** Charge assignment *)

Arguments lift : simpl never.
Arguments loadLocalStoreCharge : simpl never.
Arguments setIsChargeBelowCoinbaseLowerSendLimit : simpl never.

Lemma lift_Done {A} (a : Act A) ss x s' :
  a (store ss) = Done x s' -> lift a ss = SDone x (with_store s' ss).
Proof. intros H. unfold lift. rewrite H. reflexivity. Qed.

Lemma lift_Thrown {A} (a : Act A) ss e s' :
  a (store ss) = Thrown e s' -> lift a ss = SThrown e (with_store s' ss).
Proof. intros H. unfold lift. rewrite H. reflexivity. Qed.

Lemma sbind_SDone {A B} (m : SAct A) (k : A -> SAct B) ss a ss' :
  m ss = SDone a ss' -> sbind m k ss = k a ss'.
Proof. intros H. unfold sbind. rewrite H. reflexivity. Qed.

Lemma sbind_SThrown {A B} (m : SAct A) (k : A -> SAct B) ss e ss' :
  m ss = SThrown e ss' -> sbind m k ss = SThrown e ss'.
Proof. intros H. unfold sbind. rewrite H. reflexivity. Qed.

Section ChargeAssignmentFacts.

Variable Number : string -> float.

Lemma collectInvalid_throws c keys invalid s :
  Exists (fun key => priceOf c key = None) keys ->
  exists e, collectInvalid Number c keys invalid s = Thrown e s.
Proof.
  intros Hex. revert invalid.
  induction keys as [| key rest IH]; intros invalid.
  - inversion Hex.
  - cbn [collectInvalid]. destruct (priceOf c key) as [m|] eqn:Hm.
    + apply IH. inversion Hex as [? ? Hk | ? ? Hr]; subst; [congruence | exact Hr].
    + eexists. reflexivity.
Qed.

(** X17. On a priced charge that has an address without a pricing entry
    the limit setter throws, and the store, its flag included, is as it
    was before the call. *)
Theorem lower_send_limit_throws_on_unpriced_address (s : State) (c : Charge) (key : string) :
  charge s = Some c ->
  unpriced c = false ->
  is_Some (addresses c !! key) ->
  priceOf c key = None ->
  exists e, setIsChargeBelowCoinbaseLowerSendLimit Number s = Thrown e s.
Proof.
  intros Hc Hu [a Ha] Hm.
  assert (Hex : Exists (fun k => priceOf c k = None) (map fst (map_to_list (addresses c)))).
  { apply Exists_exists. exists key. split; [| exact Hm].
    apply list_elem_of_fmap. exists (key, a). split; [reflexivity |].
    apply elem_of_map_to_list. exact Ha. }
  destruct (collectInvalid_throws c _ [] s Hex) as [e He].
  exists e. unfold setIsChargeBelowCoinbaseLowerSendLimit, isUnpriced.
  unfold_act. rewrite Hc. cbv beta iota. rewrite Hu. cbv beta iota.
  rewrite Hc. cbv beta iota. rewrite He. reflexivity.
Qed.

Lemma setIs_returns s c :
  charge s = Some c ->
  unpriced c = true \/ addressesPriced c ->
  exists fl, setIsChargeBelowCoinbaseLowerSendLimit Number s =
             Done tt (set_isChargeBelowCoinbaseLowerSendLimit fl s)
             /\ (unpriced c = true -> fl = isChargeBelowCoinbaseLowerSendLimit s).
Proof.
  intros Hc Hwf. destruct (unpriced c) eqn:Hu.
  - exists (isChargeBelowCoinbaseLowerSendLimit s). split; [| reflexivity].
    unfold setIsChargeBelowCoinbaseLowerSendLimit, isUnpriced.
    unfold_act. rewrite Hc, Hu. destruct s; reflexivity.
  - destruct Hwf as [Hwf | Hwf]; [discriminate |].
    assert (Hall : Forall (fun key => is_Some (priceOf c key))
                          (map fst (map_to_list (addresses c)))).
    { apply Forall_forall. intros key Hin. apply Hwf.
      apply list_elem_of_fmap in Hin as ([k a] & -> & Hin).
      apply elem_of_map_to_list in Hin. eauto. }
    destruct (collectInvalid_run Number c _ [] s Hall) as (l & Hrun & _).
    eexists. split; [| discriminate].
    unfold setIsChargeBelowCoinbaseLowerSendLimit, isUnpriced.
    unfold_act. rewrite Hc. cbv beta iota. rewrite Hu. cbv beta iota.
    rewrite Hc. cbv beta iota. rewrite Hrun. reflexivity.
Qed.

End ChargeAssignmentFacts.

Lemma showNetworkPicker_total s c :
  charge s = Some c ->
  exists s', showNetworkPicker s = Done tt s'
             /\ charge s' = Some c
             /\ web3Status s' = web3Status s
             /\ isChargeBelowCoinbaseLowerSendLimit s' = isChargeBelowCoinbaseLowerSendLimit s
             /\ (step s' = Some networkPicker \/ step s' = Some awaitingPayment).
Proof.
  intros Hc.
  assert (Hc' : charge (set_pickedNetwork None s) = Some c) by exact Hc.
  unfold showNetworkPicker. unfold_act.
  rewrite (shouldSkipNetworkPicker_run _ _ Hc').
  destruct (negb _ && _).
  - unfold networks. unfold_act. cbn [charge set_pickedNetwork]. rewrite Hc.
    rewrite (showAwaitingPayment_run _ _ c) by exact Hc.
    eexists. split; [reflexivity |]. repeat split; auto.
  - eexists. split; [reflexivity |]. repeat split; auto.
Qed.

Lemma loadLocalStoreCharge_off ss c :
  charge (store ss) = Some c ->
  localStores ss !! code c <> Some true ->
  exists ss', loadLocalStoreCharge ss = SDone tt ss'
              /\ store ss' = store ss
              /\ isOAuthPayment ss' = isOAuthPayment ss
              /\ sameSessionFields ss ss'.
Proof.
  intros Hc Hoff. unfold loadLocalStoreCharge.
  assert (Hget : getCharge (store ss) = Done c (store ss))
    by (unfold_act; rewrite Hc; reflexivity).
  rewrite (sbind_SDone _ _ _ _ _ (lift_Done _ _ _ _ Hget)).
  unfold loadStore, call, sbind, smodify, sget, sret.
  cbn [localStores record_call with_store].
  rewrite (bool_decide_eq_false_2 _ Hoff).
  eexists. split; [reflexivity |]. repeat split.
Qed.

Lemma loadLocalStoreCharge_on ss c :
  charge (store ss) = Some c ->
  localStores ss !! code c = Some true ->
  exists ss' s', loadLocalStoreCharge ss = SDone tt ss'
                 /\ store ss' = s'
                 /\ (if is_status (statusOf c) "UNRESOLVED"
                     then showFailedPayment (store ss) = Done tt s'
                     else showSuccessfulPayment (store ss) = Done tt s')
                 /\ isOAuthPayment ss' = true
                 /\ sameSessionFields ss ss'.
Proof.
  intros Hc Hon. unfold loadLocalStoreCharge.
  assert (Hget : getCharge (store ss) = Done c (store ss))
    by (unfold_act; rewrite Hc; reflexivity).
  rewrite (sbind_SDone _ _ _ _ _ (lift_Done _ _ _ _ Hget)).
  unfold loadStore, call. unfold sbind at 1. unfold sbind at 1.
  unfold smodify at 1. unfold sbind at 1. unfold sget, sret.
  cbn [localStores record_call with_store].
  rewrite (bool_decide_eq_true_2 _ Hon).
  unfold sbind at 1. unfold smodify at 1.
  set (ss1 := set_isOAuthPayment true _).
  assert (Hs1 : store ss1 = store ss) by reflexivity.
  assert (Hst : chargeStatus (store ss1) = Done (statusOf c) (store ss1))
    by (unfold chargeStatus; unfold_act; rewrite Hs1, Hc; reflexivity).
  rewrite (sbind_SDone _ _ _ _ _ (lift_Done _ _ _ _ Hst)).
  set (ss2 := with_store (store ss1) ss1).
  assert (Hs2 : store ss2 = store ss) by reflexivity.
  assert (Hc2 : charge (store ss2) = Some c) by exact Hc.
  destruct (is_status (statusOf c) "UNRESOLVED").
  - rewrite (lift_Done _ ss2 tt _ (showFailedPayment_run _ c Hc2)).
    eexists _, _. split; [reflexivity |]. split; [reflexivity |].
    split; [rewrite Hs2; apply showFailedPayment_run, Hc |]. repeat split.
  - rewrite (lift_Done _ ss2 tt _ (showSuccessfulPayment_run _ c Hc2)).
    eexists _, _. split; [reflexivity |]. split; [reflexivity |].
    split; [rewrite Hs2; apply showSuccessfulPayment_run, Hc |]. repeat split.
Qed.

Section SetChargeFacts.

Variable Number : string -> float.

Lemma setUsdChargeAmount_returns rate ss c :
  charge (store ss) = Some c ->
  is_Some (priceOf c "local") ->
  exists ss', setUsdChargeAmount Number rate ss = SDone tt ss'
              /\ store ss' = store ss
              /\ isPwcbEnabled ss' = isPwcbEnabled ss
              /\ pwcbError ss' = pwcbError ss
              /\ isOAuthPayment ss' = isOAuthPayment ss
              /\ localStores ss' = localStores ss.
Proof.
  intros Hc [loc Hloc]. unfold setUsdChargeAmount.
  assert (Hget : getCharge (store ss) = Done c (store ss))
    by (unfold_act; rewrite Hc; reflexivity).
  rewrite (sbind_SDone _ _ _ _ _ (lift_Done _ _ _ _ Hget)).
  cbv zeta. rewrite Hloc. eexists. split; [reflexivity |]. repeat split.
Qed.

(** [setCharge] up to its last call: under the two conditions that keep
    the limit setter and the conversion from throwing, it reaches
    [loadLocalStoreCharge]. *)
Lemma setCharge_prefix c rate picked ss :
  unpriced c = true \/ addressesPriced c ->
  rate = None \/ is_Some (priceOf c "local") ->
  exists fl ssd s2 s3 ss3,
    setCharge Number c rate picked ss = loadLocalStoreCharge ss3
    /\ store ss3 = s3
    /\ processChargeUpdate c ctxStartup (restarted c s2) = Done tt s3
    /\ charge s2 = Some c
    /\ web3Status s2 = w3idle
    /\ isChargeBelowCoinbaseLowerSendLimit s2 = fl
    /\ (unpriced c = true -> fl = isChargeBelowCoinbaseLowerSendLimit (store ss))
    /\ (if networkGiven picked
        then s2 = set_step (Some awaitingPayment)
                    (set_pickedNetwork picked (assigned c fl (store ss)))
        else showNetworkPicker (assigned c fl (store ss)) = Done tt s2)
    /\ (rate = None -> usdChargeAmount ssd = usdChargeAmount ss)
    /\ isPwcbEnabled ssd = isPwcbEnabled ss
    /\ pwcbError ssd = pwcbError ss
    /\ usdChargeAmount ss3 = usdChargeAmount ssd
    /\ (isPwcbEnabled ss3, pwcbError ss3) = pwcbDecision picked fl ssd
    /\ isOAuthPayment ss3 = isOAuthPayment ss
    /\ localStores ss3 = localStores ss.
Proof.
  intros Hwf Hrate. unfold setCharge.
  unfold sbind at 1. unfold call at 1. unfold smodify at 1.
  unfold sbind at 1. unfold call at 1. unfold smodify at 1.
  set (ss0 := record_call _ (record_call _ ss)).
  assert (H0 : store ss0 = store ss) by reflexivity.
  (* the charge and the wallet status *)
  rewrite (sbind_SDone _ _ _ _ _
             (lift_Done (modify (set_charge (Some c))) ss0 tt _ eq_refl)).
  set (ss1 := with_store _ ss0).
  rewrite (sbind_SDone _ _ _ _ _
             (lift_Done (modify (set_web3Status w3idle)) ss1 tt _ eq_refl)).
  set (ss2 := with_store _ ss1).
  assert (Hc2 : charge (store ss2) = Some c) by reflexivity.
  (* the limit flag *)
  destruct (setIs_returns Number (store ss2) c Hc2 Hwf) as (fl & Hfl & Hstale).
  rewrite (sbind_SDone _ _ _ _ _ (lift_Done _ ss2 tt _ Hfl)).
  set (ss3 := with_store _ ss2).
  assert (Hs3 : store ss3 = assigned c fl (store ss)) by reflexivity.
  assert (Hc3 : charge (store ss3) = Some c) by reflexivity.
  (* the reference amount *)
  assert (Husd : exists ssd,
            match rate with
            | Some r => setUsdChargeAmount Number r
            | None => sret tt
            end ss3 = SDone tt ssd
            /\ store ssd = store ss3
            /\ (rate = None -> usdChargeAmount ssd = usdChargeAmount ss)
            /\ isPwcbEnabled ssd = isPwcbEnabled ss
            /\ pwcbError ssd = pwcbError ss
            /\ isOAuthPayment ssd = isOAuthPayment ss
            /\ localStores ssd = localStores ss).
  { destruct rate as [r|].
    - destruct Hrate as [Hr | Hloc]; [discriminate |].
      destruct (setUsdChargeAmount_returns r ss3 c Hc3 Hloc)
        as (ssd & Hrun & Hst & Hpe & Hpr & Hoa & Hls).
      exists ssd. split; [exact Hrun |]. repeat split; auto. discriminate.
    - exists ss3. split; [reflexivity |]. repeat split. }
  destruct Husd as (ssd & Hrun & Hsd & Husd & Hpe & Hpr & Hoa & Hls).
  rewrite (sbind_SDone _ _ _ _ _ Hrun).
  assert (Hcd : charge (store ssd) = Some c) by (rewrite Hsd; exact Hc3).
  (* the picked network or the picker *)
  assert (Hpick : exists s2 ssp,
            (if networkGiven picked
             then sbind (lift (modify (set_pickedNetwork picked)))
                    (fun _ => lift (modify (set_step (Some awaitingPayment))))
             else sbind sget (fun ss' =>
                    sbind (if bool_decide (isChargeBelowCoinbaseLowerSendLimit (store ss')
                                           = Some true)
                           then setPwcbEnabled false pwChargeBelowLimit
                           else if isChargeAboveCoinbaseUpperSendLimit ss'
                                then setPwcbEnabled false pwChargeOverLimit
                                else sret tt)
                      (fun _ => lift showNetworkPicker))) ssd = SDone tt ssp
            /\ store ssp = s2
            /\ charge s2 = Some c
            /\ web3Status s2 = w3idle
            /\ isChargeBelowCoinbaseLowerSendLimit s2 = fl
            /\ (if networkGiven picked
                then s2 = set_step (Some awaitingPayment)
                            (set_pickedNetwork picked (assigned c fl (store ss)))
                else showNetworkPicker (assigned c fl (store ss)) = Done tt s2)
            /\ usdChargeAmount ssp = usdChargeAmount ssd
            /\ (isPwcbEnabled ssp, pwcbError ssp) = pwcbDecision picked fl ssd
            /\ isOAuthPayment ssp = isOAuthPayment ss
            /\ localStores ssp = localStores ss).
  { unfold pwcbDecision. destruct (networkGiven picked).
    - rewrite (sbind_SDone _ _ _ _ _
                 (lift_Done (modify (set_pickedNetwork picked)) ssd tt _ eq_refl)).
      rewrite (lift_Done (modify (set_step (Some awaitingPayment))) _ tt _ eq_refl).
      eexists _, _. split; [reflexivity |]. split; [reflexivity |].
      cbn [store with_store]. rewrite Hsd, Hs3.
      repeat split; auto.
    - unfold sbind at 1. unfold sget.
      assert (Hflag : isChargeBelowCoinbaseLowerSendLimit (store ssd) = fl)
        by (rewrite Hsd; reflexivity).
      rewrite Hflag.
      destruct (showNetworkPicker_total (store ssd) c Hcd)
        as (s2 & Hsnp & Hc2' & Hw2 & Hf2 & _).
      assert (Hsnp' : showNetworkPicker (assigned c fl (store ss)) = Done tt s2)
        by (rewrite <- Hs3, <- Hsd; exact Hsnp).
      destruct (bool_decide (fl = Some true));
        [| destruct (isChargeAboveCoinbaseUpperSendLimit ssd)];
        unfold sbind at 1; unfold setPwcbEnabled, smodify, sret;
        (erewrite lift_Done; [| cbn [store set_pwcb]; exact Hsnp]);
        (exists s2; eexists; split; [reflexivity |]; split; [reflexivity |]);
        (split; [exact Hc2' |]);
        (split; [rewrite Hw2, Hsd; reflexivity |]);
        (split; [rewrite Hf2; exact Hflag |]);
        (split; [exact Hsnp' |]);
        cbn; rewrite ?Hpe, ?Hpr; auto. }
  destruct Hpick as (s2 & ssp & Hrunp & Hsp & Hc2' & Hw2 & Hf2 & Hshape & Hu & Hdec & Hoa' & Hls').
  rewrite (sbind_SDone _ _ _ _ _ Hrunp).
  (* polling and the startup update *)
  assert (Hstart : startPolling (store ssp) = Done tt (restarted c s2))
    by (rewrite Hsp; apply startPolling_run; exact Hc2').
  rewrite (sbind_SDone _ _ _ _ _ (lift_Done _ ssp tt _ Hstart)).
  set (ssq := with_store _ ssp).
  destruct (processChargeUpdate_frame c ctxStartup (restarted c s2)) as (s3 & Hpcu & _).
  assert (Hpcu' : processChargeUpdate c ctxStartup (store ssq) = Done tt s3) by exact Hpcu.
  rewrite (sbind_SDone _ _ _ _ _ (lift_Done _ ssq tt _ Hpcu')).
  exists fl, ssd, s2, s3, (with_store s3 ssq).
  split; [reflexivity |]. split; [reflexivity |]. split; [exact Hpcu |].
  split; [exact Hc2' |]. split; [exact Hw2 |]. split; [exact Hf2 |].
  split; [exact Hstale |]. split; [exact Hshape |].
  split; [exact Husd |]. split; [exact Hpe |]. split; [exact Hpr |].
  split; [exact Hu |]. split; [exact Hdec |]. split; [exact Hoa' |]. exact Hls'.
Qed.

End SetChargeFacts.

Lemma processChargeUpdate_idle_run c ctx s :
  statusOf c = Some "NEW" \/ unknownStatus (statusOf c) ->
  (ctx = ctxPoll -> charge s <> Some c) ->
  processChargeUpdate c ctx s = Done tt (set_charge (Some c) s).
Proof.
  intros Hst Hproc. apply not_short_circuit in Hproc.
  destruct Hst as [Hst | Hu].
  - enter_switch Hproc Hst. reflexivity.
  - unfold processChargeUpdate.
    unfold bind at 1; unfold get at 1. rewrite Hproc.
    cbv [bind modify chargeStatus getCharge get ret]; cbn [charge set_charge].
    rewrite !(unknown_is_status _ _ Hu)
      by (unfold knownStatuses; apply list_elem_of_In; cbn; tauto).
    reflexivity.
Qed.

Lemma showNetworkPicker_skip_run s c k a :
  charge s = Some c ->
  addresses c = {[ k := a ]} ->
  pricingType c = "no_price" \/ IS_LOCAL_STORAGE_AVAILABLE s = false ->
  showNetworkPicker s =
  Done tt (restarted c
             (set_step (Some awaitingPayment)
                (record_effect (Track "checkout:awaiting-payment-shown")
                   (set_pickedNetwork (Some k) (set_pickedNetwork None s))))).
Proof.
  intros Hc Ha Hhosted.
  assert (Hc' : charge (set_pickedNetwork None s) = Some c) by exact Hc.
  unfold showNetworkPicker. unfold_act.
  rewrite (shouldSkipNetworkPicker_run _ _ Hc').
  cbn [IS_LOCAL_STORAGE_AVAILABLE set_pickedNetwork].
  assert (Hb : negb (negb (String.eqb (pricingType c) "no_price")
                     && IS_LOCAL_STORAGE_AVAILABLE s)
               && Nat.eqb (size (addresses c)) 1 = true).
  { rewrite Ha, map_size_singleton.
    destruct Hhosted as [-> | ->]; [reflexivity |]. rewrite andb_false_r. reflexivity. }
  rewrite Hb. unfold networks. unfold_act. cbn [charge set_pickedNetwork]. rewrite Hc.
  rewrite (networksOf_singleton _ _ _ Ha). cbn [head].
  rewrite (showAwaitingPayment_run _ _ c) by exact Hc. reflexivity.
Qed.

Lemma showNetworkPicker_shown_run s c :
  charge s = Some c ->
  size (addresses c) <> 1
  \/ (pricingType c <> "no_price" /\ IS_LOCAL_STORAGE_AVAILABLE s = true) ->
  showNetworkPicker s = Done tt (set_step (Some networkPicker) (set_pickedNetwork None s)).
Proof.
  intros Hc Hno. apply (showNetworkPicker_no_skip _ _ Hc).
  rewrite (shouldSkipNetworkPicker_run _ _ Hc). f_equal.
  destruct Hno as [Hsz | [Hpt Hls]].
  - apply andb_false_intro2. apply Nat.eqb_neq. exact Hsz.
  - apply andb_false_intro1. rewrite Hls.
    apply String.eqb_neq in Hpt. rewrite Hpt. reflexivity.
Qed.

Section SetChargeTheorems.

Variable Number : string -> float.

(** X18. When the local store holds the hosted-payment flag for the
    charge's code, [setCharge] (as long as its limit setter and its
    conversion do not throw) ends on a terminal step whatever the live
    status says: [failedPayment] for UNRESOLVED, [successfulPayment] for
    every other status, NEW and PENDING included. Polling is stopped and
    the session is marked as a hosted payment. *)
Theorem setCharge_local_store_decides_step
        (c : Charge) (rate : option ExchangeRate) (picked : option string) (ss : Session) :
  unpriced c = true \/ addressesPriced c ->
  rate = None \/ is_Some (priceOf c "local") ->
  localStores ss !! code c = Some true ->
  exists ss', setCharge Number c rate picked ss = SDone tt ss'
              /\ charge (store ss') = Some c
              /\ step (store ss') =
                 Some (if is_status (statusOf c) "UNRESOLVED"
                       then failedPayment else successfulPayment)
              /\ pollTimeoutId (store ss') = None
              /\ expiryIntervalId (store ss') = None
              /\ isOAuthPayment ss' = true.
Proof.
  intros Hwf Hrate Hon.
  destruct (setCharge_prefix Number c rate picked ss Hwf Hrate)
    as (fl & ssd & s2 & s3 & ss3 & Hrun & Hs3 & Hpcu & _ & _ & _ & _ & _ & _ & _ & _ & _ & _ & _ & Hls).
  destruct (processChargeUpdate_total c ctxStartup (restarted c s2)) as (s3' & Hpcu' & Hc3).
  rewrite Hpcu in Hpcu'. injection Hpcu' as <-.
  assert (Hc3' : charge (store ss3) = Some c) by (rewrite Hs3; exact Hc3).
  assert (Hon' : localStores ss3 !! code c = Some true) by (rewrite Hls; exact Hon).
  destruct (loadLocalStoreCharge_on ss3 c Hc3' Hon')
    as (ss' & s' & Hload & Hs' & Hshow & Hoa & _).
  exists ss'. split; [rewrite Hrun; exact Hload |].
  rewrite Hs'.
  destruct (is_status (statusOf c) "UNRESOLVED").
  - rewrite (showFailedPayment_run _ _ Hc3') in Hshow. injection Hshow as <-.
    repeat split; auto.
  - rewrite (showSuccessfulPayment_run _ _ Hc3') in Hshow. injection Hshow as <-.
    repeat split; auto.
Qed.

(** The flag survives the last stages of [setCharge]. *)
Lemma flag_after_local_store ss3 c ss' :
  charge (store ss3) = Some c ->
  loadLocalStoreCharge ss3 = SDone tt ss' ->
  isChargeBelowCoinbaseLowerSendLimit (store ss')
  = isChargeBelowCoinbaseLowerSendLimit (store ss3)
  /\ sameSessionFields ss3 ss'.
Proof.
  intros Hc Hload.
  destruct (decide (localStores ss3 !! code c = Some true)) as [Hon | Hoff].
  - destruct (loadLocalStoreCharge_on ss3 c Hc Hon)
      as (ss1 & s' & Hload' & Hs' & Hshow & _ & Hsame).
    rewrite Hload in Hload'. injection Hload' as <-.
    split; [| exact Hsame]. rewrite Hs'.
    destruct (is_status (statusOf c) "UNRESOLVED").
    + rewrite (showFailedPayment_run _ _ Hc) in Hshow. injection Hshow as <-. reflexivity.
    + rewrite (showSuccessfulPayment_run _ _ Hc) in Hshow. injection Hshow as <-. reflexivity.
  - destruct (loadLocalStoreCharge_off ss3 c Hc Hoff) as (ss1 & Hload' & Hs' & _ & Hsame).
    rewrite Hload in Hload'. injection Hload' as <-.
    split; [rewrite Hs'; reflexivity | exact Hsame].
Qed.

(** X19. What [setCharge] does to Pay with Coinbase, read off the flag
    and the reference amount it leaves: with a network given it touches
    nothing; otherwise a true below-limit flag disables it with the
    below-limit error, before the upper limit is looked at; otherwise an
    amount above 1000 disables it with the over-limit error; otherwise
    nothing changes. It never enables it, so once disabled it stays
    disabled for every later charge; and for an unpriced charge the flag
    that decides is the one the previous charge left. *)
Theorem setCharge_pwcb_decision
        (c : Charge) (rate : option ExchangeRate) (picked : option string) (ss : Session) :
  unpriced c = true \/ addressesPriced c ->
  rate = None \/ is_Some (priceOf c "local") ->
  exists ss', setCharge Number c rate picked ss = SDone tt ss'
              /\ (isPwcbEnabled ss', pwcbError ss') =
                 pwcbDecision picked (isChargeBelowCoinbaseLowerSendLimit (store ss'))
                   (set_usdChargeAmount (usdChargeAmount ss') ss)
              /\ (isPwcbEnabled ss = false -> isPwcbEnabled ss' = false)
              /\ (unpriced c = true ->
                  isChargeBelowCoinbaseLowerSendLimit (store ss')
                  = isChargeBelowCoinbaseLowerSendLimit (store ss))
              /\ (rate = None -> usdChargeAmount ss' = usdChargeAmount ss).
Proof.
  intros Hwf Hrate.
  destruct (setCharge_prefix Number c rate picked ss Hwf Hrate)
    as (fl & ssd & s2 & s3 & ss3 & Hrun & Hs3 & Hpcu & Hc2 & _ & Hf2 & Hstale & _
        & Husd & Hpe & Hpr & Hu3 & Hdec & _ & _).
  destruct (processChargeUpdate_frame c ctxStartup (restarted c s2))
    as (s3' & Hpcu' & Hc3 & Hsur & _).
  rewrite Hpcu in Hpcu'. injection Hpcu' as <-.
  assert (Hc3' : charge (store ss3) = Some c) by (rewrite Hs3; exact Hc3).
  assert (Hf3 : isChargeBelowCoinbaseLowerSendLimit (store ss3) = fl).
  { rewrite Hs3. destruct Hsur as (_ & _ & Hf & _). rewrite Hf. exact Hf2. }
  assert (Hload : exists ss', loadLocalStoreCharge ss3 = SDone tt ss').
  { destruct (decide (localStores ss3 !! code c = Some true)) as [Hon | Hoff].
    - destruct (loadLocalStoreCharge_on ss3 c Hc3' Hon) as (ss' & _ & H & _). eauto.
    - destruct (loadLocalStoreCharge_off ss3 c Hc3' Hoff) as (ss' & H & _). eauto. }
  destruct Hload as (ss' & Hload).
  destruct (flag_after_local_store ss3 c ss' Hc3' Hload)
    as (Hf' & Hu' & Hpe' & Hpr' & _).
  exists ss'. split; [rewrite Hrun; exact Hload |].
  assert (Hdec' : (isPwcbEnabled ss', pwcbError ss') =
                  pwcbDecision picked (isChargeBelowCoinbaseLowerSendLimit (store ss'))
                    (set_usdChargeAmount (usdChargeAmount ss') ss)).
  { rewrite Hpe', Hpr', Hdec, Hf', Hf3, Hu', Hu3.
    unfold pwcbDecision, isChargeAboveCoinbaseUpperSendLimit.
    cbn [isPwcbEnabled pwcbError usdChargeAmount set_usdChargeAmount].
    rewrite Hpe, Hpr. reflexivity. }
  split; [exact Hdec' |]. split; [| split].
  - intros Hoff. pose proof (f_equal fst Hdec') as He. cbn [fst] in He. rewrite He.
    unfold pwcbDecision. cbn [isPwcbEnabled set_usdChargeAmount].
    destruct (networkGiven picked); [exact Hoff |].
    destruct (bool_decide _); [reflexivity |].
    destruct (isChargeAboveCoinbaseUpperSendLimit _); [reflexivity | exact Hoff].
  - intros Hunp. rewrite Hf', Hf3. apply Hstale, Hunp.
  - intros Hr. rewrite Hu', Hu3. apply Husd, Hr.
Qed.

End SetChargeTheorems.

Section SetChargeTheorems2.

Variable Number : string -> float.

(** X20. The step [setCharge] starts a charge on, when its status is NEW
    (or none the switch knows) and the local store holds no hosted-payment
    flag for it: [awaitingPayment] with the given network when one is
    given; [awaitingPayment] with the sole network when none is given,
    the hosted path is not applicable and the charge has one address;
    [networkPicker] with no network picked in every other case. The
    wallet status is idle and the store is polling. *)
Theorem setCharge_initial_step
        (c : Charge) (rate : option ExchangeRate) (picked : option string) (ss : Session) :
  unpriced c = true \/ addressesPriced c ->
  rate = None \/ is_Some (priceOf c "local") ->
  statusOf c = Some "NEW" \/ unknownStatus (statusOf c) ->
  localStores ss !! code c <> Some true ->
  exists ss', setCharge Number c rate picked ss = SDone tt ss'
              /\ charge (store ss') = Some c
              /\ web3Status (store ss') = w3idle
              /\ pollStatus (store ss') = polling
              /\ isOAuthPayment ss' = isOAuthPayment ss
              /\ (networkGiven picked = true ->
                  step (store ss') = Some awaitingPayment
                  /\ pickedNetwork (store ss') = picked)
              /\ (networkGiven picked = false ->
                  forall k a, addresses c = {[ k := a ]} ->
                  pricingType c = "no_price"
                  \/ IS_LOCAL_STORAGE_AVAILABLE (store ss) = false ->
                  step (store ss') = Some awaitingPayment
                  /\ pickedNetwork (store ss') = Some k)
              /\ (networkGiven picked = false ->
                  size (addresses c) <> 1
                  \/ (pricingType c <> "no_price"
                      /\ IS_LOCAL_STORAGE_AVAILABLE (store ss) = true) ->
                  step (store ss') = Some networkPicker
                  /\ pickedNetwork (store ss') = None).
Proof.
  intros Hwf Hrate Hst Hoff.
  destruct (setCharge_prefix Number c rate picked ss Hwf Hrate)
    as (fl & ssd & s2 & s3 & ss3 & Hrun & Hs3 & Hpcu & Hc2 & Hw2 & _ & _ & Hshape
        & _ & _ & _ & _ & _ & Hoa & Hls).
  rewrite (processChargeUpdate_idle_run c ctxStartup (restarted c s2) Hst) in Hpcu
    by discriminate.
  injection Hpcu as <-.
  assert (Hc3 : charge (store ss3) = Some c) by (rewrite Hs3; reflexivity).
  assert (Hoff' : localStores ss3 !! code c <> Some true) by (rewrite Hls; exact Hoff).
  destruct (loadLocalStoreCharge_off ss3 c Hc3 Hoff') as (ss' & Hload & Hs' & Hoa' & _).
  exists ss'. split; [rewrite Hrun; exact Hload |].
  rewrite Hs', Hs3.
  split; [reflexivity |]. split; [exact Hw2 |]. split; [reflexivity |].
  split; [rewrite Hoa'; exact Hoa |].
  split; [| split].
  - intros Hg. rewrite Hg in Hshape. subst s2. split; reflexivity.
  - intros Hg k a Ha Hhosted. rewrite Hg in Hshape.
    rewrite (showNetworkPicker_skip_run (assigned c fl (store ss)) c k a
               eq_refl Ha Hhosted) in Hshape.
    injection Hshape as <-. split; reflexivity.
  - intros Hg Hno. rewrite Hg in Hshape.
    rewrite (showNetworkPicker_shown_run (assigned c fl (store ss)) c
               eq_refl Hno) in Hshape.
    injection Hshape as <-. split; reflexivity.
Qed.

(** X21. [setCharge] on a priced charge that has an address without a
    pricing entry throws out of the limit setter. By then it has told the
    tracker about the charge, assigned it and reset the wallet status;
    the step, the picked network, the poller, the Pay with Coinbase
    fields and the trace of the store are as before the call, so a
    running poll cycle goes on, now for the new charge. *)
Theorem setCharge_aborts_on_unpriced_address
        (c : Charge) (rate : option ExchangeRate) (picked : option string)
        (ss : Session) (key : string) :
  unpriced c = false ->
  is_Some (addresses c !! key) ->
  priceOf c key = None ->
  exists e ss', setCharge Number c rate picked ss = SThrown e ss'
                /\ store ss' = set_web3Status w3idle (set_charge (Some c) (store ss))
                /\ calls ss' = (calls ss ++ [SetTrackingUserId (code c);
                                             SetUserProperty "charge_pricing_type"
                                                             (pricingType c)])%list
                /\ isPwcbEnabled ss' = isPwcbEnabled ss
                /\ pwcbError ss' = pwcbError ss
                /\ usdChargeAmount ss' = usdChargeAmount ss
                /\ isOAuthPayment ss' = isOAuthPayment ss.
Proof.
  intros Hu Hk Hm. unfold setCharge.
  unfold sbind at 1. unfold call at 1. unfold smodify at 1.
  unfold sbind at 1. unfold call at 1. unfold smodify at 1.
  set (ss0 := record_call _ (record_call _ ss)).
  rewrite (sbind_SDone _ _ _ _ _
             (lift_Done (modify (set_charge (Some c))) ss0 tt _ eq_refl)).
  set (ss1 := with_store _ ss0).
  rewrite (sbind_SDone _ _ _ _ _
             (lift_Done (modify (set_web3Status w3idle)) ss1 tt _ eq_refl)).
  set (ss2 := with_store _ ss1).
  assert (Hc2 : charge (store ss2) = Some c) by reflexivity.
  destruct (collectInvalid_throws Number c (map fst (map_to_list (addresses c))) []
              (store ss2)) as [e He].
  { destruct Hk as [a Ha]. apply Exists_exists. exists key. split; [| exact Hm].
    apply list_elem_of_fmap. exists (key, a). split; [reflexivity |].
    apply elem_of_map_to_list. exact Ha. }
  assert (Hthrow : setIsChargeBelowCoinbaseLowerSendLimit Number (store ss2)
                   = Thrown e (store ss2)).
  { unfold setIsChargeBelowCoinbaseLowerSendLimit, isUnpriced.
    unfold_act. rewrite Hc2. cbv beta iota. rewrite Hu. cbv beta iota.
    rewrite Hc2. cbv beta iota. rewrite He. reflexivity. }
  rewrite (sbind_SThrown _ _ _ _ _ (lift_Thrown _ ss2 e _ Hthrow)).
  exists e. eexists. split; [reflexivity |].
  split; [reflexivity |]. split; [| repeat split].
  subst ss2 ss1 ss0. cbn [calls with_store record_call store].
  unfold added. cbn [effects set_web3Status set_charge].
  rewrite !drop_all. cbn [fmap list_fmap]. rewrite !app_nil_r, <- app_assoc. reflexivity.
Qed.

End SetChargeTheorems2.

(** *** The direct-wallet request *)

Lemma callsGrew_added ss ss' l : callsGrew ss ss' l -> addedCalls ss ss' = l.
Proof. unfold callsGrew, addedCalls. intros ->. apply drop_app_length. Qed.

Lemma callsGrew_refl ss : callsGrew ss ss [].
Proof. unfold callsGrew. symmetry. apply app_nil_r. Qed.

Lemma callsGrew_trans ss ss1 ss2 l1 l2 :
  callsGrew ss ss1 l1 -> callsGrew ss1 ss2 l2 -> callsGrew ss ss2 (l1 ++ l2).
Proof. unfold callsGrew. intros H1 H2. rewrite H2, H1. symmetry. apply app_assoc. Qed.

(** A write to the store adds no call of the session's own. *)
Lemma lift_modify_run f ss :
  effects (f (store ss)) = effects (store ss) ->
  exists ss', lift (modify f) ss = SDone tt ss'
              /\ store ss' = f (store ss)
              /\ callsGrew ss ss' []
              /\ sameSessionFields ss ss' /\ isOAuthPayment ss' = isOAuthPayment ss.
Proof.
  intros He. eexists. split; [reflexivity |]. split; [reflexivity |].
  split; [| repeat split].
  unfold callsGrew. cbn [calls with_store]. unfold added. rewrite He, drop_all. reflexivity.
Qed.

Lemma lift_emit_run e ss :
  exists ss', lift (emit e) ss = SDone tt ss'
              /\ store ss' = record_effect e (store ss)
              /\ callsGrew ss ss' [StoreCall e]
              /\ sameSessionFields ss ss' /\ isOAuthPayment ss' = isOAuthPayment ss.
Proof.
  eexists. split; [reflexivity |]. split; [reflexivity |].
  split; [| repeat split].
  unfold callsGrew. cbn [calls with_store]. unfold added.
  cbn [effects record_effect]. rewrite drop_app_length. reflexivity.
Qed.

Lemma sget_run ss : sget ss = SDone ss ss.
Proof. reflexivity. Qed.

Lemma call_run k ss :
  call k ss = SDone tt (record_call k ss).
Proof. reflexivity. Qed.

Lemma lift_read_run {A} (a : Act A) x ss :
  a (store ss) = Done x (store ss) ->
  exists ss', lift a ss = SDone x ss'
              /\ store ss' = store ss
              /\ callsGrew ss ss' []
              /\ sameSessionFields ss ss' /\ isOAuthPayment ss' = isOAuthPayment ss.
Proof.
  intros H. exists (with_store (store ss) ss).
  split; [apply lift_Done, H |]. split; [reflexivity |]. split; [| repeat split].
  unfold callsGrew. cbn [calls with_store]. rewrite added_refl. reflexivity.
Qed.

(** [submitted] holds exactly the transactions of the [SendTransaction]
    calls. *)
Lemma elem_of_submitted tx l :
  tx ∈ submitted l <-> SendTransaction tx ∈ l.
Proof.
  unfold submitted. rewrite list_elem_of_omap. split.
  - intros (k & Hin & Hk). destruct k; try discriminate Hk.
    injection Hk as <-. exact Hin.
  - intros Hin. exists (SendTransaction tx). split; [exact Hin | reflexivity].
Qed.

Section DirectWalletFacts.

Variable CURRENCIES_BY_NETWORK : string -> option string.
Variable contractInfo : string -> option Erc20.
Variable ETH_CHAIN_ID : option Z.
Variable ERC20_GAS_LIMIT : Z.
Variable encodeErc20Transfer : string -> CryptoMoney -> Try string.
Variable toHexWei : string -> Try string.


(** The first stage, case by case. *)
Lemma requestWeb3_cases ss c :
  charge (store ss) = Some c ->
  (exists ss', requestWeb3 CURRENCIES_BY_NETWORK contractInfo true ss = SDone Returned ss'
               /\ store ss' = store ss /\ callsGrew ss ss' []
               /\ (unpriced c = true
                   \/ currencyOf CURRENCIES_BY_NETWORK (pickedNetwork (store ss)) = None
                   \/ (exists n cur,
                         pickedNetwork (store ss) = Some n
                         /\ currencyOf CURRENCIES_BY_NETWORK (Some n) = Some cur
                         /\ ((n <> "ethereum" /\ contractInfo cur = None)
                             \/ mayAsk (web3Status (store ss)) cur = false
                             \/ addressOf c n = None
                             \/ priceOf c n = None))))
  \/ (exists ss' n cur to price,
        requestWeb3 CURRENCIES_BY_NETWORK contractInfo true ss =
        SDone (Waiting {| envCurrency := cur; envErc20 := contractInfo cur;
                          envTo := to; envPrice := price |}) ss'
        /\ store ss' = set_web3Status w3asking (store ss)
        /\ callsGrew ss ss' [ImportWeb3; EthereumEnable]
        /\ unpriced c = false
        /\ pickedNetwork (store ss) = Some n
        /\ currencyOf CURRENCIES_BY_NETWORK (Some n) = Some cur
        /\ (n = "ethereum" \/ is_Some (contractInfo cur))
        /\ mayAsk (web3Status (store ss)) cur = true
        /\ addressOf c n = Some to
        /\ priceOf c n = Some price).
Proof.
  intros Hc. unfold requestWeb3. cbn [negb].
  assert (Hunp : isUnpriced (store ss) = Done (unpriced c) (store ss))
    by (unfold isUnpriced; unfold_act; rewrite Hc; reflexivity).
  destruct (lift_read_run _ _ ss Hunp) as (ss1 & Hrun1 & Hs1 & Hg1 & _).
  rewrite (sbind_SDone _ _ _ _ _ Hrun1). cbv beta.
  destruct (unpriced c) eqn:Hu.
  { left. exists ss1. split; [reflexivity |]. repeat split; auto. }
  rewrite (sbind_SDone _ _ _ _ _ (sget_run ss1)). cbv beta zeta. rewrite Hs1.
  destruct (pickedNetwork (store ss)) as [n|] eqn:Hn.
  2:{ left. exists ss1. split; [reflexivity |]. repeat split; auto. }
  destruct (currencyOf CURRENCIES_BY_NETWORK (Some n)) as [cur|] eqn:Hcur.
  2:{ left. exists ss1. split; [reflexivity |]. repeat split; auto. }
  destruct (negb (String.eqb n "ethereum") && negb (bool_decide (is_Some (contractInfo cur))))
    eqn:Hchain.
  { left. exists ss1. split; [reflexivity |]. split; [exact Hs1 |]. split; [exact Hg1 |].
    right; right. exists n, cur. split; [reflexivity |]. split; [exact Hcur |]. left.
    apply andb_prop in Hchain as [Hne Herc].
    apply negb_true_iff in Hne, Herc. apply String.eqb_neq in Hne.
    apply bool_decide_eq_false_1 in Herc.
    split; [exact Hne |]. destruct (contractInfo cur); [exfalso; apply Herc; eauto | reflexivity]. }
  destruct (mayAsk (web3Status (store ss)) cur) eqn:Hask; cbn [negb].
  2:{ left. exists ss1. split; [reflexivity |]. split; [exact Hs1 |]. split; [exact Hg1 |].
      right; right. exists n, cur. auto. }
  assert (Hget : getCharge (store ss1) = Done c (store ss1))
    by (unfold_act; rewrite Hs1, Hc; reflexivity).
  destruct (lift_read_run _ _ ss1 Hget) as (ss2 & Hrun2 & Hs2 & Hg2 & _).
  rewrite (sbind_SDone _ _ _ _ _ Hrun2). cbv beta.
  destruct (addressOf c n) as [to|] eqn:Hto.
  2:{ left. exists ss2. split; [reflexivity |]. split; [congruence |].
      split; [apply (callsGrew_trans _ _ _ _ _ Hg1 Hg2) |].
      right; right. exists n, cur. auto 6. }
  destruct (priceOf c n) as [price|] eqn:Hprice.
  2:{ left. exists ss2. split; [reflexivity |]. split; [congruence |].
      split; [apply (callsGrew_trans _ _ _ _ _ Hg1 Hg2) |].
      right; right. exists n, cur. auto 6. }
  right.
  rewrite (sbind_SDone _ _ _ _ _ (call_run ImportWeb3 ss2)).
  destruct (lift_modify_run (set_web3Status w3asking) (record_call ImportWeb3 ss2) eq_refl)
    as (ss3 & Hrun3 & Hs3 & Hg3 & _).
  rewrite (sbind_SDone _ _ _ _ _ Hrun3).
  rewrite (sbind_SDone _ _ _ _ _ (call_run EthereumEnable ss3)).
  exists (record_call EthereumEnable ss3), n, cur, to, price.
  split; [reflexivity |].
  split; [cbn [store record_call]; rewrite Hs3; cbn [store record_call]; congruence |].
  split.
  { unfold callsGrew in *. cbn [calls record_call] in *.
    rewrite Hg3. cbn [calls record_call]. rewrite Hg2, Hg1.
    rewrite !app_nil_r, <- app_assoc. reflexivity. }
  assert (Hnet : n = "ethereum" \/ is_Some (contractInfo cur)).
  { apply andb_false_iff in Hchain as [Hne | Herc].
    - left. apply negb_false_iff in Hne. apply String.eqb_eq. exact Hne.
    - right. apply negb_false_iff in Herc. exact (bool_decide_eq_true_1 _ Herc). }
  repeat split; auto.
Qed.

Ltac calls_tac :=
  unfold callsGrew; cbn [calls with_store record_call store];
  unfold added; cbn [effects record_effect set_web3Status];
  rewrite ?drop_all, ?drop_app_length; cbn [fmap list_fmap];
  rewrite <- ?app_assoc, ?app_nil_r; reflexivity.

Ltac finish_stage :=
  eexists; split; [reflexivity |]; split; [calls_tac | reflexivity].

(** The stages after the first do what [walletOutcome] says. *)
Lemma afterRequest_run env w ss :
  exists ss',
    afterRequest ETH_CHAIN_ID ERC20_GAS_LIMIT encodeErc20Transfer toHexWei env w ss
    = SDone tt ss'
    /\ callsGrew ss ss'
         (snd (walletOutcome ETH_CHAIN_ID ERC20_GAS_LIMIT encodeErc20Transfer toHexWei env w))
    /\ web3Status (store ss') =
       match fst (walletOutcome ETH_CHAIN_ID ERC20_GAS_LIMIT encodeErc20Transfer toHexWei env w) with
       | Some st => st
       | None => web3Status (store ss)
       end.
Proof.
  unfold walletOutcome.
  destruct w as [en im ch ac sd].
  cbv [afterRequest afterEnable afterImport afterChainId afterAccounts
       sbind call smodify sret lift modify emit
       enableAnswer importAnswer chainIdAnswer accountsAnswer sendThrowsAnswer].
  destruct en as [u1 | e1]; [| finish_stage].
  destruct im as [u2 | e2]; [| finish_stage].
  destruct ch as [chainId | e3]; [| finish_stage].
  destruct (negb (chainId =? desiredChainId ETH_CHAIN_ID env)%Z); [finish_stage |].
  destruct ac as [[[| from rest] |] | e4]; try finish_stage.
  destruct (buildTransaction ERC20_GAS_LIMIT encodeErc20Transfer toHexWei env from)
    as [tx | e5]; [| finish_stage].
  destruct sd as [e6 |]; finish_stage.
Qed.


Lemma walletOutcome_status env w :
  match fst (walletOutcome ETH_CHAIN_ID ERC20_GAS_LIMIT encodeErc20Transfer toHexWei env w) with
  | Some st =>
    st <> w3asking
    /\ forall cur, ListenToTransaction cur
                   ∉ snd (walletOutcome ETH_CHAIN_ID ERC20_GAS_LIMIT encodeErc20Transfer
                                        toHexWei env w)
  | None =>
    ListenToTransaction (envCurrency env)
    ∈ snd (walletOutcome ETH_CHAIN_ID ERC20_GAS_LIMIT encodeErc20Transfer toHexWei env w)
  end.
Proof.
  unfold walletOutcome. destruct w as [en im ch ac sd].
  cbn [enableAnswer importAnswer chainIdAnswer accountsAnswer sendThrowsAnswer].
  assert (Hnot : forall l cur,
            Forall (fun k => match k with ListenToTransaction _ => False | _ => True end) l ->
            ListenToTransaction cur ∉ l).
  { intros l cur Hall Hin. rewrite Forall_forall in Hall. exact (Hall _ Hin). }
  destruct en as [u1 | e1];
    [| cbn; split; [discriminate | intros; apply Hnot; repeat constructor]].
  destruct im as [u2 | e2];
    [| cbn; split; [discriminate | intros; apply Hnot; repeat constructor]].
  destruct ch as [chainId | e3];
    [| cbn; split; [discriminate | intros; apply Hnot; repeat constructor]].
  destruct (negb (chainId =? desiredChainId ETH_CHAIN_ID env)%Z);
    [cbn; split; [discriminate | intros; apply Hnot; repeat constructor] |].
  destruct ac as [[[| from rest] |] | e4];
    try (cbn; split; [discriminate | intros; apply Hnot; repeat constructor]).
  destruct (buildTransaction ERC20_GAS_LIMIT encodeErc20Transfer toHexWei env from)
    as [tx | e5];
    [| cbn; split; [discriminate | intros; apply Hnot; repeat constructor]].
  destruct sd as [e6 |];
    [cbn; split; [discriminate | intros; apply Hnot; repeat constructor] |].
  cbn. apply list_elem_of_In. cbn. auto.
Qed.

(** The whole request: either nothing was asked, or the first stage
    asked and the later stages followed. *)
Lemma requestWeb3Run_cases ss c w :
  charge (store ss) = Some c ->
  (exists ss',
     requestWeb3Run CURRENCIES_BY_NETWORK contractInfo ETH_CHAIN_ID ERC20_GAS_LIMIT
                    encodeErc20Transfer toHexWei true w ss = SDone tt ss'
     /\ store ss' = store ss /\ callsGrew ss ss' [])
  \/ (exists ss' env,
        requestWeb3Run CURRENCIES_BY_NETWORK contractInfo ETH_CHAIN_ID ERC20_GAS_LIMIT
                       encodeErc20Transfer toHexWei true w ss = SDone tt ss'
        /\ callsGrew ss ss'
             ([ImportWeb3; EthereumEnable]
              ++ snd (walletOutcome ETH_CHAIN_ID ERC20_GAS_LIMIT encodeErc20Transfer
                                    toHexWei env w))
        /\ web3Status (store ss') =
           match fst (walletOutcome ETH_CHAIN_ID ERC20_GAS_LIMIT encodeErc20Transfer
                                    toHexWei env w) with
           | Some st => st
           | None => w3asking
           end
        /\ unpriced c = false
        /\ mayAsk (web3Status (store ss)) (envCurrency env) = true
        /\ currencyOf CURRENCIES_BY_NETWORK (pickedNetwork (store ss))
           = Some (envCurrency env)
        /\ envErc20 env = contractInfo (envCurrency env)
        /\ exists n, pickedNetwork (store ss) = Some n
                     /\ addressOf c n = Some (envTo env)
                     /\ priceOf c n = Some (envPrice env)
                     /\ (n = "ethereum" \/ is_Some (envErc20 env))).
Proof.
  intros Hc. unfold requestWeb3Run.
  destruct (requestWeb3_cases ss c Hc)
    as [(ss1 & Hrun & Hs & Hg & _)
       | (ss1 & n & cur & to & price & Hrun & Hs & Hg & Hu & Hn & Hcur & Hnet & Hask & Hto & Hpr)].
  - left. exists ss1. rewrite (sbind_SDone _ _ _ _ _ Hrun). auto.
  - right. rewrite (sbind_SDone _ _ _ _ _ Hrun). cbv beta iota.
    set (env := {| envCurrency := cur; envErc20 := contractInfo cur;
                   envTo := to; envPrice := price |}).
    destruct (afterRequest_run env w ss1) as (ss' & Hrun' & Hg' & Hw').
    exists ss', env. split; [exact Hrun' |].
    split; [apply (callsGrew_trans _ _ _ _ _ Hg Hg') |].
    split; [rewrite Hw', Hs; reflexivity |].
    split; [exact Hu |]. split; [exact Hask |].
    split; [rewrite Hn; exact Hcur |]. split; [reflexivity |].
    exists n. auto.
Qed.


Lemma walletOutcome_failure env w st :
  fst (walletOutcome ETH_CHAIN_ID ERC20_GAS_LIMIT encodeErc20Transfer toHexWei env w)
  = Some st ->
  st ∈ failureStatuses (envCurrency env).
Proof.
  unfold walletOutcome, failureStatuses. destruct w as [en im ch ac sd].
  cbn [enableAnswer importAnswer chainIdAnswer accountsAnswer sendThrowsAnswer].
  intros H. apply list_elem_of_In.
  destruct en as [u1 | e1]; [| injection H as <-; cbn; auto].
  destruct im as [u2 | e2]; [| injection H as <-; cbn; auto].
  destruct ch as [chainId | e3]; [| injection H as <-; cbn; auto].
  destruct (negb (chainId =? desiredChainId ETH_CHAIN_ID env)%Z);
    [injection H as <-; cbn; auto |].
  destruct ac as [[[| from rest] |] | e4]; try (injection H as <-; cbn; auto).
  destruct (buildTransaction ERC20_GAS_LIMIT encodeErc20Transfer toHexWei env from)
    as [tx | e5]; [| injection H as <-; cbn; auto].
  destruct sd as [e6 |]; [injection H as <-; cbn; auto | discriminate H].
Qed.

End DirectWalletFacts.

Section DirectWalletTheorems.

Variable CURRENCIES_BY_NETWORK : string -> option string.
Variable contractInfo : string -> option Erc20.
Variable ETH_CHAIN_ID : option Z.
Variable ERC20_GAS_LIMIT : Z.
Variable encodeErc20Transfer : string -> CryptoMoney -> Try string.
Variable toHexWei : string -> Try string.

(** X22. [requestWeb3] asks the wallet at most once per currency. With a
    charge held it never throws; without a provider it only sets
    [unsupported]. With one, it either returns with the store untouched
    and no call made, or it sets [asking] and makes exactly the library
    import and the permission request, and then only for a priced charge,
    a picked network with a currency that is ETH-based, an address and a
    price, and a status that is [idle] or a decline of another currency.
    So whenever the status is anything else, a decline of this currency
    included, the call does nothing. *)
Theorem requestWeb3_asks_at_most_once (ss : Session) (c : Charge) :
  charge (store ss) = Some c ->
  (exists ss', requestWeb3 CURRENCIES_BY_NETWORK contractInfo false ss = SDone Returned ss'
               /\ web3Status (store ss') = w3unsupported
               /\ addedCalls ss ss' = [])
  /\ (exists st ss',
        requestWeb3 CURRENCIES_BY_NETWORK contractInfo true ss = SDone st ss'
        /\ match st with
           | Returned => store ss' = store ss /\ addedCalls ss ss' = []
           | Waiting env =>
             web3Status (store ss') = w3asking
             /\ addedCalls ss ss' = [ImportWeb3; EthereumEnable]
             /\ unpriced c = false
             /\ currencyOf CURRENCIES_BY_NETWORK (pickedNetwork (store ss))
                = Some (envCurrency env)
             /\ mayAsk (web3Status (store ss)) (envCurrency env) = true
             /\ envErc20 env = contractInfo (envCurrency env)
             /\ exists n, pickedNetwork (store ss) = Some n
                          /\ addressOf c n = Some (envTo env)
                          /\ priceOf c n = Some (envPrice env)
                          /\ (n = "ethereum" \/ is_Some (envErc20 env))
           end)
  /\ (forall cur,
        currencyOf CURRENCIES_BY_NETWORK (pickedNetwork (store ss)) = Some cur ->
        mayAsk (web3Status (store ss)) cur = false ->
        exists ss', requestWeb3 CURRENCIES_BY_NETWORK contractInfo true ss
                    = SDone Returned ss'
                    /\ store ss' = store ss /\ addedCalls ss ss' = []).
Proof.
  intros Hc. split; [| split].
  - destruct (lift_modify_run (set_web3Status w3unsupported) ss eq_refl)
      as (ss' & Hrun & Hs & Hg & _).
    exists ss'. unfold requestWeb3. cbn [negb].
    rewrite (sbind_SDone _ _ _ _ _ Hrun).
    split; [reflexivity |]. split; [rewrite Hs; reflexivity |].
    apply callsGrew_added, Hg.
  - destruct (requestWeb3_cases CURRENCIES_BY_NETWORK contractInfo ss c Hc)
      as [(ss1 & Hrun & Hs & Hg & _)
         | (ss1 & n & cur & to & price & Hrun & Hs & Hg & Hu & Hn & Hcur & Hnet & Hask & Hto & Hpr)].
    + exists Returned, ss1. split; [exact Hrun |].
      split; [exact Hs | apply callsGrew_added, Hg].
    + eexists _, ss1. split; [exact Hrun |]. cbn [envCurrency envErc20 envTo envPrice].
      split; [rewrite Hs; reflexivity |]. split; [apply callsGrew_added, Hg |].
      split; [exact Hu |]. split; [rewrite Hn; exact Hcur |].
      split; [exact Hask |]. split; [reflexivity |]. exists n. auto.
  - intros cur Hcur Hask.
    destruct (requestWeb3_cases CURRENCIES_BY_NETWORK contractInfo ss c Hc)
      as [(ss1 & Hrun & Hs & Hg & _)
         | (ss1 & n & cur' & to & price & Hrun & Hs & Hg & Hu & Hn & Hcur' & Hnet & Hask' & _)].
    + exists ss1. split; [exact Hrun |]. split; [exact Hs | apply callsGrew_added, Hg].
    + exfalso. rewrite Hn, Hcur' in Hcur. injection Hcur as <-.
      rewrite Hask in Hask'. discriminate Hask'.
Qed.


(** X24. A request never leaves the status hanging on [asking]: when the
    first stage asked, the status at the end is [asking] exactly when the
    transaction was submitted and its events are listened to; in every
    other case it is one of [declined] (for the currency asked for),
    [failed], [wrong-chain] and [no-account]. When the first stage did
    not ask, the store is untouched. *)
Theorem asking_ends_in_listening_or_failure (ss : Session) (c : Charge) (w : WalletAnswers) :
  charge (store ss) = Some c ->
  exists ss',
    requestWeb3Run CURRENCIES_BY_NETWORK contractInfo ETH_CHAIN_ID ERC20_GAS_LIMIT
                   encodeErc20Transfer toHexWei true w ss = SDone tt ss'
    /\ (ImportWeb3 ∈ addedCalls ss ss' ->
        (web3Status (store ss') = w3asking
         <-> exists cur, ListenToTransaction cur ∈ addedCalls ss ss'))
    /\ (ImportWeb3 ∉ addedCalls ss ss' -> store ss' = store ss)
    /\ (ImportWeb3 ∈ addedCalls ss ss' ->
        web3Status (store ss') <> w3asking ->
        exists cur,
          currencyOf CURRENCIES_BY_NETWORK (pickedNetwork (store ss)) = Some cur
          /\ web3Status (store ss') ∈ failureStatuses cur).
Proof.
  intros Hc.
  destruct (requestWeb3Run_cases CURRENCIES_BY_NETWORK contractInfo ETH_CHAIN_ID
              ERC20_GAS_LIMIT encodeErc20Transfer toHexWei ss c w Hc)
    as [(ss' & Hrun & Hs & Hg) | (ss' & env & Hrun & Hg & Hw & _ & _ & Hcur & _)].
  - exists ss'. split; [exact Hrun |]. rewrite (callsGrew_added _ _ _ Hg).
    split; [intros Hin; apply elem_of_nil in Hin; destruct Hin |].
    split; [intros _; exact Hs | intros Hin; apply elem_of_nil in Hin; destruct Hin].
  - exists ss'. split; [exact Hrun |]. rewrite (callsGrew_added _ _ _ Hg).
    pose proof (walletOutcome_status ETH_CHAIN_ID ERC20_GAS_LIMIT encodeErc20Transfer
                  toHexWei env w) as Hst.
    pose proof (walletOutcome_failure ETH_CHAIN_ID ERC20_GAS_LIMIT encodeErc20Transfer
                  toHexWei env w) as Hfail.
    split; [| split].
    + intros _. rewrite Hw.
      destruct (fst (walletOutcome _ _ _ _ env w)) as [st|].
      * destruct Hst as [Hne Hno]. split; [intros E; contradiction |].
        intros [cur Hin]. exfalso. apply elem_of_app in Hin as [Hin | Hin].
        -- apply list_elem_of_In in Hin. cbn in Hin. intuition discriminate.
        -- exact (Hno cur Hin).
      * split; [| reflexivity]. intros _. exists (envCurrency env).
        apply elem_of_app. right. exact Hst.
    + intros Hno. exfalso. apply Hno. apply elem_of_app. left. constructor.
    + intros _ Hne. exists (envCurrency env). split; [exact Hcur |].
      rewrite Hw in Hne |- *.
      destruct (fst (walletOutcome _ _ _ _ env w)) as [st|].
      * apply Hfail. reflexivity.
      * contradiction.
Qed.

End DirectWalletTheorems.

(** ** Instances of the further properties *)

Lemma halfPricedCharge_ether_unpriced :
  is_Some (addresses halfPricedCharge !! "ethereum")
  /\ priceOf halfPricedCharge "ethereum" = None.
Proof.
  split; [| reflexivity].
  exists "0x419f91df39951fd4e8acc8f1874b01c0c78ceba6". reflexivity.
Defined.

Lemma poll_initial_not_reentrant_witness :
  let s := holding newCharge awaitingPayment None None in
  charge s = Some newCharge
  /\ pollTimeoutId s = None
  /\ exists s1 s2, poll true s = Done Suspended s1
                   /\ poll true s1 = Done (Settled tt) s2
                   /\ added s1 s2 = [ConsoleWarn "poll: already in a poll state"]
                   /\ pollTimeoutId s2 = pollTimeoutId s1.
Proof.
  intros s. split; [reflexivity |]. split; [reflexivity |].
  destruct (proj1 (poll_initial_not_reentrant s) newCharge eq_refl eq_refl)
    as (s1 & Hrun & _ & _ & s2 & Hrun2 & Hadd & Hid).
  exists s1, s2. auto.
Defined.

Lemma startPolling_restarts_witness :
  charge pollingStore = Some newCharge
  /\ exists s1, startPolling pollingStore = Done tt s1
                /\ pollTimeoutId s1 = Some 10%positive
                /\ expiryIntervalId s1 = Some 11%positive
                /\ pollStatus s1 = polling.
Proof.
  split; [reflexivity |].
  destruct (startPolling_restarts pollingStore newCharge eq_refl)
    as (s1 & Hrun & _ & Hp & He & Hs & _).
  exists s1. split; [exact Hrun |]. split; [exact Hp |]. split; [exact He | exact Hs].
Defined.

Lemma poll_success_resets_streak_witness :
  let s := set_pollErrorStreak 2 pollingStore in
  pollTimeoutId s = Some 1%positive
  /\ exists s', poll_resume (Fulfilled pendingCharge) s = Done tt s'
                /\ charge s' = Some pendingCharge
                /\ pollErrorStreak s' = 0
                /\ pollTimeoutId s' = Some 10%positive.
Proof.
  intros s. split; [reflexivity |].
  destruct (poll_success_resets_streak pendingCharge s 1%positive eq_refl)
    as (s' & l & Hrun & Hc & Hst & Hp & _).
  exists s'. split; [exact Hrun |]. split; [exact Hc |]. split; [exact Hst | exact Hp].
Defined.

Lemma poll_rearms_after_terminal_status_witness :
  pollTimeoutId pollingStore = Some 1%positive
  /\ charge pollingStore <> Some completedCharge
  /\ statusOf completedCharge = Some "COMPLETED"
  /\ terminalStep "COMPLETED" = Some successfulPayment
  /\ exists s', poll_resume (Fulfilled completedCharge) pollingStore = Done tt s'
                /\ step s' = Some successfulPayment
                /\ expiryIntervalId s' = None
                /\ pollTimeoutId s' = Some 10%positive
                /\ pollStatus s' = polling.
Proof.
  assert (Hne : charge pollingStore <> Some completedCharge).
  { intros H.
    apply (f_equal (fun o => match o with
                             | Some c => length (payments c)
                             | None => 0
                             end)) in H.
    discriminate H. }
  split; [reflexivity |]. split; [exact Hne |].
  split; [reflexivity |]. split; [reflexivity |].
  destruct (poll_rearms_after_terminal_status completedCharge pollingStore 1%positive
              "COMPLETED" successfulPayment eq_refl Hne eq_refl eq_refl)
    as (s' & Hrun & Hs & He & Hp & Hst & _).
  exists s'. split; [exact Hrun |]. split; [exact Hs |]. split; [exact He |].
  split; [exact Hp | exact Hst].
Defined.

Lemma maintenance_until_charge_changes_witness :
  pollTimeoutId pollingStore = Some 1%positive
  /\ isMaintenance maintenanceError = true
  /\ exists s1 s2,
      poll_resume (Rejected maintenanceError) pollingStore = Done tt s1
      /\ step s1 = Some maintenance
      /\ poll_resume (Fulfilled newCharge) (final (fire cbPoll s1)) = Done tt s2
      /\ step s2 = Some maintenance.
Proof.
  split; [reflexivity |]. split; [reflexivity |].
  destruct (maintenance_until_charge_changes maintenanceError pollingStore 1%positive
              eq_refl eq_refl)
    as (s1 & Hrun & Hs & _ & _ & _ & Hnext).
  destruct (Hnext newCharge eq_refl) as (s2 & Hrun2 & Hs2 & _).
  exists s1, s2. auto.
Defined.

Lemma failed_polls_accumulate_witness :
  charge pollingStore = Some newCharge
  /\ is_Some (pollTimeoutId pollingStore)
  /\ isMaintenance notFoundError = false
  /\ pollErrorStreak (deliverAll (failedCycles 4 notFoundError) pollingStore) = 4
  /\ pollStatus (deliverAll (failedCycles 4 notFoundError) pollingStore) = error.
Proof.
  assert (Hp : is_Some (pollTimeoutId pollingStore)) by (exists 1%positive; reflexivity).
  split; [reflexivity |]. split; [exact Hp |]. split; [reflexivity |].
  destruct (failed_polls_accumulate 4 notFoundError pollingStore newCharge
              eq_refl Hp eq_refl) as (Hst & _ & _ & _ & _ & Herr).
  split; [exact Hst |]. apply Herr. cbn. lia.
Defined.

Lemma streak_only_while_polling_witness :
  let evs := [ ChargeRequestSettled (Rejected notFoundError);
               TimerFired cbPoll;
               UserPaysWithCoinbase ] in
  streakOnlyWhilePolling pollingStore
  /\ streakOnlyWhilePolling (deliverAll evs pollingStore).
Proof.
  intros evs.
  assert (H0 : streakOnlyWhilePolling pollingStore) by (intros _; reflexivity).
  split; [exact H0 |].
  exact (proj1 (streak_only_while_polling evs pollingStore H0)).
Defined.

Lemma goBack_returns_exactly_from_backSteps_witness :
  let s := holding newCharge maintenance (Some 1%positive) None in
  charge s = Some newCharge
  /\ (step s ∉ backSteps)
  /\ goBack s = Thrown (NewError "can't go back from maintenance") s.
Proof.
  intros s.
  assert (Hno : step s ∉ backSteps).
  { intros H. apply list_elem_of_In in H. cbn in H.
    repeat (destruct H as [H | H]; [discriminate H |]). exact H. }
  split; [reflexivity |]. split; [exact Hno |].
  exact (proj2 (goBack_returns_exactly_from_backSteps s newCharge eq_refl) Hno).
Defined.

Lemma showNetworkPicker_skips_for_sole_network_witness :
  let s := holding (donationCharge ["NEW"]) networkPicker None None in
  charge s = Some (donationCharge ["NEW"])
  /\ addresses (donationCharge ["NEW"])
     = {[ "bitcoin" := "mymZkiXhQNd6VWWG7VGSVdDX9bKmviti3U" ]}
  /\ pricingType (donationCharge ["NEW"]) = "no_price"
  /\ exists s', showNetworkPicker s = Done tt s'
                /\ step s' = Some awaitingPayment
                /\ pickedNetwork s' = Some "bitcoin"
                /\ pollStatus s' = polling.
Proof.
  intros s. split; [reflexivity |]. split; [reflexivity |]. split; [reflexivity |].
  destruct (proj1 (showNetworkPicker_skips_for_sole_network s (donationCharge ["NEW"])
                     eq_refl)
              "bitcoin" "mymZkiXhQNd6VWWG7VGSVdDX9bKmviti3U" eq_refl
              (or_introl eq_refl))
    as (s' & Hrun & Hs & Hn & Hp & _).
  exists s'. split; [exact Hrun |]. split; [exact Hs |]. split; [exact Hn | exact Hp].
Defined.

Lemma networks_sorted_address_keys_witness :
  let s := store etherSession in
  charge s = Some etherCharge
  /\ exists l, networks s = Done l s
               /\ Sorted network_le l
               /\ NoDup l
               /\ length l = size (addresses etherCharge)
               /\ forall k, k ∈ l <-> is_Some (addresses etherCharge !! k).
Proof.
  intros s. split; [reflexivity |].
  exact (proj1 (networks_sorted_address_keys s) etherCharge eq_refl).
Defined.

Lemma restart_doubles_poll_chain_witness :
  let s' := deliverAll [ UserPicksNetwork "bitcoin";
                         ChargeRequestSettled (Fulfilled newCharge);
                         ChargeRequestSettled (Fulfilled newCharge);
                         TimerFired cbPoll;
                         TimerFired cbPoll ] pollingStore in
  charge pollingStore = Some newCharge
  /\ pollTimeoutId pollingStore = Some 1%positive
  /\ added pollingStore s' =
       [ Track "checkout:currency-picked"; Track "checkout:awaiting-payment-shown";
         ClearTimeout 1%positive; ClearInterval 2%positive;
         SetTimeout 10%positive cbNoop 0;
         GetChargeFromOrderCode "66BEOV2A";
         SetInterval 11%positive cbTick 1000;
         SetTimeout 12%positive cbPoll 2000;
         SetTimeout 13%positive cbPoll 2000;
         SetTimeout 14%positive cbNoop 0;
         GetChargeFromOrderCode "66BEOV2A";
         SetTimeout 15%positive cbNoop 0;
         GetChargeFromOrderCode "66BEOV2A" ].
Proof.
  intros s'. split; [reflexivity |]. split; [reflexivity |].
  exact (restart_doubles_poll_chain "bitcoin" pollingStore newCharge 1%positive
           eq_refl eq_refl).
Defined.


Lemma declined_survives_progress_events_witness :
  let s := set_web3Status (w3declined "ETH") pollingStore in
  let evs := [ TxConfirmation 1 (JsString "0x7b1cd1a0");
               TxReceipt (Some true);
               TxConfirmation 2 (JsString "0x7b1cd1a0") ] in
  web3Status s = w3declined "ETH"
  /\ Forall (fun ev => isProgress ev = true) evs
  /\ web3Status (deliverTx "ETH" evs s) = w3declined "ETH".
Proof.
  intros s evs.
  assert (Hall : Forall (fun ev => isProgress ev = true) evs)
    by (repeat constructor).
  split; [reflexivity |]. split; [exact Hall |].
  exact (proj1 (declined_survives_progress_events "ETH" "ETH" evs s eq_refl) Hall).
Defined.

Lemma canCancelCharge_only_while_new_witness :
  let c := btcCharge ["NEW"; "PENDING"] [] in
  let c' := btcCharge ["NEW"; "PENDING"; "NEW"] [] in
  canCancelCharge pollingStore = true
  /\ (statusOf newCharge = None \/ statusOf newCharge = Some "NEW")
  /\ timeline c' = (timeline c ++ drop (length (timeline c)) (timeline c'))%list
  /\ ~ Forall (fun t => status t = "NEW") (timeline c)
  /\ canCancelCharge (set_charge (Some c') pollingStore) = false.
Proof.
  intros c c'.
  assert (Hno : ~ Forall (fun t => status t = "NEW") (timeline c)).
  { intros H. cbn in H.
    inversion H as [| ? ? _ H2]. inversion H2 as [| ? ? H3 _]. discriminate H3. }
  split; [reflexivity |]. split.
  - exact (proj1 (proj2 (canCancelCharge_only_while_new pollingStore))
             eq_refl newCharge eq_refl).
  - split; [reflexivity |]. split; [exact Hno |].
    exact (proj2 (proj2 (canCancelCharge_only_while_new pollingStore)) c c' eq_refl Hno).
Defined.

Lemma lower_send_limit_throws_on_unpriced_address_witness :
  let s := holding halfPricedCharge networkPicker None None in
  charge s = Some halfPricedCharge
  /\ unpriced halfPricedCharge = false
  /\ is_Some (addresses halfPricedCharge !! "ethereum")
  /\ priceOf halfPricedCharge "ethereum" = None
  /\ exists e, setIsChargeBelowCoinbaseLowerSendLimit sampleNumber s = Thrown e s.
Proof.
  intros s. split; [reflexivity |]. split; [reflexivity |].
  split; [exact (proj1 halfPricedCharge_ether_unpriced) |].
  split; [reflexivity |].
  exact (lower_send_limit_throws_on_unpriced_address sampleNumber s halfPricedCharge
           "ethereum" eq_refl eq_refl (proj1 halfPricedCharge_ether_unpriced) eq_refl).
Defined.

Lemma setCharge_local_store_decides_step_witness :
  addressesPriced newCharge
  /\ is_Some (priceOf newCharge "local")
  /\ localStores returningSession !! code newCharge = Some true
  /\ exists ss', setCharge sampleNumber newCharge (Some sampleRate) None returningSession
                 = SDone tt ss'
                 /\ step (store ss') = Some successfulPayment
                 /\ pollTimeoutId (store ss') = None
                 /\ isOAuthPayment ss' = true.
Proof.
  assert (Hl : is_Some (priceOf newCharge "local")) by (exists localPrice; reflexivity).
  split; [exact newCharge_addresses_priced |]. split; [exact Hl |].
  split; [reflexivity |].
  destruct (setCharge_local_store_decides_step sampleNumber newCharge (Some sampleRate)
              None returningSession (or_intror newCharge_addresses_priced)
              (or_intror Hl) eq_refl)
    as (ss' & Hrun & _ & Hs & Hp & _ & Ho).
  exists ss'. split; [exact Hrun |]. split; [exact Hs |]. split; [exact Hp | exact Ho].
Defined.

Lemma setCharge_pwcb_decision_witness :
  addressesPriced newCharge
  /\ is_Some (priceOf newCharge "local")
  /\ exists ss', setCharge sampleNumber newCharge (Some sampleRate) None freshSession
                 = SDone tt ss'
                 /\ (isPwcbEnabled ss', pwcbError ss') =
                    pwcbDecision None (isChargeBelowCoinbaseLowerSendLimit (store ss'))
                      (set_usdChargeAmount (usdChargeAmount ss') freshSession).
Proof.
  assert (Hl : is_Some (priceOf newCharge "local")) by (exists localPrice; reflexivity).
  split; [exact newCharge_addresses_priced |]. split; [exact Hl |].
  destruct (setCharge_pwcb_decision sampleNumber newCharge (Some sampleRate)
              None freshSession (or_intror newCharge_addresses_priced) (or_intror Hl))
    as (ss' & Hrun & Hdec & _).
  exists ss'. split; [exact Hrun | exact Hdec].
Defined.

Lemma setCharge_initial_step_witness :
  unpriced (donationCharge ["NEW"]) = true
  /\ statusOf (donationCharge ["NEW"]) = Some "NEW"
  /\ localStores freshSession !! code (donationCharge ["NEW"]) <> Some true
  /\ exists ss', setCharge sampleNumber (donationCharge ["NEW"]) None None freshSession
                 = SDone tt ss'
                 /\ step (store ss') = Some awaitingPayment
                 /\ pickedNetwork (store ss') = Some "bitcoin"
                 /\ pollStatus (store ss') = polling.
Proof.
  assert (Hno : localStores freshSession !! code (donationCharge ["NEW"]) <> Some true)
    by (intros H; discriminate H).
  split; [reflexivity |]. split; [reflexivity |]. split; [exact Hno |].
  destruct (setCharge_initial_step sampleNumber (donationCharge ["NEW"]) None None
              freshSession (or_introl eq_refl) (or_introl eq_refl)
              (or_introl eq_refl) Hno)
    as (ss' & Hrun & _ & _ & Hp & _ & _ & Hsole & _).
  destruct (Hsole eq_refl "bitcoin" "mymZkiXhQNd6VWWG7VGSVdDX9bKmviti3U" eq_refl
              (or_introl eq_refl)) as [Hs Hn].
  exists ss'. split; [exact Hrun |]. split; [exact Hs |]. split; [exact Hn | exact Hp].
Defined.

Lemma setCharge_aborts_on_unpriced_address_witness :
  unpriced halfPricedCharge = false
  /\ is_Some (addresses halfPricedCharge !! "ethereum")
  /\ priceOf halfPricedCharge "ethereum" = None
  /\ exists e ss', setCharge sampleNumber halfPricedCharge None None freshSession
                   = SThrown e ss'
                   /\ store ss' = set_web3Status w3idle
                                    (set_charge (Some halfPricedCharge) freshStore)
                   /\ isPwcbEnabled ss' = true.
Proof.
  split; [reflexivity |]. split; [exact (proj1 halfPricedCharge_ether_unpriced) |].
  split; [reflexivity |].
  destruct (setCharge_aborts_on_unpriced_address sampleNumber halfPricedCharge None None
              freshSession "ethereum" eq_refl (proj1 halfPricedCharge_ether_unpriced)
              eq_refl)
    as (e & ss' & Hrun & Hs & _ & Hp & _).
  exists e, ss'. split; [exact Hrun |]. split; [exact Hs | exact Hp].
Defined.

Lemma requestWeb3_asks_at_most_once_witness :
  charge (store declinedSession) = Some etherCharge
  /\ currencyOf sampleCurrencies (pickedNetwork (store declinedSession)) = Some "ETH"
  /\ mayAsk (web3Status (store declinedSession)) "ETH" = false
  /\ exists ss', requestWeb3 sampleCurrencies sampleContractInfo true declinedSession
                 = SDone Returned ss'
                 /\ store ss' = store declinedSession
                 /\ addedCalls declinedSession ss' = [].
Proof.
  split; [reflexivity |]. split; [reflexivity |]. split; [reflexivity |].
  exact (proj2 (proj2 (requestWeb3_asks_at_most_once sampleCurrencies sampleContractInfo
                         declinedSession etherCharge eq_refl))
           "ETH" eq_refl eq_refl).
Defined.


Lemma asking_ends_in_listening_or_failure_witness :
  charge (store etherSession) = Some etherCharge
  /\ exists ss',
      requestWeb3Run sampleCurrencies sampleContractInfo (Some 1%Z) 100000%Z
                     sampleEncode sampleToHexWei true grantingWallet etherSession
      = SDone tt ss'
      /\ (ImportWeb3 ∈ addedCalls etherSession ss' ->
          (web3Status (store ss') = w3asking
           <-> exists cur, ListenToTransaction cur ∈ addedCalls etherSession ss')).
Proof.
  split; [reflexivity |].
  destruct (asking_ends_in_listening_or_failure sampleCurrencies sampleContractInfo
              (Some 1%Z) 100000%Z sampleEncode sampleToHexWei
              etherSession etherCharge grantingWallet eq_refl)
    as (ss' & Hrun & Hask & _).
  exists ss'. split; [exact Hrun | exact Hask].
Defined.

(** The sample request run through: the wallet is asked, the transaction
    for 0.01 ETH goes out from the first account, its events are listened
    to, and the status stays [asking] until they arrive. *)
Example ether_request_sends_transaction :
  let ss' := sfinal (requestWeb3Run sampleCurrencies sampleContractInfo (Some 1%Z)
                       100000%Z sampleEncode sampleToHexWei true grantingWallet
                       etherSession) in
  calls ss' = [ImportWeb3; EthereumEnable; GetChainId; GetAccounts;
               SendTransaction etherTransaction; ListenToTransaction "ETH"]
  /\ web3Status (store ss') = w3asking.
Proof.
  intros ss'. split; reflexivity.
Qed.

(** A wallet on another chain ends the request on [wrong-chain] before
    any account is read. *)
Example wrong_chain_stops_before_accounts :
  let w := {| enableAnswer := Fulfilled tt;
              importAnswer := Fulfilled tt;
              chainIdAnswer := Fulfilled 3%Z;
              accountsAnswer := Fulfilled (Some ["0x5aaeb6053f3e94c9b9a09f33669435e7ef1beaed"]);
              sendThrowsAnswer := None |} in
  let ss' := sfinal (requestWeb3Run sampleCurrencies sampleContractInfo (Some 1%Z)
                       100000%Z sampleEncode sampleToHexWei true w etherSession) in
  calls ss' = [ImportWeb3; EthereumEnable; GetChainId;
               StoreCall (ConsoleWarn "web3: wrong chain id")]
  /\ web3Status (store ss') = w3wrongChain.
Proof.
  intros w ss'. split; reflexivity.
Qed.
